(** * AuditReady backup-restoration scripts: a shallow embedding

    The repository is a set of one-shot Python scripts that parse a
    [pg_dump] plain-text backup, regenerate [UPDATE]/[INSERT] statements,
    split them into chunk files and recombine the chunks.  Each script is
    embedded below in a module named after its source file; the Python
    built-ins they rely on ([str.find], slicing, [str.split], [str.strip],
    [str.replace], [sorted], [dict] assignment, [re.findall] for the one
    pattern used) live in [PyStr] and [PyDict].

    Text is modelled as [string]: a character of the Python text is one
    [ascii] of the model, so the model covers texts whose characters are
    code points below 256.  The scripts inspect fixed ASCII characters
    (tab, newline, quote, backslash, letters and digits of fixed tokens)
    and, through [str.strip], white space; every other character is carried
    through untouched. *)

From Stdlib Require Import String Ascii List ZArith NArith Lia Bool Arith.
From Stdlib Require Import Permutation Sorted DecimalString DecimalNat FinFun.
Import ListNotations.

Open Scope list_scope.
Open Scope string_scope.

(** ** Python string primitives *)
Module PyStr.

Definition LF : ascii := "010"%char.
Definition TAB : ascii := "009"%char.
Definition QUOTE : ascii := "'"%char.
Definition BACKSLASH : ascii := "\"%char.

(** ["\n"] and ["\t"] as one-character strings. *)
Definition nl : string := String LF "".
Definition tab : string := String TAB "".

Definition nonempty (s : string) : bool :=
  match s with "" => false | _ => true end.

(** [str.isspace] on one character: among the code points below 256 the
    white space is 9-13, 28-31, 32, 133 (next line) and 160 (no-break
    space). *)
Definition isspace (c : ascii) : bool :=
  let n := N_of_ascii c in
  (((9 <=? n) && (n <=? 13)) || ((28 <=? n) && (n <=? 32))
   || (n =? 133) || (n =? 160))%N.

Fixpoint lstrip_with (p : ascii -> bool) (s : string) : string :=
  match s with
  | "" => ""
  | String c s' => if p c then lstrip_with p s' else s
  end.

Fixpoint rstrip_with (p : ascii -> bool) (s : string) : string :=
  match s with
  | "" => ""
  | String c s' =>
      let r := rstrip_with p s' in
      if p c && negb (nonempty r) then "" else String c r
  end.

(** [s.strip()] *)
Definition strip (s : string) : string :=
  rstrip_with isspace (lstrip_with isspace s).

(** [s.rstrip(c)] for a one-character argument. *)
Definition rstrip_char (c : ascii) (s : string) : string :=
  rstrip_with (Ascii.eqb c) s.

(** [s.split(sep)] for a one-character separator. *)
Fixpoint split (sep : ascii) (s : string) : list string :=
  match s with
  | "" => [""]
  | String c s' =>
      if Ascii.eqb c sep then "" :: split sep s'
      else match split sep s' with
           | [] => [String c ""]
           | h :: t => String c h :: t
           end
  end.

(** [sep.join(l)] *)
Definition join (sep : string) (l : list string) : string :=
  String.concat sep l.

(** [s.replace(c, by)] for a one-character pattern. *)
Fixpoint replace_char (c : ascii) (by_ : string) (s : string) : string :=
  match s with
  | "" => ""
  | String a s' =>
      if Ascii.eqb a c then by_ ++ replace_char c by_ s'
      else String a (replace_char c by_ s')
  end.

(** [s.replace("'", "''")] *)
Definition escape_quotes (s : string) : string :=
  replace_char QUOTE "''" s.

Fixpoint drop (n : nat) (s : string) : string :=
  match n, s with
  | O, _ => s
  | S n', String _ s' => drop n' s'
  | S _, "" => ""
  end.

Fixpoint take (n : nat) (s : string) : string :=
  match n, s with
  | S n', String c s' => String c (take n' s')
  | _, _ => ""
  end.

(** Offset of the first occurrence of [sub] in [s]. *)
Fixpoint find_nat (sub s : string) : option nat :=
  if String.prefix sub s then Some O
  else match s with
       | "" => None
       | String _ s' => option_map S (find_nat sub s')
       end.

(** [sub in s] *)
Definition contains (sub s : string) : bool :=
  match find_nat sub s with Some _ => true | None => false end.

Definition len (s : string) : Z := Z.of_nat (String.length s).

(** Python's adjustment of a slice bound: a negative bound counts from
    the end, and the result is clamped to [0, len]. *)
Definition clamp (s : string) (i : Z) : Z :=
  let i' := if (i <? 0)%Z then (i + len s)%Z else i in
  Z.min (Z.max 0 i') (len s).

(** [s.find(sub, start)]: -1 when there is no occurrence at or after
    [start]; a negative [start] counts from the end. *)
Definition find (s sub : string) (start : Z) : Z :=
  let i := if (start <? 0)%Z then Z.max 0 (start + len s) else start in
  if (len s <? i)%Z then (-1)%Z
  else match find_nat sub (drop (Z.to_nat i) s) with
       | Some k => (i + Z.of_nat k)%Z
       | None => (-1)%Z
       end.

(** [s[a:b]] *)
Definition slice (s : string) (a b : Z) : string :=
  let a' := clamp s a in
  let b' := clamp s b in
  take (Z.to_nat (b' - a')) (drop (Z.to_nat a') s).

Definition startswith (pre s : string) : bool := String.prefix pre s.

Definition endswith (suf s : string) : bool :=
  (String.length suf <=? String.length s)%nat
  && String.eqb (drop (String.length s - String.length suf) s) suf.

Definition lower_char (c : ascii) : ascii :=
  let n := N_of_ascii c in
  if ((65 <=? n) && (n <=? 90))%N then ascii_of_N (n + 32) else c.

Definition upper_char (c : ascii) : ascii :=
  let n := N_of_ascii c in
  if ((97 <=? n) && (n <=? 122))%N then ascii_of_N (n - 32) else c.

Fixpoint map_chars (f : ascii -> ascii) (s : string) : string :=
  match s with
  | "" => ""
  | String c s' => String (f c) (map_chars f s')
  end.

(** [s.lower()] and [s.upper()] on the ASCII range. *)
Definition lower : string -> string := map_chars lower_char.
Definition upper : string -> string := map_chars upper_char.

(** [str(n)] for a non-negative integer. *)
Definition str_of_nat (n : nat) : string :=
  NilZero.string_of_uint (Nat.to_uint n).

(** The format [{n:02d}]: decimal, padded with zeros on the left to a
    width of at least two. *)
Definition format_02d (n : nat) : string :=
  let s := str_of_nat n in
  if (String.length s <? 2)%nat then "0" ++ s else s.

(** Occurrences of a character. *)
Fixpoint count_char (c : ascii) (s : string) : nat :=
  match s with
  | "" => O
  | String a s' => (if Ascii.eqb a c then 1 else 0) + count_char c s'
  end.

(** [sorted(l, key=lambda x: x[0])] on pairs keyed by a string: Python's
    sort is stable and compares keys by code point, lexicographically.
    It is embedded as the stable insertion sort, which computes the one
    stable sorted rearrangement. *)
Section Sorted.
Context {V : Type}.

Fixpoint insert_by_key (x : string * V) (l : list (string * V))
  : list (string * V) :=
  match l with
  | [] => [x]
  | y :: l' =>
      if String.leb (fst x) (fst y) then x :: l
      else y :: insert_by_key x l'
  end.

Definition sorted_by_key (l : list (string * V)) : list (string * V) :=
  fold_right insert_by_key [] l.
End Sorted.

End PyStr.

(** ** Python's insertion-ordered [dict], keyed by strings *)
Module PyDict.
Section Dict.
Context {V : Type}.

Definition dict := list (string * V).

(** [d[k] = v]: an existing key keeps its position and takes the new
    value; a new key is appended. *)
Fixpoint set (k : string) (v : V) (d : dict) : dict :=
  match d with
  | [] => [(k, v)]
  | (k', v') :: d' =>
      if String.eqb k' k then (k', v) :: d'
      else (k', v') :: set k v d'
  end.

Fixpoint get (k : string) (d : dict) : option V :=
  match d with
  | [] => None
  | (k', v') :: d' => if String.eqb k' k then Some v' else get k d'
  end.

Definition keys (d : dict) : list string := map fst d.
Definition values (d : dict) : list V := map snd d.
End Dict.
Arguments dict V : clear implicits.
End PyDict.

(** ** [execute_restoration.py]: light extraction and UPDATE generation *)
Module ExecuteRestoration.
Import PyStr.

(** The value stored per requirement id. *)
Record req_data := mk_req_data {
  standard_id : string;
  control_id : string;
  title : string;
  description : string
}.

(** One iteration of the parsing loop over the data lines. *)
Definition parse_line (requirements : PyDict.dict req_data) (line : string)
  : PyDict.dict req_data :=
  let parts := split TAB line in
  if (5 <=? List.length parts)%nat then
    let req_id := nth 0 parts "" in
    PyDict.set req_id
      (mk_req_data (nth 1 parts "") (nth 2 parts "") (nth 3 parts "")
         (nth 4 parts ""))
      requirements
  else requirements.

(** The non-blank lines of the text between the position computed for
    the start of the data and the next [\.] terminator. *)
Definition requirement_lines (content : string) : list string :=
  let req_start := find content "COPY public.requirements_library" 0 in
  let req_data_start :=
    (find content "FROM stdin;" req_start + len "FROM stdin;" + 1)%Z in
  let req_data_end := find content "\." req_data_start in
  let req_section := strip (slice content req_data_start req_data_end) in
  filter (fun line => nonempty (strip line)) (split LF req_section).

Definition extract_requirements_from_backup (content : string)
  : PyDict.dict req_data :=
  fold_left parse_line (requirement_lines content) [].

Definition target_standards : PyDict.dict string :=
  [ ("iso27001", "55742f4e-769b-4efe-912c-1371de5e1cd6");
    ("iso27002", "8508cfb0-3457-4226-b39a-851be52ef7ea");
    ("cis_ig1", "afe9728d-2084-4b6b-8653-b04e1e92cdff");
    ("cis_ig2", "05501cbc-c463-4668-ae84-9acb1a4d5332");
    ("cis_ig3", "b1d9e82f-b0c3-40e2-89d7-4c51e216214e") ].

Definition header_lines : list string :=
  [ "-- Requirements Restoration SQL";
    "-- Updates ONLY titles and descriptions from backup";
    "-- Preserves all other columns and recent changes";
    "" ].

(** The seven lines appended for one requirement. *)
Definition update_lines (item : string * req_data) : list string :=
  let '(req_id, d) := item in
  let title := escape_quotes (title d) in
  let description := escape_quotes (description d) in
  [ "-- Update " ++ control_id d ++ ": " ++ take 60 title ++ "...";
    "UPDATE requirements_library SET";
    "  title = '" ++ title ++ "',";
    "  description = '" ++ description ++ "',";
    "  updated_at = NOW()";
    "WHERE id = '" ++ req_id ++ "';";
    "" ].

(** The requirements whose standard is one of the five targets. *)
Definition target_requirements (backup_requirements : PyDict.dict req_data)
  : PyDict.dict req_data :=
  filter
    (fun item =>
       existsb (String.eqb (standard_id (snd item)))
         (PyDict.values target_standards))
    backup_requirements.

(** The lines appended for one target standard. *)
Definition standard_lines (targets : PyDict.dict req_data)
    (std : string * string) : list string :=
  let '(std_name, std_id) := std in
  let std_requirements :=
    filter (fun item => String.eqb (standard_id (snd item)) std_id) targets in
  match std_requirements with
  | [] => []
  | _ =>
      let heading :=
        "-- " ++ upper std_name ++ " Requirements ("
          ++ str_of_nat (List.length std_requirements) ++ " total)" in
      heading :: "" :: flat_map update_lines std_requirements
  end.

(** [l[-1] = f(l[-1])] on a non-empty list. *)
Fixpoint update_last (f : string -> string) (l : list string) : list string :=
  match l with
  | [] => []
  | [x] => [f x]
  | x :: l' => x :: update_last f l'
  end.

Definition verification_head : list string :=
  [ "-- Verification Queries";
    "SELECT ";
    "  sl.name as standard_name,";
    "  COUNT(*) as requirement_count";
    "FROM requirements_library rl";
    "JOIN standards_library sl ON rl.standard_id = sl.id";
    "WHERE sl.id IN (" ].

Definition verification_tail : list string :=
  [ ")"; "GROUP BY sl.name, sl.id"; "ORDER BY sl.name;" ].

(** The list [sql_statements] when the function returns. *)
Definition sql_statements (content : string) : list string :=
  let backup_requirements := extract_requirements_from_backup content in
  let targets := target_requirements backup_requirements in
  let id_lines :=
    map (fun std_id => "  '" ++ std_id ++ "',")
      (PyDict.values target_standards) in
  let body :=
    (header_lines
     ++ flat_map (standard_lines targets) target_standards
     ++ verification_head
     ++ id_lines)%list in
  (update_last (rstrip_char ",") body ++ verification_tail)%list.

(** The separator of the final join, as the source spells it: a backslash
    followed by the letter n. *)
Definition line_separator : string := "\n".

Definition generate_restoration_sql (content : string) : string :=
  join line_separator (sql_statements content).

(** [main] writes the generated text to [requirements_restoration.sql]. *)
Definition main (content : string) : string * string :=
  ("requirements_restoration.sql", generate_restoration_sql content).

End ExecuteRestoration.

(** ** [execute_sql_chunks.py]: the Batcher *)
Module ExecuteSqlChunks.
Import PyStr.

(** Length of the longest prefix without a quote: what [[^']+] consumes. *)
Fixpoint span_nonquote (s : string) : nat :=
  match s with
  | "" => O
  | String c s' => if Ascii.eqb c QUOTE then O else S (span_nonquote s')
  end.

(** The pattern suffix [WHERE id = '[^']+';] matched at the head of [s];
    the result is the number of characters matched. *)
Definition match_where (s : string) : option nat :=
  if String.prefix "WHERE id = '" s then
    let r := drop 12 s in
    let k := span_nonquote r in
    if (1 <=? k)%nat && String.prefix "';" (drop k r)
    then Some (12 + k + 2)%nat else None
  else None.

(** The lazy [.*?] under DOTALL: the least offset at which the suffix
    matches, with the length matched there. *)
Fixpoint find_where (s : string) : option (nat * nat) :=
  match match_where s with
  | Some n => Some (O, n)
  | None =>
      match s with
      | "" => None
      | String _ s' =>
          match find_where s' with
          | Some (j, n) => Some (S j, n)
          | None => None
          end
      end
  end.

(** The leftmost match of [-- Update.*?WHERE id = '[^']+';] in [s]:
    its start and its length. *)
Definition first_match (s : string) : option (nat * nat) :=
  match find_nat "-- Update" s with
  | None => None
  | Some p =>
      match find_where (drop (p + 9) s) with
      | None => None
      | Some (j, n) => Some (p, 9 + j + n)%nat
      end
  end.

Fixpoint findall_fuel (fuel : nat) (s : string) : list string :=
  match fuel with
  | O => []
  | S fuel' =>
      match first_match s with
      | None => []
      | Some (p, m) =>
          take m (drop p s) :: findall_fuel fuel' (drop (p + m) s)
      end
  end.

(** [re.findall(r'-- Update.*?WHERE id = \'[^\']+\';', s, re.DOTALL)]:
    the non-overlapping matches, left to right.  Every match is at least
    24 characters long, so the length of [s] bounds their number. *)
Definition findall_updates (s : string) : list string :=
  findall_fuel (String.length s) s.

(** [range(0, stop, step)] for a positive step. *)
Definition range_step (stop step : nat) : list nat :=
  map (fun k => k * step)%nat (seq 0 ((stop + step - 1) / step)).

(** The successive values of [chunk] in the loop: [updates[i:i+chunk_size]]
    for [i] in [range(0, len(updates), chunk_size)]. *)
Definition groups (chunk_size : nat) (updates : list string)
  : list (list string) :=
  map (fun i => firstn chunk_size (skipn i updates))
    (range_step (List.length updates) chunk_size).

(** [range] raises [ValueError] on a zero step ([None]) and is empty on a
    negative one. *)
Definition split_sql_into_chunks (sql_content : string) (chunk_size : Z)
  : option (list string) :=
  let updates := findall_updates sql_content in
  if (chunk_size =? 0)%Z then None
  else if (chunk_size <? 0)%Z then Some []
  else Some (map (join (nl ++ nl)) (groups (Z.to_nat chunk_size) updates)).

(** [enumerate(chunks)] *)
Definition enumerate {A : Type} (l : list A) : list (nat * A) :=
  combine (seq 0 (List.length l)) l.

Definition chunk_file (i : nat) : string :=
  "sql_chunk_" ++ format_02d (i + 1) ++ ".sql".

(** The files written by the loop of [main], in the order written. *)
Definition write_chunks (chunks : list string) : list (string * string) :=
  map (fun ic => (chunk_file (fst ic), snd ic)) (enumerate chunks).

(** [main]: the chunk size is fixed to 8. *)
Definition main (sql_content : string) : option (list (string * string)) :=
  option_map write_chunks (split_sql_into_chunks sql_content 8).

End ExecuteSqlChunks.

(** ** [bulk_restore_all.py]: the Aggregator *)
Module BulkRestoreAll.
Import PyStr.

(** [glob.glob("sql_chunk_*.sql")] on one directory entry. *)
Definition glob_match (name : string) : bool :=
  startswith "sql_chunk_" name && endswith ".sql" name
  && (14 <=? String.length name)%nat.

(** [sorted(glob.glob("sql_chunk_*.sql"))] over a directory given as the
    list of its entries with their contents. *)
Definition chunk_files (dir : list (string * string))
  : list (string * string) :=
  sorted_by_key (filter (fun f => glob_match (fst f)) dir).

(** The loop state: [all_sql], [in_update], [current_update]. *)
Definition state := (list string * bool * list string)%type.

Definition step (st : state) (line : string) : state :=
  let '(all_sql, in_update, current_update) := st in
  if startswith "UPDATE requirements_library SET" (strip line) then
    (all_sql, true, [line])
  else if in_update then
    let current_update := (current_update ++ [line])%list in
    if endswith ";" (strip line) then
      ((all_sql ++ current_update ++ [""])%list, false, [])
    else (all_sql, true, current_update)
  else st.

(** The body of the loop over chunk files: [in_update] and
    [current_update] start afresh for every file. *)
Definition process_file (all_sql : list string) (content : string)
  : list string :=
  fst (fst (fold_left step (split LF content) (all_sql, false, []))).

Definition header : list string :=
  [ "-- COMPLETE REQUIREMENTS RESTORATION";
    "-- Restoring ALL requirements from July 19th backup";
    "" ].

(** The list [all_sql] when the function returns. *)
Definition all_sql (dir : list (string * string)) : list string :=
  fold_left process_file (map snd (chunk_files dir)) header.

Definition create_complete_sql (dir : list (string * string)) : string :=
  join nl (all_sql dir).

End BulkRestoreAll.

(** ** [restore_requirements.py]: guarded parsing and the Standard Resolver *)
Module RestoreRequirements.
Import PyStr.

(** An entry of a per-standard requirement list. *)
Record requirement := mk_requirement {
  id : string;
  control_id : string;
  title : string;
  description : string;
  full_line : string
}.

Definition parse_standard (standard_map : PyDict.dict string) (line : string)
  : PyDict.dict string :=
  if nonempty (strip line) then
    let parts := split TAB line in
    if (3 <=? List.length parts)%nat then
      let std_id := nth 0 parts "" in
      let std_name := nth 1 parts "" in
      let std_version :=
        if (2 <? List.length parts)%nat then nth 2 parts "" else "" in
      PyDict.set std_id (strip (std_name ++ " " ++ std_version)) standard_map
    else standard_map
  else standard_map.

Definition parse_requirement
    (requirements_by_standard : PyDict.dict (list requirement))
    (line : string) : PyDict.dict (list requirement) :=
  let parts := split TAB line in
  if (5 <=? List.length parts)%nat then
    let standard_id := nth 1 parts "" in
    let r :=
      mk_requirement (nth 0 parts "") (nth 2 parts "") (nth 3 parts "")
        (nth 4 parts "") line in
    let present :=
      match PyDict.get standard_id requirements_by_standard with
      | Some l => l
      | None => []
      end in
    PyDict.set standard_id (present ++ [r])%list requirements_by_standard
  else requirements_by_standard.

(** [None] stands for the pair [(None, None)] returned after the error
    message. *)
Definition extract_backup_data (content : string)
  : option (PyDict.dict string * PyDict.dict (list requirement)) :=
  let standards_start := find content "COPY public.standards_library" 0 in
  if (standards_start =? -1)%Z then None
  else
    let standards_data_start :=
      (find content "FROM stdin;" standards_start + len "FROM stdin;" + 1)%Z in
    let standards_data_end := find content "\." standards_data_start in
    let standards_section :=
      strip (slice content standards_data_start standards_data_end) in
    let standard_map :=
      fold_left parse_standard (split LF standards_section) [] in
    let req_start := find content "COPY public.requirements_library" 0 in
    if (req_start =? -1)%Z then None
    else
      let req_data_start :=
        (find content "FROM stdin;" req_start + len "FROM stdin;" + 1)%Z in
      let req_data_end := find content "\." req_data_start in
      let req_section :=
        strip (slice content req_data_start req_data_end) in
      let lines :=
        filter (fun line => nonempty (strip line)) (split LF req_section) in
      Some (standard_map, fold_left parse_requirement lines []).

(** The five local variables of [find_target_standards], which are also
    the five entries of the mapping it returns. *)
Record targets := mk_targets {
  iso27001_id : option string;
  iso27002_id : option string;
  cis_ig1_id : option string;
  cis_ig2_id : option string;
  cis_ig3_id : option string
}.

Definition no_targets : targets := mk_targets None None None None None.

(** The body of the loop over [standard_map.items()]. *)
Definition assign (t : targets) (item : string * string) : targets :=
  let '(std_id, name) := item in
  let name_lower := lower name in
  if contains "iso" name_lower && contains "27001" name_lower then
    mk_targets (Some std_id) (iso27002_id t) (cis_ig1_id t) (cis_ig2_id t)
      (cis_ig3_id t)
  else if contains "iso" name_lower && contains "27002" name_lower then
    mk_targets (iso27001_id t) (Some std_id) (cis_ig1_id t) (cis_ig2_id t)
      (cis_ig3_id t)
  else if contains "cis" name_lower && contains "ig1" name_lower then
    mk_targets (iso27001_id t) (iso27002_id t) (Some std_id) (cis_ig2_id t)
      (cis_ig3_id t)
  else if contains "cis" name_lower && contains "ig2" name_lower then
    mk_targets (iso27001_id t) (iso27002_id t) (cis_ig1_id t) (Some std_id)
      (cis_ig3_id t)
  else if contains "cis" name_lower && contains "ig3" name_lower then
    mk_targets (iso27001_id t) (iso27002_id t) (cis_ig1_id t) (cis_ig2_id t)
      (Some std_id)
  else t.

(** The second argument only feeds the printed report. *)
Definition find_target_standards (standard_map : PyDict.dict string)
    (requirements_by_standard : PyDict.dict (list requirement)) : targets :=
  fold_left assign standard_map no_targets.

End RestoreRequirements.

(** ** [create_insert_statements.py]: full-row INSERT generation *)
Module CreateInsertStatements.
Import PyStr.

Definition iso27001_id : string := "55742f4e-769b-4efe-912c-1371de5e1cd6".
Definition iso27002_id : string := "8508cfb0-3457-4226-b39a-851be52ef7ea".

(** [x if x != '\\N' else 'NULL'] *)
Definition null_or (x : string) : string :=
  if negb (String.eqb x "\N") then x else "NULL".

(** [if x != 'NULL': x = f"'{x}'"] *)
Definition quote_unless_null (x : string) : string :=
  if negb (String.eqb x "NULL") then "'" ++ x ++ "'" else x.

(** The text interpolated for each of the six nullable columns, in the
    order of the assignments in the source. *)
Definition render_parent_requirement_id (p : string) : string :=
  quote_unless_null (null_or p).

Definition render_tags (p : string) : string :=
  quote_unless_null (null_or p).

Definition render_official_description (p : string) : string :=
  null_or p.

Definition render_implementation_guidance (p : string) : string :=
  null_or p.

Definition render_audit_ready_guidance (p : string) : string :=
  let audit_ready_guidance := null_or p in
  if negb (String.eqb audit_ready_guidance "NULL")
  then "'" ++ escape_quotes audit_ready_guidance ++ "'"
  else audit_ready_guidance.

Definition render_section (p : string) : string :=
  quote_unless_null (null_or p).

(** The f-string [insert_sql] for a row of at least 18 fields. *)
Definition insert_sql (parts : list string) : string :=
  let f := fun i => nth i parts "" in
  let req_id := f 0%nat in
  let standard_id := f 1%nat in
  let control_id := f 2%nat in
  let title := escape_quotes (f 3%nat) in
  let description := escape_quotes (f 4%nat) in
  let category := escape_quotes (f 5%nat) in
  let priority := f 6%nat in
  let parent_requirement_id := render_parent_requirement_id (f 7%nat) in
  let order_index := f 8%nat in
  let created_at := f 9%nat in
  let updated_at := f 10%nat in
  let is_active := f 11%nat in
  let tags := render_tags (f 12%nat) in
  let official_description := render_official_description (f 13%nat) in
  let implementation_guidance := render_implementation_guidance (f 14%nat) in
  let audit_ready_guidance := render_audit_ready_guidance (f 15%nat) in
  let section := render_section (f 16%nat) in
  "INSERT INTO requirements_library (" ++ nl
  ++ "    id, standard_id, control_id, title, description, category, priority, " ++ nl
  ++ "    parent_requirement_id, order_index, created_at, updated_at, is_active, " ++ nl
  ++ "    tags, official_description, implementation_guidance, audit_ready_guidance, section" ++ nl
  ++ ") VALUES (" ++ nl
  ++ "    '" ++ req_id ++ "', '" ++ standard_id ++ "', '" ++ control_id
  ++ "', '" ++ title ++ "', '" ++ description ++ "', " ++ nl
  ++ "    '" ++ category ++ "', '" ++ priority ++ "', "
  ++ parent_requirement_id ++ ", " ++ order_index ++ ", " ++ nl
  ++ "    '" ++ created_at ++ "', '" ++ updated_at ++ "', " ++ is_active
  ++ ", " ++ tags ++ ", " ++ official_description ++ ", " ++ nl
  ++ "    " ++ implementation_guidance ++ ", " ++ audit_ready_guidance
  ++ ", " ++ section ++ nl
  ++ ");".

(** The two lists built by the loop: [(control_id, insert_sql)] pairs. *)
Definition inserts := (list (string * string) * list (string * string))%type.

Definition parse_line (acc : inserts) (line : string) : inserts :=
  let parts := split TAB line in
  if (18 <=? List.length parts)%nat then
    let standard_id := nth 1 parts "" in
    let control_id := nth 2 parts "" in
    if String.eqb standard_id iso27001_id then
      (fst acc ++ [(control_id, insert_sql parts)], snd acc)%list
    else if String.eqb standard_id iso27002_id then
      (fst acc, snd acc ++ [(control_id, insert_sql parts)])%list
    else acc
  else acc.

Definition requirement_lines (content : string) : list string :=
  let req_start := find content "COPY public.requirements_library" 0 in
  let req_data_start :=
    (find content "FROM stdin;" req_start + len "FROM stdin;" + 1)%Z in
  let req_data_end := find content "\." req_data_start in
  let req_section := strip (slice content req_data_start req_data_end) in
  filter (fun line => nonempty (strip line)) (split LF req_section).

Definition extract_requirements_for_insert (content : string) : inserts :=
  fold_left parse_line (requirement_lines content) ([], []).

(** The three writes of one loop iteration of [main]; the separators are
    spelled backslash, n in the source. *)
Definition entry_text (e : string * string) : string :=
  "-- Insert " ++ fst e ++ "\n" ++ snd e ++ "\n\n".

Definition iso27001_header : string :=
  "-- ISO 27001 Requirements INSERT Statements\n"
  ++ "-- Generated from July 19th backup\n\n".

Definition iso27002_header : string :=
  "-- ISO 27002 Requirements INSERT Statements (Sample)\n"
  ++ "-- Generated from July 19th backup\n\n".

(** The entries written to each file, in the order written. *)
Definition iso27001_written (content : string) : list (string * string) :=
  sorted_by_key (fst (extract_requirements_for_insert content)).

Definition iso27002_written (content : string) : list (string * string) :=
  firstn 20 (sorted_by_key (snd (extract_requirements_for_insert content))).

Definition file_text (header : string) (entries : list (string * string))
  : string :=
  header ++ String.concat "" (map entry_text entries).

(** [main]: the two files and their contents. *)
Definition main (content : string) : list (string * string) :=
  [ ("iso27001_inserts.sql",
     file_text iso27001_header (iso27001_written content));
    ("iso27002_inserts_sample.sql",
     file_text iso27002_header (iso27002_written content)) ].

End CreateInsertStatements.

(** ** [complete_restoration.py]: the chunk runner *)
Module CompleteRestoration.
Import PyStr.

(** The working directory: file names with their contents. *)
Definition directory := PyDict.dict string.

(** [os.path.exists] *)
Definition exists_file (dir : directory) (name : string) : bool :=
  match PyDict.get name dir with Some _ => true | None => false end.

(** [f'sql_chunk_{chunk_num:02d}.sql'] *)
Definition chunk_file (chunk_num : nat) : string :=
  "sql_chunk_" ++ format_02d chunk_num ++ ".sql".

(** The lines kept by the clean-up loop: not blank and not a comment. *)
Definition sql_lines (sql_content : string) : list string :=
  filter
    (fun line =>
       nonempty (strip line) && negb (startswith "--" (strip line)))
    (split LF sql_content).

Definition run_sql_chunk (dir : directory) (chunk_num : nat)
    (project_id : string) : bool :=
  match PyDict.get (chunk_file chunk_num) dir with
  | None => false
  | Some sql_content =>
      let cleaned_sql := join nl (sql_lines sql_content) in
      nonempty (strip cleaned_sql)
  end.

(** The counting loop of [main] from index [i] on, with [fuel] indices
    left in [range(1, 100)]: it stops at the first missing file. *)
Fixpoint count_from (dir : directory) (i fuel chunk_count : nat) : nat :=
  match fuel with
  | O => chunk_count
  | S fuel' =>
      if exists_file dir (chunk_file i)
      then count_from dir (S i) fuel' i
      else chunk_count
  end.

(** [chunk_count] after the loop over [range(1, 100)]. *)
Definition chunk_count (dir : directory) : nat := count_from dir 1 99 0.

Definition project_id : string := "quoqvqgijsbwqkqotjys".

(** [executed] after the second loop of [main]. *)
Definition executed (dir : directory) : nat :=
  List.length
    (filter (fun i => run_sql_chunk dir i project_id)
       (seq 1 (chunk_count dir))).

(** [main]: the two numbers it reports. *)
Definition main (dir : directory) : nat * nat :=
  (chunk_count dir, executed dir).

End CompleteRestoration.

(** ** [restore_requirements.py]: the analysis of [main] *)
Module RestoreRequirementsMain.
Import PyStr RestoreRequirements.

Definition is_digit (c : ascii) : bool :=
  let n := N_of_ascii c in ((48 <=? n) && (n <=? 57))%N.

(** What may follow the first digit under [[0-9]+$]: more digits, then the
    end of the text or one newline that ends it. *)
Fixpoint digits_to_end (s : string) : bool :=
  match s with
  | "" => true
  | String c rest =>
      if is_digit c then digits_to_end rest
      else Ascii.eqb c LF && negb (nonempty rest)
  end.

(** [re.match(r'^[4-9]\.[0-9]+$', control_id)] *)
Definition format_match (control_id : string) : bool :=
  match control_id with
  | String c (String dot (String d rest)) =>
      let n := N_of_ascii c in
      ((52 <=? n) && (n <=? 57))%N && Ascii.eqb dot "." && is_digit d
      && digits_to_end rest
  | _ => false
  end.

(** [requirements_by_standard.get(target, [])], where an unresolved target
    is the key [None], which no parsed standard has. *)
Definition requirements_of (target : option string)
    (requirements_by_standard : PyDict.dict (list requirement))
  : list requirement :=
  match target with
  | Some k =>
      match PyDict.get k requirements_by_standard with
      | Some reqs => reqs
      | None => []
      end
  | None => []
  end.

(** The numbers [main] prints. *)
Record summary := mk_summary {
  total_standards : nat;
  total_requirements : nat;
  iso27002_count : nat;
  iso27001_count : nat;
  iso27001_format_count : nat
}.

Definition is_empty {A : Type} (l : list A) : bool :=
  match l with [] => true | _ => false end.

(** [main]: [None] stands for [sys.exit(1)], taken when the parser returned
    the error pair or one of the two mappings is empty. *)
Definition main (content : string) : option summary :=
  match extract_backup_data content with
  | None => None
  | Some (standard_map, requirements_by_standard) =>
      if is_empty standard_map || is_empty requirements_by_standard then None
      else
        let target_standards :=
          find_target_standards standard_map requirements_by_standard in
        let iso27002_reqs :=
          requirements_of (iso27002_id target_standards)
            requirements_by_standard in
        let iso27001_reqs :=
          requirements_of (iso27001_id target_standards)
            requirements_by_standard in
        Some
          (mk_summary
             (List.length standard_map)
             (list_sum
                (map (@List.length requirement)
                   (PyDict.values requirements_by_standard)))
             (List.length iso27002_reqs)
             (List.length iso27001_reqs)
             (List.length
                (filter (fun req => format_match (control_id req))
                   iso27001_reqs)))
  end.

End RestoreRequirementsMain.

(** * Vocabulary of the properties *)

(** ** Standard Resolver *)
Module Resolver.
Import PyStr RestoreRequirements.

(** The five targets, in the order of the [if]/[elif] chain. *)
Inductive target := Iso27001 | Iso27002 | CisIg1 | CisIg2 | CisIg3.

Definition framework_token (t : target) : string :=
  match t with
  | Iso27001 | Iso27002 => "iso"
  | CisIg1 | CisIg2 | CisIg3 => "cis"
  end.

Definition sub_token (t : target) : string :=
  match t with
  | Iso27001 => "27001"
  | Iso27002 => "27002"
  | CisIg1 => "ig1"
  | CisIg2 => "ig2"
  | CisIg3 => "ig3"
  end.

(** Both tokens of [t] occur in the lower-cased name. *)
Definition matches_tokens (t : target) (name : string) : bool :=
  contains (framework_token t) (lower name)
  && contains (sub_token t) (lower name).

(** The targets tested before [t] in the chain. *)
Definition earlier (t : target) : list target :=
  match t with
  | Iso27001 => []
  | Iso27002 => [Iso27001]
  | CisIg1 => [Iso27001; Iso27002]
  | CisIg2 => [Iso27001; Iso27002; CisIg1]
  | CisIg3 => [Iso27001; Iso27002; CisIg1; CisIg2]
  end.

(** The name reaches the branch of [t]: it matches the tokens of [t] and
    of no target tested earlier. *)
Definition selects (t : target) (name : string) : bool :=
  matches_tokens t name
  && forallb (fun t' => negb (matches_tokens t' name)) (earlier t).

(** The entry of the returned mapping for target [t]. *)
Definition result_of (t : target) (r : targets) : option string :=
  match t with
  | Iso27001 => iso27001_id r
  | Iso27002 => iso27002_id r
  | CisIg1 => cis_ig1_id r
  | CisIg2 => cis_ig2_id r
  | CisIg3 => cis_ig3_id r
  end.

(** Identifier of the first standard, in iteration order, whose name
    matches the tokens of [t]. *)
Definition first_matching (t : target) (standard_map : PyDict.dict string)
  : option string :=
  option_map fst
    (List.find (fun item => matches_tokens t (snd item)) standard_map).

(** Identifier of the last standard, in iteration order, whose name
    reaches the branch of [t]. *)
Definition last_selected (t : target) (standard_map : PyDict.dict string)
  : option string :=
  option_map fst
    (List.find (fun item => selects t (snd item)) (rev standard_map)).

(** Two standards that both match ISO 27001. *)
Definition two_iso27001 : PyDict.dict string :=
  [ ("std-a", "ISO/IEC 27001 2013"); ("std-b", "ISO/IEC 27001 2022") ].

End Resolver.

(** ** The light-extraction parser as a dictionary build *)
Module LightRows.
Import PyStr ExecuteRestoration.

(** A data line the loop accepts: at least five tab-separated fields. *)
Definition well_formed (line : string) : bool :=
  (5 <=? List.length (split TAB line))%nat.

Definition row_id (line : string) : string := nth 0 (split TAB line) "".

Definition row_data (line : string) : req_data :=
  let parts := split TAB line in
  mk_req_data (nth 1 parts "") (nth 2 parts "") (nth 3 parts "")
    (nth 4 parts "").

(** The accepted data lines of a backup, in file order. *)
Definition rows (content : string) : list string :=
  filter well_formed (requirement_lines content).

(** The last accepted line carrying the requirement id [k]. *)
Definition last_row (k : string) (content : string) : option string :=
  List.find (fun line => String.eqb (row_id line) k) (rev (rows content)).

(** A requirements block in which two rows share the id [r1]. *)
Definition duplicate_id_backup : string :=
  "COPY public.requirements_library (id, standard_id, control_id, title, description) FROM stdin;"
  ++ nl ++ join tab ["r1"; "s1"; "4.1"; "Old title"; "Old text"]
  ++ nl ++ join tab ["r1"; "s1"; "4.1"; "New title"; "New text"]
  ++ nl ++ "\." ++ nl.

(** A requirements block whose second line holds four tabs and nothing
    else. *)
Definition blank_row_backup : string :=
  "COPY public.requirements_library (id, standard_id, control_id, title, description) FROM stdin;"
  ++ nl ++ join tab ["r1"; "s1"; "4.1"; "Title 1"; "Text 1"]
  ++ nl ++ join tab [""; ""; ""; ""; ""]
  ++ nl ++ join tab ["r2"; "s1"; "4.2"; "Title 2"; "Text 2"]
  ++ nl ++ "\." ++ nl.

(** The data rows of the requirements block as the file holds them: the
    lines between the position computed for the start of the data and the
    terminator, before the section text is stripped. *)
Definition block_lines (content : string) : list string :=
  let req_start := find content "COPY public.requirements_library" 0 in
  let req_data_start :=
    (find content "FROM stdin;" req_start + len "FROM stdin;" + 1)%Z in
  let req_data_end := find content "\." req_data_start in
  split LF (slice content req_data_start req_data_end).

(** The last five-field row of the block carrying the requirement id [k]. *)
Definition last_block_row (k : string) (content : string) : option string :=
  List.find (fun line => String.eqb (row_id line) k)
    (rev (filter well_formed (block_lines content))).

(** A requirements block in which two rows share the id [r1] and the
    second, the last row of the block, has an empty description. *)
Definition trailing_empty_backup : string :=
  "COPY public.requirements_library (id, standard_id, control_id, title, description) FROM stdin;"
  ++ nl ++ join tab ["r1"; "s1"; "4.1"; "Old title"; "Old text"]
  ++ nl ++ join tab ["r1"; "s1"; "4.1"; "New title"; ""]
  ++ nl ++ "\." ++ nl.

End LightRows.

(** ** INSERT generator: ordering and the sample *)
Module InsertFixtures.
Import PyStr CreateInsertStatements.

(** Lexicographic order on control ids, as [sorted] compares them. *)
Definition lex_le (s1 s2 : string) : Prop := String.leb s1 s2 = true.

(** An 18-field data line with the given id, standard and control id. *)
Definition full_row (req_id standard_id control_id : string) : string :=
  join tab
    [ req_id; standard_id; control_id; "Title"; "Description"; "Category";
      "high"; "\N"; "1"; "2025-07-01"; "2025-07-02"; "t"; "\N"; "\N"; "\N";
      "\N"; "\N"; "\N" ].

(** A backup whose requirements block holds the given data lines. *)
Definition backup_of (lines : list string) : string :=
  "COPY public.requirements_library (id, standard_id, control_id) FROM stdin;"
  ++ nl ++ join nl lines ++ nl ++ "\." ++ nl.

(** Three rows for each of the two standards, with control ids 2.1, 10.1,
    1.2 in that order. *)
Definition three_rows_backup : string :=
  backup_of
    [ full_row "r1" iso27001_id "2.1";
      full_row "r2" iso27001_id "10.1";
      full_row "r3" iso27001_id "1.2";
      full_row "r4" iso27002_id "2.1";
      full_row "r5" iso27002_id "10.1";
      full_row "r6" iso27002_id "1.2" ].

(** Twenty-one ISO 27002 rows with control ids 5.1 to 5.21 and one
    ISO 27001 row. *)
Definition sample_backup : string :=
  backup_of
    (full_row "q0" iso27001_id "4.1"
     :: map (fun n => full_row ("r" ++ str_of_nat n) iso27002_id
                        ("5." ++ str_of_nat n))
          (seq 1 21)).

(** Twenty-one identical ISO 27002 rows. *)
Definition repeated_row : string := full_row "r1" iso27002_id "5.1".

Definition repeated_rows_backup : string :=
  backup_of (repeat repeated_row 21).

(** The entry generated for [repeated_row]. *)
Definition repeated_entry : string * string :=
  ("5.1", insert_sql (split TAB repeated_row)).

(** The sorted ISO 27002 entries of [sample_backup]. *)
Definition sample_ordered : list (string * string) :=
  sorted_by_key (snd (extract_requirements_for_insert sample_backup)).

(** Equality of [(control_id, insert_sql)] entries is decidable. *)
Definition entry_eq_dec (a b : string * string) : {a = b} + {a <> b}.
Proof. decide equality; apply string_dec. Defined.

End InsertFixtures.

(** ** Newline characters in the generated text *)
Module Newlines.
Import PyStr.

(** The text holds no newline character. *)
Definition lf_free (s : string) : Prop := count_char LF s = O.

(** A backslash followed by the letter n, from their character codes. *)
Definition backslash_n : string := String "092"%char (String "110"%char "").

(** The decimal digit [d] as a character. *)
Definition digit_char (d : nat) : ascii := ascii_of_nat (48 + d).

(** A parsed requirement none of whose strings holds a newline. *)
Definition clean (item : string * ExecuteRestoration.req_data) : Prop :=
  lf_free (fst item)
  /\ lf_free (ExecuteRestoration.standard_id (snd item))
  /\ lf_free (ExecuteRestoration.control_id (snd item))
  /\ lf_free (ExecuteRestoration.title (snd item))
  /\ lf_free (ExecuteRestoration.description (snd item)).

(** A [(control_id, insert_sql)] entry whose control id holds no newline
    and whose statement holds the nine newlines of the template. *)
Definition template_entry (e : string * string) : Prop :=
  lf_free (fst e) /\ count_char LF (snd e) = 9%nat.

End Newlines.

(** ** Quote escaping *)
Module SqlLiteral.
Import PyStr.

(** The body of a SQL string literal, read after its opening quote: two
    adjacent quotes stand for one quote character, a lone quote closes the
    literal.  The result is the value denoted and the text that follows
    the closing quote; [None] when the literal is not closed. *)
Fixpoint read_body (s : string) : option (string * string) :=
  match s with
  | "" => None
  | String c s' =>
      if Ascii.eqb c QUOTE then
        match s' with
        | String c' s'' =>
            if Ascii.eqb c' QUOTE then
              match read_body s'' with
              | Some (v, rest) => Some (String QUOTE v, rest)
              | None => None
              end
            else Some ("", s')
        | "" => Some ("", "")
        end
      else
        match read_body s' with
        | Some (v, rest) => Some (String c v, rest)
        | None => None
        end
  end.

(** A SQL string literal at the head of [s]. *)
Definition read_literal (s : string) : option (string * string) :=
  match s with
  | String c s' => if Ascii.eqb c QUOTE then read_body s' else None
  | "" => None
  end.

(** Every quote of [s] is one of two adjacent quotes, read left to right. *)
Fixpoint quotes_paired (s : string) : bool :=
  match s with
  | "" => true
  | String c s' =>
      if Ascii.eqb c QUOTE then
        match s' with
        | String c' s'' => Ascii.eqb c' QUOTE && quotes_paired s''
        | "" => false
        end
      else quotes_paired s'
  end.

(** The text does not begin with a quote. *)
Definition no_leading_quote (s : string) : Prop :=
  match s with
  | String c _ => Ascii.eqb c QUOTE = false
  | "" => True
  end.

(** The text of [insert_sql] up to the opening quote of the title. *)
Definition insert_prefix (parts : list string) : string :=
  "INSERT INTO requirements_library (" ++ nl
  ++ "    id, standard_id, control_id, title, description, category, priority, " ++ nl
  ++ "    parent_requirement_id, order_index, created_at, updated_at, is_active, " ++ nl
  ++ "    tags, official_description, implementation_guidance, audit_ready_guidance, section" ++ nl
  ++ ") VALUES (" ++ nl
  ++ "    '" ++ nth 0 parts "" ++ "', '" ++ nth 1 parts "" ++ "', '"
  ++ nth 2 parts "" ++ "', ".

End SqlLiteral.

(** ** Concrete backups *)
Module Fixtures.
Import PyStr.

(** A requirements block with one 18-field row of ISO 27001 whose
    official description and section are not null and whose section holds
    a quote. *)
Definition nullable_row : string :=
  join tab
    [ "r1"; CreateInsertStatements.iso27001_id; "4.1"; "Title"; "Description";
      "Category"; "high"; "\N"; "1"; "2025-07-01"; "2025-07-02"; "t";
      "\N"; "Official text"; "\N"; "\N"; "O'Brien"; "\N" ].

Definition nullable_backup : string :=
  InsertFixtures.backup_of [nullable_row].

(** The statement generated for [nullable_row]. *)
Definition nullable_insert : string :=
  "INSERT INTO requirements_library (" ++ nl
  ++ "    id, standard_id, control_id, title, description, category, priority, " ++ nl
  ++ "    parent_requirement_id, order_index, created_at, updated_at, is_active, " ++ nl
  ++ "    tags, official_description, implementation_guidance, audit_ready_guidance, section" ++ nl
  ++ ") VALUES (" ++ nl
  ++ "    'r1', '55742f4e-769b-4efe-912c-1371de5e1cd6', '4.1', 'Title', 'Description', " ++ nl
  ++ "    'Category', 'high', NULL, 1, " ++ nl
  ++ "    '2025-07-01', '2025-07-02', t, NULL, Official text, " ++ nl
  ++ "    NULL, NULL, 'O'Brien'" ++ nl
  ++ ");".

(** A requirements block with one five-field row of ISO 27001. *)
Definition one_row_backup : string :=
  InsertFixtures.backup_of
    [ join tab
        [ "r1"; CreateInsertStatements.iso27001_id; "4.1"; "Title";
          "Description" ] ].

(** The UPDATE statement generated for that row, line by line. *)
Definition one_row_update : list string :=
  [ "UPDATE requirements_library SET";
    "  title = 'Title',";
    "  description = 'Description',";
    "  updated_at = NOW()";
    "WHERE id = 'r1';" ].

(** The chunk files the Batcher writes for the script generated from
    [one_row_backup]. *)
Definition one_row_chunks : option (list (string * string)) :=
  ExecuteSqlChunks.main
    (ExecuteRestoration.generate_restoration_sql one_row_backup).

(** A backup without a [requirements_library] block: its only block
    belongs to another table and holds one 18-field row. *)
Definition other_table_backup : string :=
  "COPY public.organization_requirements (id, standard_id, control_id) FROM stdin;"
  ++ nl
  ++ InsertFixtures.full_row "o1" CreateInsertStatements.iso27001_id "4.1"
  ++ nl ++ "\." ++ nl.

(** A script of three statements. *)
Definition three_update_script : string :=
  "-- Update 4.1: a..." ++ nl ++ "WHERE id = 'r1';" ++ nl
  ++ "-- Update 4.2: b..." ++ nl ++ "WHERE id = 'r2';" ++ nl
  ++ "-- Update 4.3: c..." ++ nl ++ "WHERE id = 'r3';".

(** A script of 793 statements: with 8 statements per chunk, 100 chunks. *)
Definition long_script : string :=
  join nl
    (map (fun n => "-- Update " ++ str_of_nat n ++ ": t..." ++ nl
                   ++ "WHERE id = 'r" ++ str_of_nat n ++ "';")
       (seq 1 793)).

(** Its statements in groups of two. *)
Definition three_update_groups : list (list string) :=
  ExecuteSqlChunks.groups (Z.to_nat 2)
    (ExecuteSqlChunks.findall_updates three_update_script).

End Fixtures.

(** ** Words for the further properties *)
Module Words.
Import PyStr.

(** The keys of a list in the order of their first occurrence. *)
Definition first_occurrences (l : list string) : list string :=
  fold_left
    (fun seen k => if existsb (String.eqb k) seen then seen
                   else (seen ++ [k])%list)
    l [].

(** The text [g1 m1 g2 m2 ... gn mn rest]. *)
Fixpoint weave (gaps matches : list string) (rest : string) : string :=
  match gaps, matches with
  | g :: gaps', m :: matches' => g ++ m ++ weave gaps' matches' rest
  | _, _ => rest
  end.

(** The last character of a text. *)
Fixpoint last_char (s : string) : option ascii :=
  match s with
  | "" => None
  | String c "" => Some c
  | String _ s' => last_char s'
  end.

(** Some character of the text is not white space. *)
Fixpoint has_nonspace (s : string) : bool :=
  match s with
  | "" => false
  | String c s' => negb (isspace c) || has_nonspace s'
  end.

(** Reading back a decimal numeral, leading zeros allowed. *)
Definition read_decimal (s : string) : option nat :=
  option_map Nat.of_uint (NilEmpty.uint_of_string s).

(** The requirement record the guarded parser builds from a line. *)
Definition grouped_row (line : string) : RestoreRequirements.requirement :=
  let parts := split TAB line in
  RestoreRequirements.mk_requirement (nth 0 parts "") (nth 2 parts "")
    (nth 3 parts "") (nth 4 parts "") line.

(** The accepted lines of the given standard, in file order. *)
Definition rows_of_standard (k : string) (lines : list string) : list string :=
  filter
    (fun line => LightRows.well_formed line
                 && String.eqb (nth 1 (split TAB line) "") k)
    lines.

(** The non-blank lines of the requirements block, as the guarded parser
    computes them once both markers are found. *)
Definition guarded_lines (content : string) : list string :=
  let req_start := find content "COPY public.requirements_library" 0 in
  let req_data_start :=
    (find content "FROM stdin;" req_start + len "FROM stdin;" + 1)%Z in
  let req_data_end := find content "\." req_data_start in
  filter (fun line => nonempty (strip line))
    (split LF (strip (slice content req_data_start req_data_end))).

(** The entry the INSERT generator appends for a line. *)
Definition insert_entry (line : string) : string * string :=
  (nth 2 (split TAB line) "",
   CreateInsertStatements.insert_sql (split TAB line)).

(** The lines of the requirements block that yield an entry for the given
    standard: at least 18 fields and that standard id. *)
Definition insert_rows (std_id : string) (content : string) : list string :=
  filter
    (fun line =>
       (18 <=? List.length (split TAB line))%nat
       && String.eqb (nth 1 (split TAB line) "") std_id)
    (CreateInsertStatements.requirement_lines content).

(** The five statement lines of a requirement, from [UPDATE] to the
    [WHERE] line, followed by the empty line the Aggregator appends. *)
Definition statement_block (item : string * ExecuteRestoration.req_data)
  : list string :=
  (firstn 5 (skipn 1 (ExecuteRestoration.update_lines item)) ++ [""])%list.

(** The UPDATE lines of a generated script. *)
Definition update_count (lines : list string) : nat :=
  List.length
    (filter (String.eqb "UPDATE requirements_library SET") lines).

(** The directory after the Batcher has written the given chunks into an
    empty one. *)
Definition chunk_directory (chunks : list string) : PyDict.dict string :=
  ExecuteSqlChunks.write_chunks chunks.

(** A backup with a standards block of two rows and a requirements block
    of three rows that reference them in the order A, B, A. *)
Definition two_block_backup : string :=
  "COPY public.standards_library (id, name, version) FROM stdin;" ++ nl
  ++ join tab ["A"; "ISO/IEC 27001"; "2022"] ++ nl
  ++ join tab ["B"; "ISO/IEC 27002"; "2022"] ++ nl
  ++ "\." ++ nl ++ nl
  ++ "COPY public.requirements_library (id, standard_id, control_id, title, description) FROM stdin;"
  ++ nl
  ++ join tab ["r1"; "A"; "4.1"; "Context"; "Text 1"] ++ nl
  ++ join tab ["r2"; "B"; "5.1"; "Policies"; "Text 2"] ++ nl
  ++ join tab ["r3"; "A"; "4.2"; "Parties"; "Text 3"] ++ nl
  ++ "\." ++ nl.

(** A hundred chunks whose contents are their numbers. *)
Definition hundred_chunks : list string := map str_of_nat (seq 1 100).

(** The target requirements of a backup in the order the generator writes
    them: standard by standard, in the mapping's order within each. *)
Definition targets_by_standard (content : string)
  : list (string * ExecuteRestoration.req_data) :=
  flat_map
    (fun std : string * string =>
       filter
         (fun item =>
            String.eqb (ExecuteRestoration.standard_id (snd item)) (snd std))
         (ExecuteRestoration.target_requirements
            (ExecuteRestoration.extract_requirements_from_backup content)))
    ExecuteRestoration.target_standards.

(** A directory without chunk files. *)
Definition other_files : PyDict.dict string :=
  [ ("requirements_restoration.sql", "UPDATE requirements_library SET x;");
    ("notes.txt", "nothing") ].

(** The lines of the standards block, as the guarded parser computes them
    once the marker is found. *)
Definition standards_lines (content : string) : list string :=
  let standards_start := find content "COPY public.standards_library" 0 in
  let standards_data_start :=
    (find content "FROM stdin;" standards_start + len "FROM stdin;" + 1)%Z in
  let standards_data_end := find content "\." standards_data_start in
  split LF (strip (slice content standards_data_start standards_data_end)).

(** A standards line the guarded parser stores: not blank, three fields. *)
Definition accepted_standard (line : string) : bool :=
  nonempty (strip line) && (3 <=? List.length (split TAB line))%nat.

(** The list ascends in lexicographic order, pair by adjacent pair. *)
Fixpoint ascending (l : list string) : bool :=
  match l with
  | a :: (b :: _) as tail => String.leb a b && ascending tail
  | _ => true
  end.

End Words.

(** * Properties *)

(** ** Standard Resolver *)
Section ResolverLemmas.
Import PyStr RestoreRequirements Resolver.

Lemma assign_result (t : target) (r : targets) (std_id name : string) :
  result_of t (assign r (std_id, name))
  = if selects t name then Some std_id else result_of t r.
Proof.
  unfold assign, selects, matches_tokens.
  destruct t; simpl;
    destruct (contains "iso" (lower name));
    destruct (contains "27001" (lower name));
    destruct (contains "27002" (lower name));
    destruct (contains "cis" (lower name));
    destruct (contains "ig1" (lower name));
    destruct (contains "ig2" (lower name));
    destruct (contains "ig3" (lower name));
    reflexivity.
Qed.

Lemma fold_assign_result (t : target) (m : PyDict.dict string) :
  result_of t (fold_left assign m no_targets) = last_selected t m.
Proof.
  unfold last_selected.
  induction m as [| [std_id name] m IH] using rev_ind.
  - destruct t; reflexivity.
  - rewrite fold_left_app, rev_app_distr.
    cbn [fold_left rev app List.find snd].
    rewrite assign_result.
    destruct (selects t name); [reflexivity | exact IH].
Qed.
End ResolverLemmas.

(** C3, as amended: for every standards map and each of the five targets,
    the Standard Resolver assigns the target the identifier of the LAST
    standard in iteration order whose lower-cased name reaches that
    target's branch (it contains the target's framework token and
    sub-token, and not both tokens of a target tested earlier); the target
    stays unset when there is none. *)
Theorem resolver_last_match_wins :
  forall (t : Resolver.target) (standard_map : PyDict.dict string)
         (requirements_by_standard :
            PyDict.dict (list RestoreRequirements.requirement)),
    Resolver.result_of t
      (RestoreRequirements.find_target_standards standard_map
         requirements_by_standard)
    = Resolver.last_selected t standard_map.
Proof.
  intros t m reqs. unfold RestoreRequirements.find_target_standards.
  apply fold_assign_result.
Qed.

(** C3, as stated, fails: with two standards that both match the ISO 27001
    tokens, the target does not receive the first one's identifier. *)
Lemma resolver_first_match_refuted :
  Resolver.matches_tokens Resolver.Iso27001 "ISO/IEC 27001 2013" = true
  /\ Resolver.matches_tokens Resolver.Iso27001 "ISO/IEC 27001 2022" = true
  /\ Resolver.first_matching Resolver.Iso27001
       Resolver.two_iso27001 = Some "std-a"
  /\ Resolver.result_of Resolver.Iso27001
       (RestoreRequirements.find_target_standards Resolver.two_iso27001 [])
     = Some "std-b"
  /\ Resolver.result_of Resolver.Iso27001
       (RestoreRequirements.find_target_standards Resolver.two_iso27001 [])
     <> Resolver.first_matching Resolver.Iso27001
          Resolver.two_iso27001.
Proof.
  repeat split; try reflexivity.
  vm_compute. discriminate.
Qed.

Section DictFacts.
Context {V : Type}.
Implicit Types (d : PyDict.dict V) (k : string) (v : V).

Lemma dict_get_set_same d k v : PyDict.get k (PyDict.set k v d) = Some v.
Proof.
  induction d as [| [k' v'] d IH]; simpl.
  - now rewrite String.eqb_refl.
  - destruct (String.eqb k' k) eqn:E; simpl; rewrite E; auto.
Qed.

Lemma dict_get_set_other d k k' v :
  k <> k' -> PyDict.get k' (PyDict.set k v d) = PyDict.get k' d.
Proof.
  intros Hne. induction d as [| [k0 v0] d IH]; simpl.
  - destruct (String.eqb k k') eqn:E; [| reflexivity].
    apply String.eqb_eq in E. contradiction.
  - assert (Hkk : String.eqb k k' = false) by now apply String.eqb_neq.
    destruct (String.eqb k0 k) eqn:E; simpl.
    + apply String.eqb_eq in E. subst k0. now rewrite Hkk.
    + now rewrite IH.
Qed.

Lemma dict_keys_set_in d k v k' :
  In k' (PyDict.keys (PyDict.set k v d)) <-> k' = k \/ In k' (PyDict.keys d).
Proof.
  unfold PyDict.keys.
  induction d as [| [k0 v0] d IH]; simpl.
  - intuition.
  - destruct (String.eqb k0 k) eqn:E; simpl.
    + apply String.eqb_eq in E. subst k0. intuition.
    + rewrite IH. intuition.
Qed.

Lemma dict_keys_set_nodup d k v :
  NoDup (PyDict.keys d) -> NoDup (PyDict.keys (PyDict.set k v d)).
Proof.
  unfold PyDict.keys.
  induction d as [| [k0 v0] d IH]; simpl; intros Hnd.
  - constructor; [intros [] | constructor].
  - destruct (String.eqb k0 k) eqn:E; simpl; [exact Hnd |].
    inversion Hnd as [| ? ? Hnotin Hnd']; subst.
    constructor; [| now apply IH].
    intros Hin. apply (dict_keys_set_in d k v k0) in Hin.
    destruct Hin as [-> | Hin]; [| now apply Hnotin].
    now rewrite String.eqb_refl in E.
Qed.
End DictFacts.

Section LightParserFacts.
Import PyStr ExecuteRestoration LightRows.

Lemma parse_line_unfold d line :
  parse_line d line
  = if well_formed line then PyDict.set (row_id line) (row_data line) d
    else d.
Proof. reflexivity. Qed.

Lemma fold_parse_snoc lines line d :
  fold_left parse_line (lines ++ [line]) d
  = parse_line (fold_left parse_line lines d) line.
Proof. now rewrite fold_left_app. Qed.

Lemma fold_parse_keys lines :
  let r := fold_left parse_line lines [] in
  NoDup (PyDict.keys r)
  /\ forall k, In k (PyDict.keys r)
               <-> In k (map row_id (filter well_formed lines)).
Proof.
  induction lines as [| line lines [IHnd IHin]] using rev_ind; simpl.
  - split; [constructor | tauto].
  - rewrite fold_parse_snoc, parse_line_unfold, filter_app. simpl.
    destruct (well_formed line).
    + split; [now apply dict_keys_set_nodup |].
      intros k. rewrite dict_keys_set_in, IHin, map_app, in_app_iff.
      simpl. intuition.
    + rewrite app_nil_r. now split.
Qed.

Lemma fold_parse_get lines k :
  PyDict.get k (fold_left parse_line lines [])
  = option_map row_data
      (List.find (fun line => String.eqb (row_id line) k)
         (rev (filter well_formed lines))).
Proof.
  induction lines as [| line lines IH] using rev_ind; [reflexivity |].
  rewrite fold_parse_snoc, parse_line_unfold, filter_app. simpl.
  destruct (well_formed line).
  - rewrite rev_app_distr. cbn [rev app List.find].
    destruct (String.eqb (row_id line) k) eqn:E.
    + apply String.eqb_eq in E. subst k. apply dict_get_set_same.
    + rewrite dict_get_set_other; [exact IH |].
      intros Heq. rewrite Heq, String.eqb_refl in E. discriminate.
  - now rewrite app_nil_r.
Qed.
End LightParserFacts.

(** C10, as amended: the light-extraction parser keys its result by the
    first field of the rows it accepts, which are the non-blank lines of
    the requirements section after the section text has been stripped of
    its surrounding white space, with at least five tab-separated fields.
    For every backup the returned mapping holds, for each requirement id,
    the values of the last accepted row carrying that id, and the number of
    records is the number of distinct ids among the accepted rows; on a
    block with two rows sharing one id this is one record for two rows. *)
Theorem light_parser_last_row_per_id :
  (forall content : string,
     let result := ExecuteRestoration.extract_requirements_from_backup content in
     (forall k : string,
        PyDict.get k result
        = option_map LightRows.row_data (LightRows.last_row k content))
     /\ List.length result
        = List.length
            (nodup string_dec (map LightRows.row_id (LightRows.rows content))))
  /\ List.length
       (ExecuteRestoration.extract_requirements_from_backup
          LightRows.duplicate_id_backup) = 1%nat
  /\ List.length (LightRows.rows LightRows.duplicate_id_backup) = 2%nat
  /\ PyDict.get "r1"
       (ExecuteRestoration.extract_requirements_from_backup
          LightRows.duplicate_id_backup)
     = Some (ExecuteRestoration.mk_req_data "s1" "4.1" "New title" "New text").
Proof.
  split; [| repeat split; vm_compute; reflexivity].
  intros content result. subst result.
  unfold ExecuteRestoration.extract_requirements_from_backup.
  split.
  - intros k. apply fold_parse_get.
  - destruct (fold_parse_keys (ExecuteRestoration.requirement_lines content))
      as [Hnd Hin].
    rewrite <- (length_map fst).
    apply Permutation_length, NoDup_Permutation.
    + exact Hnd.
    + apply NoDup_nodup.
    + intros k. rewrite nodup_In. apply Hin.
Qed.

(** C10, as stated, fails: in [trailing_empty_backup] the last row of the
    block carrying the id [r1] has five fields, the last one empty; the
    strip of the section text removes its final tab, the row is left with
    four fields and is skipped, and the mapping holds the values of the
    first row. *)
Lemma light_parser_last_block_row_refuted :
  LightRows.last_block_row "r1" LightRows.trailing_empty_backup
  = Some (PyStr.join PyStr.tab ["r1"; "s1"; "4.1"; "New title"; ""])
  /\ option_map LightRows.row_data
       (LightRows.last_block_row "r1" LightRows.trailing_empty_backup)
     = Some (ExecuteRestoration.mk_req_data "s1" "4.1" "New title" "")
  /\ PyDict.get "r1"
       (ExecuteRestoration.extract_requirements_from_backup
          LightRows.trailing_empty_backup)
     = Some (ExecuteRestoration.mk_req_data "s1" "4.1" "Old title" "Old text")
  /\ PyDict.get "r1"
       (ExecuteRestoration.extract_requirements_from_backup
          LightRows.trailing_empty_backup)
     <> option_map LightRows.row_data
          (LightRows.last_block_row "r1" LightRows.trailing_empty_backup).
Proof.
  repeat split; try (vm_compute; reflexivity).
  vm_compute. discriminate.
Qed.

(** ** Batcher *)
Section BatcherFacts.
Import PyStr ExecuteSqlChunks Newlines.

Lemma firstn_plus {A : Type} (a b : nat) (l : list A) :
  firstn (a + b) l = (firstn a l ++ firstn b (skipn a l))%list.
Proof.
  revert l. induction a as [| a IH]; intros l; [reflexivity |].
  destruct l as [| x l]; simpl.
  - now rewrite firstn_nil.
  - now rewrite IH.
Qed.

Lemma range_count_bounds (n c : nat) :
  (1 <= c)%nat ->
  let K := ((n + c - 1) / c)%nat in
  (n <= K * c)%nat /\ forall k, (k < K)%nat -> (k * c < n)%nat.
Proof.
  intros Hc K.
  pose proof (Nat.div_mod_eq (n + c - 1) c) as Hdiv.
  pose proof (Nat.mod_upper_bound (n + c - 1) c ltac:(lia)) as Hmod.
  fold K in Hdiv. split; [nia |]. intros k Hk.
  assert (k * c + c <= K * c)%nat by nia. nia.
Qed.

Lemma groups_unfold (c : nat) (l : list string) :
  groups c l
  = map (fun k => firstn c (skipn (k * c) l))
      (seq 0 ((List.length l + c - 1) / c)).
Proof. unfold groups, range_step. now rewrite map_map. Qed.

Lemma concat_groups_prefix (c : nat) (l : list string) (k : nat) :
  concat (map (fun k => firstn c (skipn (k * c) l)) (seq 0 k))
  = firstn (k * c) l.
Proof.
  induction k as [| k IH]; [reflexivity |].
  rewrite seq_S, map_app, concat_app, IH. simpl.
  rewrite app_nil_r, (Nat.add_comm c (k * c)). symmetry. apply firstn_plus.
Qed.

Lemma concat_groups (c : nat) (l : list string) :
  (1 <= c)%nat -> concat (groups c l) = l.
Proof.
  intros Hc. rewrite groups_unfold, concat_groups_prefix.
  apply firstn_all2. now apply range_count_bounds.
Qed.

Lemma length_groups (c : nat) (l : list string) :
  List.length (groups c l) = ((List.length l + c - 1) / c)%nat.
Proof. now rewrite groups_unfold, length_map, length_seq. Qed.

Lemma nth_groups (c : nat) (l : list string) (k : nat) :
  (k < List.length (groups c l))%nat ->
  nth k (groups c l) [] = firstn c (skipn (k * c) l).
Proof.
  rewrite length_groups. intros Hk. rewrite groups_unfold.
  set (f := fun k => firstn c (skipn (k * c) l)).
  rewrite (nth_indep _ [] (f O)) by now rewrite length_map, length_seq.
  rewrite map_nth, seq_nth by exact Hk. reflexivity.
Qed.

Lemma length_group (c : nat) (l : list string) (k : nat) :
  List.length (firstn c (skipn (k * c) l))
  = Nat.min c (List.length l - k * c).
Proof. now rewrite length_firstn, length_skipn. Qed.

Lemma write_chunks_from (start : nat) (chunks : list string) (k : nat)
    (chunk : string) :
  nth_error chunks k = Some chunk ->
  nth_error
    (map (fun ic : nat * string => (chunk_file (fst ic), snd ic))
       (combine (seq start (List.length chunks)) chunks)) k
  = Some (chunk_file (start + k), chunk).
Proof.
  revert start k. induction chunks as [| x chunks IH]; intros start k Hk.
  - destruct k; discriminate.
  - destruct k as [| k]; simpl in *.
    + injection Hk as ->. now rewrite Nat.add_0_r.
    + rewrite (IH (S start) k Hk). now rewrite Nat.add_succ_r.
Qed.

Lemma format_02d_two_digits (n : nat) :
  (n < 100)%nat ->
  format_02d n
  = String (digit_char (n / 10)) (String (digit_char (n mod 10)) "").
Proof.
  intros Hn.
  assert (Hall :
    forallb
      (fun n => String.eqb (format_02d n)
           (String (digit_char (n / 10)) (String (digit_char (n mod 10)) "")))
      (seq 0 100) = true) by (vm_compute; reflexivity).
  rewrite forallb_forall in Hall.
  apply String.eqb_eq, Hall, in_seq. lia.
Qed.
End BatcherFacts.

Section FindallFacts.
Import PyStr ExecuteSqlChunks.

Lemma length_drop (n : nat) (s : string) :
  String.length (drop n s) = (String.length s - n)%nat.
Proof.
  revert s. induction n as [| n IH]; intros [| c s]; simpl; auto.
Qed.

Lemma prefix_length (a b : string) :
  String.prefix a b = true -> (String.length a <= String.length b)%nat.
Proof.
  revert b. induction a as [| x a IH]; intros [| y b]; simpl; try lia;
    try discriminate.
  destruct (ascii_dec x y); [| discriminate].
  intros H. specialize (IH b H). lia.
Qed.

Lemma match_where_bounds (s : string) (n : nat) :
  match_where s = Some n -> (14 <= n <= String.length s)%nat.
Proof.
  unfold match_where.
  destruct (String.prefix "WHERE id = '" s) eqn:Hp; [| discriminate].
  destruct (1 <=? span_nonquote (drop 12 s))%nat; [| discriminate].
  destruct (String.prefix "';" (drop (span_nonquote (drop 12 s)) (drop 12 s)))
    eqn:Hq; [| discriminate].
  simpl. intros [= <-].
  apply prefix_length in Hp, Hq. rewrite !length_drop in Hq.
  simpl in Hp, Hq. lia.
Qed.

Lemma find_where_bounds (s : string) (j n : nat) :
  find_where s = Some (j, n) ->
  (14 <= n /\ j + n <= String.length s)%nat.
Proof.
  revert j. induction s as [| c s IH]; intros j; cbn [find_where].
  - destruct (match_where "") eqn:E; [| discriminate].
    intros [= <- <-]. apply match_where_bounds in E. simpl in *. lia.
  - destruct (match_where (String c s)) eqn:E.
    + intros [= <- <-]. apply match_where_bounds in E. lia.
    + destruct (find_where s) as [[j' n'] |]; [| discriminate].
      intros [= <- <-]. specialize (IH j' eq_refl). simpl. lia.
Qed.

Lemma first_match_bounds (s : string) (p m : nat) :
  first_match s = Some (p, m) ->
  (1 <= m /\ p + m <= String.length s)%nat.
Proof.
  unfold first_match.
  destruct (find_nat "-- Update" s) as [p' |]; [| discriminate].
  destruct (find_where (drop (p' + 9) s)) as [[j n] |] eqn:E; [| discriminate].
  intros [= <- <-]. apply find_where_bounds in E.
  rewrite length_drop in E. lia.
Qed.

(** The fuel of [findall_updates] never runs out: any larger amount gives
    the same list of matches. *)
Lemma findall_fuel_enough (fuel : nat) (s : string) :
  (String.length s <= fuel)%nat ->
  findall_fuel fuel s = findall_updates s.
Proof.
  unfold findall_updates.
  assert (Hgen : forall f1 f2 s,
            (String.length s <= f1)%nat -> (String.length s <= f2)%nat ->
            findall_fuel f1 s = findall_fuel f2 s).
  { clear. induction f1 as [| f1 IH]; intros f2 s H1 H2.
    - destruct s; [| simpl in H1; lia].
      destruct f2; reflexivity.
    - destruct f2 as [| f2].
      + destruct s; [reflexivity | simpl in H2; lia].
      + cbn [findall_fuel].
        destruct (first_match s) as [[p m] |] eqn:E; [| reflexivity].
        apply first_match_bounds in E. f_equal.
        apply IH; rewrite length_drop; lia. }
  intros H. apply Hgen; [exact H | lia].
Qed.
End FindallFacts.

(** ** Chunk file names *)
Section ChunkNameFacts.
Import PyStr Words.

Lemma read_decimal_str_of_nat (n : nat) : read_decimal (str_of_nat n) = Some n.
Proof.
  unfold read_decimal, str_of_nat, NilZero.string_of_uint.
  destruct (Nat.to_uint n) eqn:E;
    try (rewrite <- E, NilEmpty.usu; cbn [option_map];
         now rewrite DecimalNat.Unsigned.of_to).
  cbn. rewrite <- (DecimalNat.Unsigned.of_to n), E. reflexivity.
Qed.

Lemma read_decimal_zero (s : string) :
  read_decimal ("0" ++ s) = read_decimal s.
Proof.
  unfold read_decimal. cbn [append NilEmpty.uint_of_string].
  destruct (NilEmpty.uint_of_string s); reflexivity.
Qed.

Lemma read_decimal_format_02d (n : nat) :
  read_decimal (format_02d n) = Some n.
Proof.
  unfold format_02d.
  destruct (String.length (str_of_nat n) <? 2)%nat.
  - rewrite read_decimal_zero. apply read_decimal_str_of_nat.
  - apply read_decimal_str_of_nat.
Qed.

Lemma format_02d_injective (i j : nat) :
  format_02d i = format_02d j -> i = j.
Proof.
  intros H. pose proof (read_decimal_format_02d i) as Hi.
  rewrite H, read_decimal_format_02d in Hi. congruence.
Qed.

Lemma short_numeral_below_hundred (d : Decimal.uint) :
  (String.length (NilEmpty.string_of_uint d) <= 2)%nat ->
  (Nat.of_uint d < 100)%nat.
Proof.
  intros H.
  destruct d as [| d | d | d | d | d | d | d | d | d | d];
    try (destruct d as [| d | d | d | d | d | d | d | d | d | d];
         try (destruct d; simpl in H; try lia));
    vm_compute; lia.
Qed.

Lemma format_02d_three_digits (n : nat) :
  (100 <= n)%nat -> (3 <= String.length (format_02d n))%nat.
Proof.
  intros Hn.
  assert (Hs : (3 <= String.length (str_of_nat n))%nat).
  { unfold str_of_nat, NilZero.string_of_uint.
    pose proof (Unsigned.of_to n) as Hof.
    destruct (Nat.to_uint n) eqn:E;
      try (rewrite <- E;
           destruct (Nat.le_gt_cases 3
                       (String.length
                          (NilEmpty.string_of_uint (Nat.to_uint n))))
             as [Hl | Hl]; [exact Hl |];
           apply Nat.lt_succ_r, short_numeral_below_hundred in Hl;
           rewrite Unsigned.of_to in Hl; lia).
    exfalso. change (Nat.of_uint Decimal.Nil) with O in Hof. lia. }
  unfold format_02d.
  destruct (Nat.ltb_spec (String.length (str_of_nat n)) 2); [lia | exact Hs].
Qed.

Lemma length_append (a b : string) :
  String.length (a ++ b) = (String.length a + String.length b)%nat.
Proof. induction a as [| x a IH]; simpl; [reflexivity | now rewrite IH]. Qed.

Lemma append_inv_tail (a b c : string) : a ++ c = b ++ c -> a = b.
Proof.
  intros H.
  assert (Hl : String.length a = String.length b).
  { apply (f_equal String.length) in H. rewrite !length_append in H. lia. }
  revert b H Hl. induction a as [| x a IH]; intros [| y b] H Hl;
    simpl in Hl; try discriminate; [reflexivity |].
  simpl in H. injection H as -> H. f_equal. apply IH; [exact H | lia].
Qed.

Lemma batcher_chunk_file_injective (i j : nat) :
  ExecuteSqlChunks.chunk_file i = ExecuteSqlChunks.chunk_file j -> i = j.
Proof.
  unfold ExecuteSqlChunks.chunk_file. intros H.
  simpl in H. injection H as H. apply append_inv_tail in H.
  apply format_02d_injective in H. lia.
Qed.

Lemma write_chunks_keys (chunks : list string) :
  PyDict.keys (ExecuteSqlChunks.write_chunks chunks)
  = map ExecuteSqlChunks.chunk_file (seq 0 (List.length chunks)).
Proof.
  unfold PyDict.keys, ExecuteSqlChunks.write_chunks,
    ExecuteSqlChunks.enumerate.
  rewrite map_map. cbn [fst].
  generalize 0%nat. induction chunks as [| c chunks IH]; intros start;
    [reflexivity |].
  cbn [List.length seq combine map fst]. now rewrite IH.
Qed.

Lemma write_chunks_nodup (chunks : list string) :
  NoDup (PyDict.keys (ExecuteSqlChunks.write_chunks chunks)).
Proof.
  rewrite write_chunks_keys. apply Injective_map_NoDup.
  - intros i j. apply batcher_chunk_file_injective.
  - apply seq_NoDup.
Qed.

Lemma dict_get_in {V : Type} (d : PyDict.dict V) (k : string) (v : V) :
  NoDup (PyDict.keys d) -> In (k, v) d -> PyDict.get k d = Some v.
Proof.
  unfold PyDict.keys.
  induction d as [| [k0 v0] d IH]; simpl; intros Hnd Hin; [easy |].
  inversion Hnd as [| ? ? Hnot Hnd']; subst.
  destruct Hin as [[= -> ->] | Hin].
  - now rewrite String.eqb_refl.
  - destruct (String.eqb_spec k0 k) as [-> |]; [| now apply IH].
    exfalso. apply Hnot. now apply (in_map fst) in Hin.
Qed.

Lemma dict_get_none {V : Type} (d : PyDict.dict V) (k : string) :
  PyDict.get k d = None <-> ~ In k (PyDict.keys d).
Proof.
  unfold PyDict.keys.
  induction d as [| [k0 v0] d IH]; simpl; [tauto |].
  destruct (String.eqb_spec k0 k) as [-> | Hne].
  - split; [discriminate | tauto].
  - rewrite IH. tauto.
Qed.
End ChunkNameFacts.

(** C8, as amended: for every script and every chunk size [c >= 1] the
    Batcher returns the groups of the extracted statement list joined by
    blank lines; the groups concatenated in index order are the extracted
    list itself; every group but the last holds exactly [c] statements and
    no group is empty or longer than [c]; and the group at position [k]
    (counted from 0) is written to [sql_chunk_NN.sql] where [NN] is the
    decimal numeral of [k+1] padded with zeros to a width of at least two:
    exactly two digits for the first 99 files, three or more from the
    100th file on. *)
Theorem batcher_partitions_in_order :
  forall (sql_content : string) (c : Z),
    (1 <= c)%Z ->
    let updates := ExecuteSqlChunks.findall_updates sql_content in
    let gs := ExecuteSqlChunks.groups (Z.to_nat c) updates in
    ExecuteSqlChunks.split_sql_into_chunks sql_content c
    = Some (map (PyStr.join (PyStr.nl ++ PyStr.nl)) gs)
    /\ concat gs = updates
    /\ (forall k : nat,
          (S k < List.length gs)%nat ->
          List.length (nth k gs []) = Z.to_nat c)
    /\ (forall g : list string,
          In g gs -> (1 <= List.length g <= Z.to_nat c)%nat)
    /\ (forall (chunks : list string) (k : nat) (chunk : string),
          nth_error chunks k = Some chunk ->
          nth_error (ExecuteSqlChunks.write_chunks chunks) k
          = Some ("sql_chunk_" ++ PyStr.format_02d (k + 1) ++ ".sql", chunk))
    /\ (forall k : nat,
          (k < 99)%nat ->
          PyStr.format_02d (k + 1)
          = String (Newlines.digit_char ((k + 1) / 10))
              (String (Newlines.digit_char ((k + 1) mod 10)) ""))
    /\ (forall k : nat,
          Words.read_decimal (PyStr.format_02d (k + 1)) = Some (k + 1)%nat)
    /\ (forall k : nat,
          (99 <= k)%nat ->
          (3 <= String.length (PyStr.format_02d (k + 1)))%nat).
Proof.
  intros sql_content c Hc updates gs.
  assert (Hc' : (1 <= Z.to_nat c)%nat) by lia.
  destruct (range_count_bounds (List.length updates) (Z.to_nat c) Hc')
    as [_ Hlt].
  repeat split.
  - unfold ExecuteSqlChunks.split_sql_into_chunks.
    destruct (Z.eqb_spec c 0); [lia |].
    destruct (Z.ltb_spec c 0); [lia | reflexivity].
  - now apply concat_groups.
  - intros k Hk. subst gs.
    rewrite nth_groups by lia. rewrite length_group.
    rewrite length_groups in Hk.
    specialize (Hlt (S k) Hk). simpl in Hlt. lia.
  - apply In_nth with (d := []) in H. destruct H as (k & Hk & <-).
    subst gs. rewrite nth_groups by exact Hk. rewrite length_group.
    rewrite length_groups in Hk. specialize (Hlt k Hk). lia.
  - apply In_nth with (d := []) in H. destruct H as (k & Hk & <-).
    subst gs. rewrite nth_groups by exact Hk. rewrite length_group. lia.
  - intros chunks k chunk Hk.
    unfold ExecuteSqlChunks.write_chunks, ExecuteSqlChunks.enumerate.
    rewrite (write_chunks_from 0 chunks k chunk Hk).
    unfold ExecuteSqlChunks.chunk_file. reflexivity.
  - intros k Hk. apply format_02d_two_digits. lia.
  - intros k. apply read_decimal_format_02d.
  - intros k Hk. apply format_02d_three_digits. lia.
Qed.

(** C8 at a script of three statements and chunk size 2: two groups, of
    two statements and of one, written to [sql_chunk_01.sql] and
    [sql_chunk_02.sql]; the hundredth name has three digits. *)
Lemma batcher_partitions_in_order_witness :
  (1 <= 2)%Z
  /\ List.length (Fixtures.three_update_groups) = 2%nat
  /\ concat Fixtures.three_update_groups
     = ExecuteSqlChunks.findall_updates Fixtures.three_update_script
  /\ List.length (nth 0 Fixtures.three_update_groups []) = 2%nat
  /\ (1 <= List.length (nth 1 Fixtures.three_update_groups []) <= 2)%nat
  /\ nth_error (ExecuteSqlChunks.write_chunks ["a"; "b"]) 1
     = Some ("sql_chunk_02.sql", "b")
  /\ PyStr.format_02d 1 = "01"
  /\ (3 <= String.length (PyStr.format_02d 100))%nat.
Proof.
  assert (H : (1 <= 2)%Z) by lia.
  assert (Hlen : List.length Fixtures.three_update_groups = 2%nat)
    by (vm_compute; reflexivity).
  destruct (batcher_partitions_in_order Fixtures.three_update_script 2 H)
    as (_ & Hcat & Hfull & Hsize & Hname & Hdigits & _ & Hwide).
  fold Fixtures.three_update_groups in Hcat, Hfull, Hsize.
  split; [exact H |]. split; [exact Hlen |]. split; [exact Hcat |].
  split; [apply (Hfull 0%nat); rewrite Hlen; lia |].
  split; [apply Hsize, nth_In; rewrite Hlen; lia |].
  split; [exact (Hname ["a"; "b"] 1%nat "b" eq_refl) |].
  split; [exact (Hdigits 0%nat ltac:(lia)) |].
  exact (Hwide 99%nat (le_n 99)).
Defined.

(** C8, as stated, fails: for the script of 793 statements the Batcher,
    with its 8 statements per chunk, writes a hundredth group, and its file
    index has three digits, not two. *)
Lemma batcher_two_digit_name_refuted :
  option_map (fun files => map fst (skipn 98 files))
    (ExecuteSqlChunks.main Fixtures.long_script)
  = Some ["sql_chunk_99.sql"; "sql_chunk_100.sql"]
  /\ PyStr.format_02d 100 = "100"
  /\ String.length (PyStr.format_02d 100) <> 2%nat.
Proof.
  split; [vm_compute; reflexivity |].
  split; [reflexivity | vm_compute; discriminate].
Qed.

Section SortFacts.
Import PyStr InsertFixtures.
Context {V : Type}.
Implicit Types (x : string * V) (l : list (string * V)).

Lemma string_compare_trans_le (s1 s2 s3 : string) :
  String.compare s1 s2 <> Gt -> String.compare s2 s3 <> Gt ->
  String.compare s1 s3 <> Gt.
Proof.
  revert s2 s3.
  induction s1 as [| c1 s1 IH]; intros [| c2 s2] [| c3 s3]; simpl;
    try congruence.
  unfold Ascii.compare.
  destruct (N.compare_spec (N_of_ascii c1) (N_of_ascii c2));
    destruct (N.compare_spec (N_of_ascii c2) (N_of_ascii c3));
    destruct (N.compare_spec (N_of_ascii c1) (N_of_ascii c3));
    try congruence; try lia.
  apply IH.
Qed.

Lemma lex_le_trans (s1 s2 s3 : string) :
  lex_le s1 s2 -> lex_le s2 s3 -> lex_le s1 s3.
Proof.
  unfold lex_le, String.leb. intros H12 H23.
  pose proof (string_compare_trans_le s1 s2 s3) as Ht.
  destruct (String.compare s1 s2); try discriminate;
    destruct (String.compare s2 s3); try discriminate;
    destruct (String.compare s1 s3); try reflexivity;
    exfalso; apply Ht; congruence.
Qed.


Lemma insert_by_key_perm x l : Permutation (insert_by_key x l) (x :: l).
Proof.
  induction l as [| y l IH]; simpl; [reflexivity |].
  destruct (String.leb (fst x) (fst y)); [reflexivity |].
  rewrite IH. apply perm_swap.
Qed.

Lemma sorted_by_key_perm l : Permutation (sorted_by_key l) l.
Proof.
  induction l as [| x l IH]; simpl; [reflexivity |].
  rewrite insert_by_key_perm. now constructor.
Qed.



Lemma string_leb_refl (s : string) : String.leb s s = true.
Proof.
  unfold String.leb. pose proof (String.compare_antisym s s) as H.
  destruct (String.compare s s); try reflexivity; discriminate.
Qed.

(** The sort is stable: entries that share a key keep their order. *)
Lemma insert_by_key_stable (k : string) x l :
  filter (fun y => String.eqb (fst y) k) (insert_by_key x l)
  = filter (fun y => String.eqb (fst y) k) (x :: l).
Proof.
  induction l as [| y l IH]; [reflexivity |].
  cbn [insert_by_key].
  destruct (String.leb (fst x) (fst y)) eqn:E; [reflexivity |].
  cbn [filter] in *. rewrite IH.
  destruct (String.eqb (fst x) k) eqn:Ex; [| reflexivity].
  destruct (String.eqb (fst y) k) eqn:Ey; [| reflexivity].
  apply String.eqb_eq in Ex, Ey. rewrite Ex, Ey, string_leb_refl in E.
  discriminate.
Qed.

Lemma sorted_by_key_stable (k : string) l :
  filter (fun y => String.eqb (fst y) k) (sorted_by_key l)
  = filter (fun y => String.eqb (fst y) k) l.
Proof.
  induction l as [| x l IH]; [reflexivity |].
  cbn [sorted_by_key fold_right]. rewrite insert_by_key_stable.
  cbn [filter]. now rewrite <- IH.
Qed.

Lemma sorted_by_key_length l :
  List.length (sorted_by_key l) = List.length l.
Proof. apply Permutation_length, sorted_by_key_perm. Qed.
End SortFacts.




Section CountFacts.
Import PyStr Newlines.

Lemma count_char_app (c : ascii) (a b : string) :
  count_char c (a ++ b) = (count_char c a + count_char c b)%nat.
Proof.
  induction a as [| x a IH]; simpl; [reflexivity |]. rewrite IH. lia.
Qed.

Lemma split_cons (sep : ascii) (s : string) :
  exists h t, split sep s = h :: t.
Proof.
  destruct s as [| c s]; simpl; [now eexists; eexists |].
  destruct (Ascii.eqb c sep); [now eexists; eexists |].
  destruct (split sep s); now eexists; eexists.
Qed.

Lemma split_piece_count (c sep : ascii) (s p : string) :
  In p (split sep s) -> (count_char c p <= count_char c s)%nat.
Proof.
  revert p. induction s as [| a s IH]; simpl; intros p Hin.
  - destruct Hin as [<- | []]. simpl. lia.
  - destruct (Ascii.eqb a sep).
    + destruct Hin as [<- | Hin]; simpl; [lia |].
      specialize (IH p Hin). lia.
    + destruct (split sep s) as [| h t] eqn:E.
      * destruct Hin as [<- | []]. simpl. lia.
      * destruct Hin as [<- | Hin]; simpl.
        -- specialize (IH h (or_introl eq_refl)). lia.
        -- specialize (IH p (or_intror Hin)). lia.
Qed.

Lemma split_piece_no_sep (sep : ascii) (s p : string) :
  In p (split sep s) -> count_char sep p = O.
Proof.
  revert p. induction s as [| a s IH]; simpl; intros p Hin.
  - now destruct Hin as [<- | []].
  - destruct (Ascii.eqb a sep) eqn:Ea.
    + destruct Hin as [<- | Hin]; [reflexivity | now apply IH].
    + destruct (split sep s) as [| h t] eqn:E.
      * destruct Hin as [<- | []]. simpl. now rewrite Ea.
      * destruct Hin as [<- | Hin]; simpl.
        -- rewrite Ea. now apply IH; left.
        -- now apply IH; right.
Qed.

Lemma nth_lf_free (parts : list string) (i : nat) :
  Forall lf_free parts -> lf_free (nth i parts "").
Proof.
  intros Hall. destruct (nth_in_or_default i parts "") as [Hin | ->].
  - rewrite Forall_forall in Hall. now apply Hall.
  - reflexivity.
Qed.

Lemma fields_lf_free (line : string) :
  lf_free line -> Forall lf_free (split TAB line).
Proof.
  intros Hl. apply Forall_forall. intros p Hin. unfold lf_free in *.
  pose proof (split_piece_count LF TAB line p Hin). lia.
Qed.

Lemma lines_lf_free (s : string) : Forall lf_free (split LF s).
Proof.
  apply Forall_forall. intros p Hin. now apply split_piece_no_sep with s.
Qed.

Lemma escape_quotes_lf (s : string) :
  count_char LF (escape_quotes s) = count_char LF s.
Proof.
  unfold escape_quotes.
  induction s as [| a s IH]; simpl; [reflexivity |].
  destruct (Ascii.eqb a QUOTE) eqn:E; simpl.
  - apply Ascii.eqb_eq in E. subst a. simpl. exact IH.
  - now rewrite IH.
Qed.

Lemma take_count (c : ascii) (n : nat) (s : string) :
  (count_char c (take n s) <= count_char c s)%nat.
Proof.
  revert s. induction n as [| n IH]; intros [| a s]; simpl; try lia.
  specialize (IH s). lia.
Qed.

Lemma rstrip_with_count (c : ascii) (p : ascii -> bool) (s : string) :
  (count_char c (rstrip_with p s) <= count_char c s)%nat.
Proof.
  induction s as [| a s IH]; simpl; [lia |].
  destruct (p a && negb (nonempty (rstrip_with p s))); simpl; lia.
Qed.

Lemma uint_digits_lf_free (d : Decimal.uint) :
  lf_free (NilEmpty.string_of_uint d).
Proof. unfold lf_free. induction d; simpl; auto. Qed.

Lemma str_of_nat_lf_free (n : nat) : lf_free (str_of_nat n).
Proof.
  unfold str_of_nat, NilZero.string_of_uint.
  destruct (Nat.to_uint n) eqn:E; try reflexivity;
    rewrite <- E; apply uint_digits_lf_free.
Qed.

Lemma concat_lf_free (sep : string) (l : list string) :
  lf_free sep -> Forall lf_free l -> lf_free (String.concat sep l).
Proof.
  unfold lf_free. intros Hsep Hall.
  induction Hall as [| x l Hx Hall IH]; [reflexivity |].
  simpl. destruct l as [| y l]; [exact Hx |].
  rewrite !count_char_app. rewrite Hx, Hsep. exact IH.
Qed.
End CountFacts.

Section RestorationNewlines.
Import PyStr Newlines ExecuteRestoration.

Lemma set_clean (k : string) (v : req_data) (d : PyDict.dict req_data) :
  clean (k, v) -> Forall clean d -> Forall clean (PyDict.set k v d).
Proof.
  intros Hkv Hd. induction Hd as [| [k' v'] d Hx Hd IH]; simpl.
  - now constructor.
  - destruct (String.eqb k' k) eqn:E.
    + apply String.eqb_eq in E. subst k'. now constructor.
    + now constructor.
Qed.

Lemma parse_line_clean (d : PyDict.dict req_data) (line : string) :
  lf_free line -> Forall clean d -> Forall clean (parse_line d line).
Proof.
  intros Hl Hd. unfold parse_line.
  destruct (5 <=? List.length (split TAB line))%nat; [| exact Hd].
  apply set_clean; [| exact Hd].
  pose proof (fields_lf_free line Hl) as Hf.
  repeat split; simpl; now apply nth_lf_free.
Qed.

Lemma fold_parse_clean (lines : list string) (d : PyDict.dict req_data) :
  Forall lf_free lines -> Forall clean d ->
  Forall clean (fold_left parse_line lines d).
Proof.
  intros Hl. revert d. induction Hl as [| line lines Hx Hl IH]; intros d Hd.
  - exact Hd.
  - simpl. apply IH. now apply parse_line_clean.
Qed.

Lemma requirement_lines_lf_free (content : string) :
  Forall lf_free (requirement_lines content).
Proof.
  unfold requirement_lines. apply Forall_forall. intros p Hin.
  apply filter_In in Hin. destruct Hin as [Hin _].
  revert p Hin. apply Forall_forall, lines_lf_free.
Qed.

Lemma extract_clean (content : string) :
  Forall clean (extract_requirements_from_backup content).
Proof.
  apply fold_parse_clean; [apply requirement_lines_lf_free | constructor].
Qed.

Lemma update_lines_lf_free (item : string * req_data) :
  clean item -> Forall lf_free (update_lines item).
Proof.
  destruct item as [req_id d]. intros (Hk & _ & Hc & Ht & Hd).
  simpl in Hk, Hc, Ht, Hd. unfold lf_free in *.
  pose proof (take_count LF 60 (escape_quotes (title d))) as Htake.
  rewrite escape_quotes_lf in Htake.
  unfold update_lines.
  set (preview := take 60 (escape_quotes (title d))) in *.
  repeat apply Forall_cons; try apply Forall_nil;
    rewrite ?count_char_app, ?escape_quotes_lf; simpl; lia.
Qed.

Lemma standard_lines_lf_free (targets : PyDict.dict req_data)
    (std : string * string) :
  Forall clean targets -> lf_free (upper (fst std)) ->
  Forall lf_free (standard_lines targets std).
Proof.
  destruct std as [std_name std_id]. intros Ht Hn. simpl in Hn.
  unfold standard_lines.
  set (rs := filter _ targets).
  assert (Hrs : Forall clean rs).
  { apply Forall_forall. intros x Hx. apply filter_In in Hx.
    rewrite Forall_forall in Ht. now apply Ht. }
  destruct rs as [| r rs]; [constructor |].
  constructor; [| constructor; [reflexivity |]].
  - unfold lf_free in *. rewrite !count_char_app, Hn.
    rewrite (str_of_nat_lf_free _). reflexivity.
  - apply Forall_flat_map. eapply Forall_impl; [| exact Hrs].
    intros a. apply update_lines_lf_free.
Qed.

Lemma update_last_Forall (P : string -> Prop) (f : string -> string)
    (l : list string) :
  (forall x, P x -> P (f x)) -> Forall P l -> Forall P (update_last f l).
Proof.
  intros Hf Hl. induction Hl as [| x l Hx Hl IH]; [constructor |].
  simpl. destruct l as [| y l]; [now repeat constructor; apply Hf |].
  constructor; [exact Hx | exact IH].
Qed.

Lemma sql_statements_lf_free (content : string) :
  Forall lf_free (sql_statements content).
Proof.
  unfold sql_statements.
  apply Forall_app. split; [| repeat constructor].
  apply update_last_Forall.
  - intros x Hx. unfold lf_free, rstrip_char in *.
    pose proof (rstrip_with_count LF (Ascii.eqb ",") x). lia.
  - assert (Ht : Forall clean
              (target_requirements (extract_requirements_from_backup content))).
    { apply Forall_forall. intros x Hx. apply filter_In in Hx.
      pose proof (extract_clean content) as Hc.
      rewrite Forall_forall in Hc. now apply Hc. }
    apply Forall_app. split; [repeat constructor |].
    apply Forall_app. split.
    + apply Forall_flat_map.
      repeat apply Forall_cons; try apply Forall_nil;
        now apply standard_lines_lf_free.
    + apply Forall_app. split; repeat constructor.
Qed.
End RestorationNewlines.

Section InsertNewlines.
Import PyStr Newlines CreateInsertStatements.

Lemma null_or_lf (p : string) :
  count_char LF p = O -> count_char LF (null_or p) = O.
Proof. unfold null_or. now destruct (negb (String.eqb p "\N")). Qed.

Lemma quote_unless_null_lf (p : string) :
  count_char LF p = O -> count_char LF (quote_unless_null p) = O.
Proof.
  unfold quote_unless_null. intros Hp.
  destruct (negb (String.eqb p "NULL")); [| exact Hp].
  rewrite !count_char_app, Hp. reflexivity.
Qed.

Lemma render_audit_ready_guidance_lf (p : string) :
  count_char LF p = O -> count_char LF (render_audit_ready_guidance p) = O.
Proof.
  unfold render_audit_ready_guidance. intros Hp.
  destruct (negb (String.eqb (null_or p) "NULL")).
  - rewrite !count_char_app, escape_quotes_lf, (null_or_lf p Hp). reflexivity.
  - now apply null_or_lf.
Qed.

Lemma insert_sql_newlines (parts : list string) :
  Forall lf_free parts -> count_char LF (insert_sql parts) = 9%nat.
Proof.
  intros Hall.
  assert (Hn : forall i, count_char LF (nth i parts "") = O)
    by (intros i; now apply nth_lf_free).
  unfold insert_sql, render_parent_requirement_id, render_tags,
    render_official_description, render_implementation_guidance,
    render_section.
  cbv zeta.
  rewrite !count_char_app, !escape_quotes_lf.
  rewrite (render_audit_ready_guidance_lf _ (Hn 15%nat)).
  rewrite !(quote_unless_null_lf _ (null_or_lf _ (Hn _))).
  rewrite !(null_or_lf _ (Hn _)).
  rewrite !Hn. reflexivity.
Qed.

Lemma parse_line_template (acc : inserts) (line : string) :
  lf_free line ->
  Forall template_entry (fst acc) /\ Forall template_entry (snd acc) ->
  Forall template_entry (fst (parse_line acc line))
  /\ Forall template_entry (snd (parse_line acc line)).
Proof.
  intros Hl [H1 H2]. unfold parse_line.
  pose proof (fields_lf_free line Hl) as Hf.
  assert (He : template_entry
                 (nth 2 (split TAB line) "", insert_sql (split TAB line)))
    by (split; [now apply nth_lf_free | now apply insert_sql_newlines]).
  destruct (18 <=? List.length (split TAB line))%nat; [| now split].
  destruct (String.eqb _ iso27001_id); simpl.
  - split; [| exact H2]. apply Forall_app. split; [exact H1 | now constructor].
  - destruct (String.eqb _ iso27002_id); simpl; [| now split].
    split; [exact H1 |].
    apply Forall_app. split; [exact H2 | now constructor].
Qed.

Lemma requirement_lines_insert_lf_free (content : string) :
  Forall lf_free (requirement_lines content).
Proof.
  unfold requirement_lines. apply Forall_forall. intros p Hin.
  apply filter_In in Hin. destruct Hin as [Hin _].
  revert p Hin. apply Forall_forall, lines_lf_free.
Qed.

Lemma extract_template (content : string) :
  Forall template_entry (fst (extract_requirements_for_insert content))
  /\ Forall template_entry (snd (extract_requirements_for_insert content)).
Proof.
  unfold extract_requirements_for_insert.
  pose proof (requirement_lines_insert_lf_free content) as Hl.
  assert (Hgen : forall lines acc,
    Forall lf_free lines ->
    Forall template_entry (fst acc) /\ Forall template_entry (snd acc) ->
    Forall template_entry (fst (fold_left parse_line lines acc))
    /\ Forall template_entry (snd (fold_left parse_line lines acc))).
  { intros lines acc H. revert acc.
    induction H as [| line lines Hx H IH]; intros acc Hacc; [exact Hacc |].
    simpl. apply IH. now apply parse_line_template. }
  apply Hgen; [exact Hl | split; constructor].
Qed.

Lemma entry_text_newlines (e : string * string) :
  template_entry e -> count_char LF (entry_text e) = 9%nat.
Proof.
  intros [Hk Hs]. unfold entry_text, lf_free in *.
  rewrite !count_char_app, Hk, Hs. reflexivity.
Qed.

Lemma concat_entries_newlines (entries : list (string * string)) :
  Forall template_entry entries ->
  count_char LF (String.concat "" (map entry_text entries))
  = (9 * List.length entries)%nat.
Proof.
  intros Hall. induction Hall as [| e entries He Hall IH]; [reflexivity |].
  cbn [map String.concat List.length].
  destruct (map entry_text entries) as [| x xs] eqn:E.
  - destruct entries; [| discriminate].
    rewrite (entry_text_newlines e He). reflexivity.
  - rewrite !count_char_app, (entry_text_newlines e He), IH. simpl. lia.
Qed.

Lemma file_text_newlines (header : string) (entries : list (string * string)) :
  lf_free header -> Forall template_entry entries ->
  count_char LF (file_text header entries) = (9 * List.length entries)%nat.
Proof.
  intros Hh Hall. unfold file_text.
  rewrite count_char_app, Hh. now apply concat_entries_newlines.
Qed.

Lemma written_template (content : string) :
  Forall template_entry (iso27001_written content)
  /\ Forall template_entry (iso27002_written content).
Proof.
  destruct (extract_template content) as [H1 H2].
  unfold iso27001_written, iso27002_written. split.
  - eapply Permutation_Forall; [| exact H1].
    apply Permutation_sym, sorted_by_key_perm.
  - apply Forall_forall. intros e He.
    assert (Hin : In e (sorted_by_key
                          (snd (extract_requirements_for_insert content)))).
    { rewrite <- (firstn_skipn 20). apply in_or_app. now left. }
    apply (Permutation_in _ (sorted_by_key_perm _)) in Hin.
    rewrite Forall_forall in H2. now apply H2.
Qed.
End InsertNewlines.

Section SampleTextFacts.
Import PyStr CreateInsertStatements.

Lemma append_nil_r (a : string) : a ++ "" = a.
Proof. induction a as [| c a IH]; simpl; [reflexivity | now rewrite IH]. Qed.

Lemma append_assoc_text (a b c : string) : (a ++ b) ++ c = a ++ (b ++ c).
Proof. induction a as [| x a IH]; simpl; [reflexivity | now rewrite IH]. Qed.

Lemma prefix_app_self (a b : string) : String.prefix a (a ++ b) = true.
Proof.
  induction a as [| c a IH]; simpl; [now destruct b |].
  destruct (ascii_dec c c); [exact IH | congruence].
Qed.

Lemma contains_middle (sub a b : string) :
  contains sub (a ++ sub ++ b) = true.
Proof.
  unfold contains.
  assert (H : exists k, find_nat sub (a ++ sub ++ b) = Some k).
  { induction a as [| c a [k IH]]; cbn [append].
    - exists O. pose proof (prefix_app_self sub b) as Hp.
      destruct (sub ++ b); cbn [find_nat]; now rewrite Hp.
    - cbn [find_nat].
      destruct (String.prefix sub (String c (a ++ sub ++ b)));
        [now exists O |].
      rewrite IH. now exists (S k). }
  destruct H as [k ->]. reflexivity.
Qed.

Lemma concat_texts_cons (x : string) (l : list string) :
  String.concat "" (x :: l) = x ++ String.concat "" l.
Proof.
  cbn [String.concat]. destruct l; [now rewrite append_nil_r | reflexivity].
Qed.

Lemma statement_in_file_text (header : string)
    (entries : list (string * string)) (e : string * string) :
  In e entries ->
  contains (snd e)
    (header
     ++ String.concat ""
          (map (fun e => "-- Insert " ++ fst e ++ "\n" ++ snd e ++ "\n\n")
             entries)) = true.
Proof.
  intros Hin.
  assert (H : exists a b,
            String.concat ""
              (map (fun e => "-- Insert " ++ fst e ++ "\n" ++ snd e ++ "\n\n")
                 entries)
            = a ++ snd e ++ b).
  { induction entries as [| x entries IH]; [contradiction |].
    cbn [map]. rewrite concat_texts_cons.
    destruct Hin as [-> | Hin].
    - exists ("-- Insert " ++ fst e ++ "\n"),
        ("\n\n"
         ++ String.concat ""
              (map (fun e => "-- Insert " ++ fst e ++ "\n" ++ snd e ++ "\n\n")
                 entries)).
      now rewrite !append_assoc_text.
    - destruct (IH Hin) as (a & b & ->).
      exists (("-- Insert " ++ fst x ++ "\n" ++ snd x ++ "\n\n") ++ a), b.
      now rewrite !append_assoc_text. }
  destruct H as (a & b & ->).
  rewrite <- append_assoc_text. apply contains_middle.
Qed.
End SampleTextFacts.

(** C7, as amended: when more than 20 entries are collected for ISO 27002,
    the sample file is its header followed by the entries of exactly the
    first 20 statements of the control-id-sorted list and nothing more:
    each of these statements occurs in the file, which holds the 180
    newline characters of 20 statement templates, and the sorted list is
    the written entries followed by at least one entry that is not
    written.  When the sorted entries are pairwise distinct, no entry left
    out equals a written one.  The ISO 27001 file is its header followed
    by the entries of all its sorted statements. *)
Theorem sample_holds_first_twenty :
  forall content : string,
    let inserts :=
      CreateInsertStatements.extract_requirements_for_insert content in
    let ordered := PyStr.sorted_by_key (snd inserts) in
    let written := CreateInsertStatements.iso27002_written content in
    let sample_text :=
      CreateInsertStatements.iso27002_header
      ++ String.concat ""
           (map (fun e => "-- Insert " ++ fst e ++ "\n" ++ snd e ++ "\n\n")
              (firstn 20 ordered)) in
    let full_text :=
      CreateInsertStatements.iso27001_header
      ++ String.concat ""
           (map (fun e => "-- Insert " ++ fst e ++ "\n" ++ snd e ++ "\n\n")
              (PyStr.sorted_by_key (fst inserts))) in
    (20 < List.length (snd inserts))%nat ->
    written = firstn 20 ordered
    /\ List.length written = 20%nat
    /\ ordered = (written ++ skipn 20 ordered)%list
    /\ List.length (skipn 20 ordered) = (List.length (snd inserts) - 20)%nat
    /\ (forall k : nat,
          (20 <= k)%nat -> nth_error written k = None)
    /\ (NoDup ordered ->
        forall e, In e (skipn 20 ordered) -> ~ In e written)
    /\ CreateInsertStatements.main content
       = [ ("iso27001_inserts.sql", full_text);
           ("iso27002_inserts_sample.sql", sample_text) ]
    /\ (forall e, In e written ->
                  PyStr.contains (snd e) sample_text = true)
    /\ PyStr.count_char PyStr.LF sample_text = 180%nat
    /\ Permutation (PyStr.sorted_by_key (fst inserts)) (fst inserts)
    /\ (forall e, In e (fst inserts) ->
                  PyStr.contains (snd e) full_text = true).
Proof.
  intros content inserts ordered written sample_text full_text Hlen.
  assert (Hw : written = firstn 20 ordered) by reflexivity.
  assert (Hlo : List.length ordered = List.length (snd inserts))
    by apply sorted_by_key_length.
  assert (Hlw : List.length written = 20%nat)
    by (rewrite Hw, length_firstn; lia).
  split; [exact Hw |]. split; [exact Hlw |].
  split; [rewrite Hw; symmetry; apply firstn_skipn |].
  split; [rewrite length_skipn; lia |].
  split; [intros k Hk; apply nth_error_None; lia |].
  split.
  { intros Hnd e Hin Hin'.
    rewrite <- (firstn_skipn 20 ordered) in Hnd. rewrite <- Hw in Hnd.
    revert Hnd Hin Hin'. generalize (skipn 20 ordered). clear.
    induction written as [| x w IH]; intros rest Hnd Hin Hin'; [easy |].
    simpl in Hnd. inversion Hnd as [| ? ? Hx Hnd']; subst.
    destruct Hin' as [-> | Hin'].
    + apply Hx, in_or_app. now right.
    + now apply (IH rest). }
  split; [reflexivity |].
  split.
  { intros e He. apply statement_in_file_text. now rewrite <- Hw. }
  split.
  { destruct (written_template content) as [_ H2].
    change sample_text
      with (CreateInsertStatements.file_text
              CreateInsertStatements.iso27002_header written).
    rewrite (file_text_newlines CreateInsertStatements.iso27002_header
               written eq_refl H2), Hlw.
    reflexivity. }
  split; [apply sorted_by_key_perm |].
  intros e He. apply statement_in_file_text.
  apply (Permutation_in _ (Permutation_sym (sorted_by_key_perm _))), He.
Qed.

(** C7 on a backup with 21 rows of ISO 27002: the entry for control id 5.9,
    last in lexicographic order, is left out of the sample. *)
Lemma sample_holds_first_twenty_witness :
  (20 < List.length
          (snd (CreateInsertStatements.extract_requirements_for_insert
                  InsertFixtures.sample_backup)))%nat
  /\ NoDup InsertFixtures.sample_ordered
  /\ List.length
       (CreateInsertStatements.iso27002_written InsertFixtures.sample_backup)
     = 20%nat
  /\ map fst (skipn 20 InsertFixtures.sample_ordered) = ["5.9"]
  /\ nth_error
       (CreateInsertStatements.iso27002_written InsertFixtures.sample_backup)
       20 = None
  /\ (forall e, In e (skipn 20 InsertFixtures.sample_ordered) ->
       ~ In e (CreateInsertStatements.iso27002_written
                 InsertFixtures.sample_backup))
  /\ PyStr.count_char PyStr.LF
       (CreateInsertStatements.file_text
          CreateInsertStatements.iso27002_header
          (CreateInsertStatements.iso27002_written
             InsertFixtures.sample_backup)) = 180%nat
  /\ PyStr.contains
       (snd (nth 19
               (CreateInsertStatements.iso27002_written
                  InsertFixtures.sample_backup) ("", "")))
       (CreateInsertStatements.file_text
          CreateInsertStatements.iso27002_header
          (CreateInsertStatements.iso27002_written
             InsertFixtures.sample_backup)) = true
  /\ PyStr.contains
       (snd (nth 0
               (fst (CreateInsertStatements.extract_requirements_for_insert
                       InsertFixtures.sample_backup)) ("", "")))
       (CreateInsertStatements.file_text
          CreateInsertStatements.iso27001_header
          (CreateInsertStatements.iso27001_written
             InsertFixtures.sample_backup)) = true.
Proof.
  assert (H : (20 < List.length
          (snd (CreateInsertStatements.extract_requirements_for_insert
                  InsertFixtures.sample_backup)))%nat)
    by (vm_compute; lia).
  assert (Hnd : NoDup InsertFixtures.sample_ordered).
  { assert (E : nodup InsertFixtures.entry_eq_dec InsertFixtures.sample_ordered
                = InsertFixtures.sample_ordered)
      by (vm_compute; reflexivity).
    rewrite <- E. apply NoDup_nodup. }
  destruct (sample_holds_first_twenty InsertFixtures.sample_backup H)
    as (_ & Hl & _ & _ & Hnone & Habsent & _ & Hin2 & Hlf & _ & Hin1).
  split; [exact H |]. split; [exact Hnd |]. split; [exact Hl |].
  split; [vm_compute; reflexivity |].
  split; [exact (Hnone 20%nat (le_n 20)) |].
  split; [exact (Habsent Hnd) |]. split; [exact Hlf |].
  split.
  - apply Hin2, nth_In. rewrite Hl. lia.
  - apply Hin1, nth_In. vm_compute. lia.
Defined.

(** C7, as stated, fails: with 21 identical rows of ISO 27002 the 21st
    statement of the sorted list is among the 20 written to the sample and
    occurs in the sample file. *)
Lemma sample_contains_twenty_first_refuted :
  (20 < List.length
          (snd (CreateInsertStatements.extract_requirements_for_insert
                  InsertFixtures.repeated_rows_backup)))%nat
  /\ nth_error
       (PyStr.sorted_by_key
          (snd (CreateInsertStatements.extract_requirements_for_insert
                  InsertFixtures.repeated_rows_backup))) 20
     = Some InsertFixtures.repeated_entry
  /\ In InsertFixtures.repeated_entry
       (CreateInsertStatements.iso27002_written
          InsertFixtures.repeated_rows_backup)
  /\ PyStr.contains (snd InsertFixtures.repeated_entry)
       (CreateInsertStatements.file_text
          CreateInsertStatements.iso27002_header
          (CreateInsertStatements.iso27002_written
             InsertFixtures.repeated_rows_backup)) = true.
Proof.
  split; [vm_compute; lia |].
  split; [vm_compute; reflexivity |].
  split; [left; vm_compute; reflexivity | vm_compute; reflexivity].
Qed.

(** C9: the restoration generator joins its lines with the two characters
    backslash and n, and the text it returns, hence the emitted
    [requirements_restoration.sql], holds no newline character at all.
    The INSERT generator's header and per-entry writes spell the same two
    characters: the only newline characters of either INSERT file are the
    nine inside each statement template. *)
Theorem generated_text_uses_literal_backslash_n :
  forall content : string,
    ExecuteRestoration.line_separator = Newlines.backslash_n
    /\ ExecuteRestoration.generate_restoration_sql content
       = String.concat Newlines.backslash_n
           (ExecuteRestoration.sql_statements content)
    /\ Forall Newlines.lf_free (ExecuteRestoration.sql_statements content)
    /\ PyStr.count_char PyStr.LF
         (snd (ExecuteRestoration.main content)) = O
    /\ CreateInsertStatements.iso27001_header
       = "-- ISO 27001 Requirements INSERT Statements" ++ Newlines.backslash_n
         ++ "-- Generated from July 19th backup" ++ Newlines.backslash_n
         ++ Newlines.backslash_n
    /\ CreateInsertStatements.iso27002_header
       = "-- ISO 27002 Requirements INSERT Statements (Sample)"
         ++ Newlines.backslash_n
         ++ "-- Generated from July 19th backup" ++ Newlines.backslash_n
         ++ Newlines.backslash_n
    /\ (forall e : string * string,
          CreateInsertStatements.entry_text e
          = "-- Insert " ++ fst e ++ Newlines.backslash_n ++ snd e
            ++ Newlines.backslash_n ++ Newlines.backslash_n)
    /\ PyStr.count_char PyStr.LF
         (CreateInsertStatements.file_text
            CreateInsertStatements.iso27001_header
            (CreateInsertStatements.iso27001_written content))
       = (9 * List.length
                (CreateInsertStatements.iso27001_written content))%nat
    /\ PyStr.count_char PyStr.LF
         (CreateInsertStatements.file_text
            CreateInsertStatements.iso27002_header
            (CreateInsertStatements.iso27002_written content))
       = (9 * List.length
                (CreateInsertStatements.iso27002_written content))%nat.
Proof.
  intros content.
  pose proof (sql_statements_lf_free content) as Hlines.
  destruct (written_template content) as [H1 H2].
  split; [reflexivity |]. split; [reflexivity |]. split; [exact Hlines |].
  split; [| split; [reflexivity | split; [reflexivity | split; [| split]]]].
  - unfold ExecuteRestoration.main. cbn [snd].
    unfold ExecuteRestoration.generate_restoration_sql, PyStr.join.
    apply concat_lf_free; [reflexivity | exact Hlines].
  - intros e. reflexivity.
  - now apply file_text_newlines.
  - now apply file_text_newlines.
Qed.

Section EscapeFacts.
Import PyStr SqlLiteral.

Lemma append_assoc (a b c : string) : (a ++ b) ++ c = a ++ (b ++ c).
Proof. induction a as [| x a IH]; simpl; [reflexivity | now rewrite IH]. Qed.

Lemma drop_app_length (a b : string) : drop (String.length a) (a ++ b) = b.
Proof. induction a as [| x a IH]; simpl; [now destruct b | exact IH]. Qed.

Lemma read_body_escaped (t rest : string) :
  no_leading_quote rest ->
  read_body (escape_quotes t ++ "'" ++ rest) = Some (t, rest).
Proof.
  intros Hrest. unfold escape_quotes.
  induction t as [| a t IH].
  - destruct rest as [| c rest]; [reflexivity |].
    cbn [replace_char append read_body].
    change (Ascii.eqb "'" QUOTE) with true. cbv iota.
    cbn [no_leading_quote] in Hrest. now rewrite Hrest.
  - cbn [replace_char]. destruct (Ascii.eqb a QUOTE) eqn:E.
    + apply Ascii.eqb_eq in E. subst a.
      change (read_body
                (String QUOTE (String QUOTE
                   (replace_char QUOTE "''" t ++ "'" ++ rest)))
              = Some (String QUOTE t, rest)).
      remember (replace_char QUOTE "''" t ++ "'" ++ rest) as body.
      cbn [read_body]. rewrite Ascii.eqb_refl, IH. reflexivity.
    + change (read_body
                (String a (replace_char QUOTE "''" t ++ "'" ++ rest))
              = Some (String a t, rest)).
      remember (replace_char QUOTE "''" t ++ "'" ++ rest) as body.
      cbn [read_body]. rewrite E, IH. reflexivity.
Qed.

Lemma read_literal_escaped (t rest : string) :
  no_leading_quote rest ->
  read_literal ("'" ++ escape_quotes t ++ "'" ++ rest) = Some (t, rest).
Proof. intros H. simpl. now apply read_body_escaped. Qed.

Lemma escape_quotes_paired (t : string) :
  quotes_paired (escape_quotes t) = true.
Proof.
  unfold escape_quotes. induction t as [| a t IH]; [reflexivity |].
  cbn [replace_char]. destruct (Ascii.eqb a QUOTE) eqn:E.
  - simpl. exact IH.
  - cbn [quotes_paired]. now rewrite E.
Qed.

Lemma escape_quotes_count (t : string) :
  count_char QUOTE (escape_quotes t) = (2 * count_char QUOTE t)%nat.
Proof.
  unfold escape_quotes. induction t as [| a t IH]; [reflexivity |].
  cbn [replace_char count_char]. destruct (Ascii.eqb a QUOTE) eqn:E.
  - simpl. rewrite IH. lia.
  - cbn [count_char]. rewrite E, IH. lia.
Qed.
End EscapeFacts.

(** C5: in the UPDATE statement of the restoration path and in the INSERT
    statement of the full-row path, the title and the description stand as
    quoted literals whose content is the backup value with every quote
    doubled: every quote inside is one of an adjacent pair, there are twice
    as many as in the backup value, and reading the literal by SQL's
    doubled-quote rule stops at its closing quote and returns the backup
    value. *)
Theorem title_and_description_quotes_doubled :
  forall (req_id : string) (d : ExecuteRestoration.req_data)
         (parts : list string),
    let lines := ExecuteRestoration.update_lines (req_id, d) in
    let t := ExecuteRestoration.title d in
    let ds := ExecuteRestoration.description d in
    (forall v : string,
       SqlLiteral.quotes_paired (PyStr.escape_quotes v) = true
       /\ PyStr.count_char PyStr.QUOTE (PyStr.escape_quotes v)
          = (2 * PyStr.count_char PyStr.QUOTE v)%nat)
    /\ nth 2 lines "" = "  title = '" ++ PyStr.escape_quotes t ++ "',"
    /\ nth 3 lines "" = "  description = '" ++ PyStr.escape_quotes ds ++ "',"
    /\ SqlLiteral.read_literal (PyStr.drop 10 (nth 2 lines "")) = Some (t, ",")
    /\ SqlLiteral.read_literal (PyStr.drop 16 (nth 3 lines ""))
       = Some (ds, ",")
    /\ exists rest : string,
         CreateInsertStatements.insert_sql parts
         = SqlLiteral.insert_prefix parts
           ++ "'" ++ PyStr.escape_quotes (nth 3 parts "") ++ "'" ++ ", "
           ++ "'" ++ PyStr.escape_quotes (nth 4 parts "") ++ "'" ++ ", "
           ++ rest
         /\ SqlLiteral.read_literal
              (PyStr.drop (String.length (SqlLiteral.insert_prefix parts))
                 (CreateInsertStatements.insert_sql parts))
            = Some (nth 3 parts "",
                    ", " ++ "'" ++ PyStr.escape_quotes (nth 4 parts "")
                    ++ "'" ++ ", " ++ rest)
         /\ SqlLiteral.read_literal
              ("'" ++ PyStr.escape_quotes (nth 4 parts "") ++ "'" ++ ", "
               ++ rest)
            = Some (nth 4 parts "", ", " ++ rest).
Proof.
  intros req_id d parts lines t ds.
  split; [intros v; split;
          [apply escape_quotes_paired | apply escape_quotes_count] |].
  split; [reflexivity |]. split; [reflexivity |].
  split; [exact (read_literal_escaped t "," eq_refl) |].
  split; [exact (read_literal_escaped ds "," eq_refl) |].
  assert (Hsplit : exists rest : string,
    CreateInsertStatements.insert_sql parts
    = SqlLiteral.insert_prefix parts
      ++ "'" ++ PyStr.escape_quotes (nth 3 parts "") ++ "'" ++ ", "
      ++ "'" ++ PyStr.escape_quotes (nth 4 parts "") ++ "'" ++ ", "
      ++ rest).
  { unfold CreateInsertStatements.insert_sql, SqlLiteral.insert_prefix.
    cbv zeta. eexists. rewrite !append_assoc. reflexivity. }
  destruct Hsplit as [rest Hrest]. exists rest.
  split; [exact Hrest |]. split.
  - rewrite Hrest, drop_app_length.
    apply read_literal_escaped. reflexivity.
  - apply read_literal_escaped. reflexivity.
Qed.

(** C1 fails on the code: for the 18-field row [nullable_row] the sentinel
    fields do come out as bare NULL, but the non-null official description
    is interpolated with no quotes at all and the non-null section is
    quoted with its inner quote left single; only [audit_ready_guidance]
    is quoted with doubling. *)
Theorem nullable_fields_rendering_at_row :
  (18 <=? List.length (PyStr.split PyStr.TAB Fixtures.nullable_row))%nat = true
  /\ CreateInsertStatements.extract_requirements_for_insert
       Fixtures.nullable_backup
     = ([("4.1", Fixtures.nullable_insert)], [])
  /\ CreateInsertStatements.render_official_description "\N" = "NULL"
  /\ CreateInsertStatements.render_section "\N" = "NULL"
  /\ CreateInsertStatements.render_official_description "Official text"
     = "Official text"
  /\ CreateInsertStatements.render_implementation_guidance "Official text"
     = "Official text"
  /\ CreateInsertStatements.render_section "O'Brien" = "'O'Brien'"
  /\ CreateInsertStatements.render_tags "O'Brien" = "'O'Brien'"
  /\ CreateInsertStatements.render_parent_requirement_id "O'Brien"
     = "'O'Brien'"
  /\ CreateInsertStatements.render_audit_ready_guidance "O'Brien"
     = "'O''Brien'"
  /\ CreateInsertStatements.render_tags "NULL" = "NULL".
Proof. repeat split; vm_compute; reflexivity. Qed.

(** C2 fails on the code: the script generated from [one_row_backup] holds
    one UPDATE statement, the Batcher writes it to one chunk file, and the
    Aggregator run over that file returns its header alone, with no UPDATE
    statement: the chunk is a single line that begins with a comment. *)
Theorem roundtrip_drops_update_at_one_row :
  firstn 5 (skipn 7 (ExecuteRestoration.sql_statements Fixtures.one_row_backup))
  = Fixtures.one_row_update
  /\ (exists chunk : string,
        Fixtures.one_row_chunks = Some [("sql_chunk_01.sql", chunk)]
        /\ PyStr.split PyStr.LF chunk = [chunk]
        /\ PyStr.startswith "-- Update" chunk = true
        /\ BulkRestoreAll.all_sql [("sql_chunk_01.sql", chunk)]
           = BulkRestoreAll.header
        /\ BulkRestoreAll.create_complete_sql [("sql_chunk_01.sql", chunk)]
           = "-- COMPLETE REQUIREMENTS RESTORATION" ++ PyStr.nl
             ++ "-- Restoring ALL requirements from July 19th backup"
             ++ PyStr.nl
        /\ PyStr.contains "UPDATE requirements_library SET"
             (BulkRestoreAll.create_complete_sql [("sql_chunk_01.sql", chunk)])
           = false).
Proof.
  split.
  - vm_compute. reflexivity.
  - eexists. split; [vm_compute; reflexivity |].
    repeat split; vm_compute; reflexivity.
Qed.

Section GuardFacts.
Import PyStr RestoreRequirements.

Lemma find_absent (s sub : string) :
  find s sub 0 = (-1)%Z <-> contains sub s = false.
Proof.
  unfold find, contains, len. cbn [Z.ltb Z.compare Z.to_nat drop].
  destruct (Z.ltb_spec (Z.of_nat (String.length s)) 0); [lia |].
  destruct (find_nat sub s); split; intros; try reflexivity;
    try discriminate; lia.
Qed.

(** The guarded parser returns the error pair as soon as one of the two
    markers is absent. *)
Lemma guarded_parser_reports_missing_marker (content : string) :
  contains "COPY public.standards_library" content = false
  \/ contains "COPY public.requirements_library" content = false ->
  extract_backup_data content = None.
Proof.
  intros H. unfold extract_backup_data.
  destruct (Z.eqb_spec (find content "COPY public.standards_library" 0) (-1));
    [reflexivity |].
  destruct H as [H | H]; apply find_absent in H; [contradiction |].
  cbv zeta. rewrite H. reflexivity.
Qed.
End GuardFacts.

(** C4 fails on the code for two of the three entry points: on a backup
    with no [requirements_library] marker the guarded parser reports the
    error, while the light parser and the INSERT parser return a row read
    from the block of another table. *)
Theorem unguarded_parsers_read_other_table :
  PyStr.find Fixtures.other_table_backup "COPY public.requirements_library" 0
  = (-1)%Z
  /\ RestoreRequirements.extract_backup_data Fixtures.other_table_backup = None
  /\ ExecuteRestoration.extract_requirements_from_backup
       Fixtures.other_table_backup
     = [ ("o1",
          ExecuteRestoration.mk_req_data
            "55742f4e-769b-4efe-912c-1371de5e1cd6" "4.1" "Title"
            "Description") ]
  /\ map fst
       (fst (CreateInsertStatements.extract_requirements_for_insert
               Fixtures.other_table_backup))
     = ["4.1"].
Proof. repeat split; vm_compute; reflexivity. Qed.

(** * Further properties of the scripts *)

(** ** Guarded parser *)
Section GuardedParserFacts.
Import PyStr RestoreRequirements Words.

Lemma find_present (s sub : string) :
  contains sub s = true -> find s sub 0 <> (-1)%Z.
Proof.
  intros H Hf. apply find_absent in Hf. congruence.
Qed.

Lemma extract_backup_data_some (content : string) :
  contains "COPY public.standards_library" content = true ->
  contains "COPY public.requirements_library" content = true ->
  exists standard_map,
    extract_backup_data content
    = Some (standard_map,
            fold_left parse_requirement (guarded_lines content) []).
Proof.
  intros Hs Hr. apply find_present in Hs, Hr.
  unfold extract_backup_data. cbv zeta.
  destruct (Z.eqb_spec (find content "COPY public.standards_library" 0) (-1));
    [contradiction |].
  destruct (Z.eqb_spec (find content "COPY public.requirements_library" 0) (-1));
    [contradiction |].
  eexists. reflexivity.
Qed.

Lemma parse_requirement_unfold d line :
  parse_requirement d line
  = if LightRows.well_formed line then
      PyDict.set (nth 1 (split TAB line) "")
        ((match PyDict.get (nth 1 (split TAB line) "") d with
          | Some l => l
          | None => []
          end) ++ [grouped_row line])%list d
    else d.
Proof. reflexivity. Qed.

Lemma fold_requirement_get (lines : list string) (k : string) :
  PyDict.get k (fold_left parse_requirement lines [])
  = match rows_of_standard k lines with
    | [] => None
    | rs => Some (map grouped_row rs)
    end.
Proof.
  induction lines as [| line lines IH] using rev_ind; [reflexivity |].
  rewrite fold_left_app. cbn [fold_left].
  rewrite parse_requirement_unfold.
  unfold rows_of_standard in *. rewrite filter_app. cbn [filter].
  destruct (LightRows.well_formed line); cbn [andb].
  - destruct (String.eqb (nth 1 (split TAB line) "") k) eqn:E.
    + apply String.eqb_eq in E. rewrite E in *.
      rewrite dict_get_set_same, IH.
      destruct (filter _ lines) as [| r rs]; [reflexivity |].
      cbn [app map]. now rewrite map_app.
    + rewrite app_nil_r, dict_get_set_other; [exact IH |].
      intros Heq. rewrite Heq, String.eqb_refl in E. discriminate.
  - now rewrite app_nil_r.
Qed.

Lemma total_set (d : PyDict.dict (list requirement)) (k : string)
    (r : requirement) :
  List.length
    (concat
       (PyDict.values
          (PyDict.set k
             ((match PyDict.get k d with Some l => l | None => [] end)
              ++ [r])%list d)))
  = S (List.length (concat (PyDict.values d))).
Proof.
  unfold PyDict.values.
  induction d as [| [k' v'] d IH]; [reflexivity |].
  cbn [PyDict.set PyDict.get].
  destruct (String.eqb k' k); cbn [map snd concat].
  - rewrite !length_app. simpl. lia.
  - rewrite !length_app, IH. lia.
Qed.

Lemma fold_requirement_total (lines : list string) :
  List.length
    (concat (PyDict.values (fold_left parse_requirement lines [])))
  = List.length (filter LightRows.well_formed lines).
Proof.
  induction lines as [| line lines IH] using rev_ind; [reflexivity |].
  rewrite fold_left_app. cbn [fold_left].
  rewrite parse_requirement_unfold, filter_app. cbn [filter].
  destruct (LightRows.well_formed line).
  - rewrite total_set, IH, length_app. simpl. lia.
  - now rewrite app_nil_r.
Qed.
End GuardedParserFacts.

(** X1: the guarded parser returns the error pair exactly when the backup
    lacks the [standards_library] marker or the [requirements_library]
    marker; with both markers present it always returns two mappings. *)
Theorem guarded_parser_none_iff_marker_absent :
  forall content : string,
    RestoreRequirements.extract_backup_data content = None
    <-> (PyStr.contains "COPY public.standards_library" content = false
         \/ PyStr.contains "COPY public.requirements_library" content = false).
Proof.
  intros content. split.
  - intros Hnone.
    destruct (PyStr.contains "COPY public.standards_library" content) eqn:Hs;
      [| now left].
    destruct (PyStr.contains "COPY public.requirements_library" content) eqn:Hr;
      [| now right].
    destruct (extract_backup_data_some content Hs Hr) as [m Hm]. congruence.
  - apply guarded_parser_reports_missing_marker.
Qed.

(** X1 on the empty backup and on the backup with both blocks. *)
Lemma guarded_parser_none_iff_marker_absent_witness :
  PyStr.contains "COPY public.standards_library" "" = false
  /\ RestoreRequirements.extract_backup_data "" = None
  /\ RestoreRequirements.extract_backup_data Words.two_block_backup <> None.
Proof.
  assert (H : PyStr.contains "COPY public.standards_library" "" = false)
    by reflexivity.
  split; [exact H |]. split.
  - exact (proj2 (guarded_parser_none_iff_marker_absent "") (or_introl H)).
  - intros Hnone.
    destruct (proj1 (guarded_parser_none_iff_marker_absent
                       Words.two_block_backup) Hnone) as [E | E];
      vm_compute in E; discriminate.
Defined.

(** X2: when the guarded parser succeeds, the list stored under a standard
    id holds one record per accepted line of that standard, in the order of
    the lines, and no key exists for a standard without accepted lines;
    rows are never merged, so the records over all standards number the
    accepted lines.  The accepted lines are the non-blank lines with at
    least five tab-separated fields of the requirements section after the
    section text has been stripped; the strip removes trailing tabs, so a
    last row whose trailing fields are empty may not be among them. *)
Theorem guarded_parser_groups_rows_in_order :
  forall (content : string) (standard_map : PyDict.dict string)
         (groups : PyDict.dict (list RestoreRequirements.requirement)),
    RestoreRequirements.extract_backup_data content
    = Some (standard_map, groups) ->
    (forall k : string,
       PyDict.get k groups
       = match Words.rows_of_standard k (Words.guarded_lines content) with
         | [] => None
         | rs => Some (map Words.grouped_row rs)
         end)
    /\ List.length (concat (PyDict.values groups))
       = List.length
           (filter LightRows.well_formed (Words.guarded_lines content)).
Proof.
  intros content sm groups H.
  assert (Hs : PyStr.contains "COPY public.standards_library" content = true).
  { destruct (PyStr.contains _ content) eqn:E; [reflexivity |].
    rewrite guarded_parser_reports_missing_marker in H by now left.
    discriminate. }
  assert (Hr : PyStr.contains "COPY public.requirements_library" content = true).
  { destruct (PyStr.contains "COPY public.requirements_library" content) eqn:E;
      [reflexivity |].
    rewrite guarded_parser_reports_missing_marker in H by now right.
    discriminate. }
  destruct (extract_backup_data_some content Hs Hr) as [m Hm].
  rewrite Hm in H. injection H as _ <-. split.
  - intros k. apply fold_requirement_get.
  - apply fold_requirement_total.
Qed.

(** X2 on the backup with rows referencing A, B, A. *)
Lemma guarded_parser_groups_rows_in_order_witness :
  exists standard_map groups,
    RestoreRequirements.extract_backup_data Words.two_block_backup
    = Some (standard_map, groups)
    /\ option_map (map RestoreRequirements.id) (PyDict.get "A" groups)
       = Some ["r1"; "r3"]
    /\ List.length (concat (PyDict.values groups)) = 3%nat.
Proof.
  destruct (RestoreRequirements.extract_backup_data Words.two_block_backup)
    as [[sm groups] |] eqn:E; [| vm_compute in E; discriminate].
  exists sm, groups. split; [reflexivity |].
  destruct (guarded_parser_groups_rows_in_order _ sm groups E) as [Hget Hlen].
  split.
  - rewrite Hget. vm_compute. reflexivity.
  - rewrite Hlen. vm_compute. reflexivity.
Defined.

(** ** Resolver: what a resolved identifier is *)
Section ResolverMoreFacts.
Import PyStr RestoreRequirements Resolver.

Lemma selects_exclusive (t t' : target) (name : string) :
  selects t name = true -> selects t' name = true -> t = t'.
Proof.
  unfold selects, matches_tokens.
  destruct t, t'; simpl; try reflexivity;
    destruct (contains "iso" (lower name));
    destruct (contains "27001" (lower name));
    destruct (contains "27002" (lower name));
    destruct (contains "cis" (lower name));
    destruct (contains "ig1" (lower name));
    destruct (contains "ig2" (lower name));
    destruct (contains "ig3" (lower name));
    simpl; congruence.
Qed.

Lemma last_selected_some (t : target) (m : PyDict.dict string) (id : string) :
  last_selected t m = Some id ->
  exists name, In (id, name) m /\ selects t name = true.
Proof.
  unfold last_selected.
  destruct (List.find _ (rev m)) as [[id' name] |] eqn:E; [| discriminate].
  simpl. intros [= <-]. apply find_some in E. destruct E as [Hin Hsel].
  exists name. split; [now apply in_rev | exact Hsel].
Qed.

Lemma last_selected_none (t : target) (m : PyDict.dict string) :
  last_selected t m = None <->
  forall item, In item m -> selects t (snd item) = false.
Proof.
  unfold last_selected. split.
  - destruct (List.find _ (rev m)) eqn:E; [discriminate |].
    intros _ item Hin. apply in_rev in Hin.
    exact (find_none _ _ E item Hin).
  - intros Hall.
    destruct (List.find _ (rev m)) as [item |] eqn:E; [| reflexivity].
    apply find_some in E. destruct E as [Hin Hsel].
    apply in_rev in Hin. rewrite (Hall item Hin) in Hsel. discriminate.
Qed.

Lemma keys_functional {V : Type} (m : PyDict.dict V) (k : string) (v v' : V) :
  NoDup (PyDict.keys m) -> In (k, v) m -> In (k, v') m -> v = v'.
Proof.
  unfold PyDict.keys.
  induction m as [| [k0 v0] m IH]; simpl; intros Hnd H1 H2; [easy |].
  inversion Hnd as [| ? ? Hnot Hnd']; subst.
  destruct H1 as [H1 | H1], H2 as [H2 | H2].
  - congruence.
  - injection H1 as -> ->. exfalso. apply Hnot.
    now apply (in_map fst) in H2.
  - injection H2 as -> ->. exfalso. apply Hnot.
    now apply (in_map fst) in H1.
  - now apply IH.
Qed.
End ResolverMoreFacts.

(** X3: an identifier the Standard Resolver assigns to a target is a key of
    the standards map whose name reaches that target's branch; a target is
    left unset exactly when no name does; and in a map with distinct keys
    no identifier is assigned to two different targets. *)
Theorem resolver_assigns_matching_keys :
  forall (standard_map : PyDict.dict string)
         (requirements_by_standard :
            PyDict.dict (list RestoreRequirements.requirement))
         (t : Resolver.target),
    let r :=
      RestoreRequirements.find_target_standards standard_map
        requirements_by_standard in
    (forall id : string,
       Resolver.result_of t r = Some id ->
       exists name : string,
         In (id, name) standard_map /\ Resolver.selects t name = true)
    /\ (Resolver.result_of t r = None <->
        forall item, In item standard_map ->
                     Resolver.selects t (snd item) = false)
    /\ (NoDup (PyDict.keys standard_map) ->
        forall (t' : Resolver.target) (id : string),
          Resolver.result_of t r = Some id ->
          Resolver.result_of t' r = Some id -> t = t').
Proof.
  intros m reqs t r. subst r.
  unfold RestoreRequirements.find_target_standards.
  split; [| split].
  - intros id. rewrite fold_assign_result. apply last_selected_some.
  - rewrite fold_assign_result. apply last_selected_none.
  - intros Hnd t' id. rewrite !fold_assign_result. intros H1 H2.
    apply last_selected_some in H1, H2.
    destruct H1 as (n1 & Hin1 & Hs1), H2 as (n2 & Hin2 & Hs2).
    assert (n1 = n2) by exact (keys_functional m id n1 n2 Hnd Hin1 Hin2).
    subst n2. exact (selects_exclusive t t' n1 Hs1 Hs2).
Qed.

(** X3 on the two ISO 27001 editions: the target holds [std-b], a key of
    the map, and no other target holds it. *)
Lemma resolver_assigns_matching_keys_witness :
  NoDup (PyDict.keys Resolver.two_iso27001)
  /\ Resolver.result_of Resolver.Iso27001
       (RestoreRequirements.find_target_standards Resolver.two_iso27001 [])
     = Some "std-b"
  /\ (exists name : string,
        In ("std-b", name) Resolver.two_iso27001
        /\ Resolver.selects Resolver.Iso27001 name = true)
  /\ forall t' : Resolver.target,
       Resolver.result_of t'
         (RestoreRequirements.find_target_standards Resolver.two_iso27001 [])
       = Some "std-b" ->
       Resolver.Iso27001 = t'.
Proof.
  assert (Hnd : NoDup (PyDict.keys Resolver.two_iso27001)).
  { repeat constructor; simpl; intuition discriminate. }
  assert (Hres : Resolver.result_of Resolver.Iso27001
       (RestoreRequirements.find_target_standards Resolver.two_iso27001 [])
     = Some "std-b") by reflexivity.
  destruct (resolver_assigns_matching_keys Resolver.two_iso27001 []
              Resolver.Iso27001) as (Hkey & _ & Hone).
  split; [exact Hnd |]. split; [exact Hres |].
  split; [exact (Hkey "std-b" Hres) |].
  intros t' Ht'. exact (Hone Hnd t' "std-b" Hres Ht').
Defined.

(** ** Light parser: iteration order and the row filter *)
Section LightOrderFacts.
Import PyStr ExecuteRestoration LightRows Words.

Lemma dict_keys_set {V : Type} (d : PyDict.dict V) (k : string) (v : V) :
  PyDict.keys (PyDict.set k v d)
  = if existsb (String.eqb k) (PyDict.keys d) then PyDict.keys d
    else (PyDict.keys d ++ [k])%list.
Proof.
  unfold PyDict.keys.
  induction d as [| [k' v'] d IH]; [reflexivity |].
  cbn [PyDict.set map fst existsb].
  rewrite (String.eqb_sym k k').
  destruct (String.eqb k' k); cbn [orb map fst]; [reflexivity |].
  rewrite IH. now destruct (existsb (String.eqb k) (map fst d)).
Qed.

Lemma first_occurrences_snoc (l : list string) (k : string) :
  first_occurrences (l ++ [k])
  = if existsb (String.eqb k) (first_occurrences l) then first_occurrences l
    else (first_occurrences l ++ [k])%list.
Proof. unfold first_occurrences. now rewrite fold_left_app. Qed.

Lemma first_occurrences_in (l : list string) (k : string) :
  In k (first_occurrences l) <-> In k l.
Proof.
  induction l as [| x l IH] using rev_ind; [reflexivity |].
  rewrite first_occurrences_snoc.
  destruct (existsb (String.eqb x) (first_occurrences l)) eqn:E.
  - apply existsb_exists in E. destruct E as (y & Hy & Exy).
    apply String.eqb_eq in Exy. subst y.
    rewrite in_app_iff, <- IH. split; [now left |].
    intros [H | [<- | []]]; assumption.
  - now rewrite !in_app_iff, IH.
Qed.

Lemma fold_parse_key_order (lines : list string) :
  PyDict.keys (fold_left parse_line lines [])
  = first_occurrences (map row_id (filter well_formed lines)).
Proof.
  induction lines as [| line lines IH] using rev_ind; [reflexivity |].
  rewrite fold_parse_snoc, parse_line_unfold, filter_app. cbn [filter].
  destruct (well_formed line).
  - rewrite map_app. cbn [map]. rewrite first_occurrences_snoc, <- IH.
    apply dict_keys_set.
  - now rewrite app_nil_r.
Qed.

Lemma length_split (sep : ascii) (s : string) :
  List.length (split sep s) = S (count_char sep s).
Proof.
  induction s as [| c s IH]; [reflexivity |].
  cbn [split count_char].
  destruct (Ascii.eqb c sep); cbn [List.length Nat.add].
  - now rewrite IH.
  - destruct (split sep s); simpl in *; lia.
Qed.
End LightOrderFacts.

(** X4: the mapping returned by the light parser iterates its requirement
    ids in the order in which they first appear among the accepted rows of
    the backup, which is the order of the UPDATE statements within a
    standard. *)
Theorem light_parser_keeps_first_occurrence_order :
  forall content : string,
    PyDict.keys (ExecuteRestoration.extract_requirements_from_backup content)
    = Words.first_occurrences
        (map LightRows.row_id (LightRows.rows content)).
Proof.
  intros content. apply fold_parse_key_order.
Qed.

(** X5: the row filters count tab characters.  Given a line, the loop body
    of the light parser stores it exactly when it holds at least 4 tabs;
    the loop body of the INSERT generator leaves its collections untouched
    on a line of fewer than 17 tabs, that of the guarded parser its
    standards on a line of fewer than 2 tabs and its requirements on a line
    of fewer than 4.  For the light parser as a whole, the lines that reach
    the loop body are the non-blank lines of the stripped requirements
    section, and the ids it returns are exactly the first fields of those
    among them that hold at least 4 tabs; a line that holds tabs only is
    blank and is never stored. *)
Theorem row_filters_count_tabs :
  forall line : string,
    (forall d,
       ExecuteRestoration.parse_line d line
       = if (4 <=? PyStr.count_char PyStr.TAB line)%nat
         then PyDict.set (LightRows.row_id line) (LightRows.row_data line) d
         else d)
    /\ (forall acc,
          (PyStr.count_char PyStr.TAB line < 17)%nat ->
          CreateInsertStatements.parse_line acc line = acc)
    /\ (forall m,
          (PyStr.count_char PyStr.TAB line < 2)%nat ->
          RestoreRequirements.parse_standard m line = m)
    /\ (forall groups,
          (PyStr.count_char PyStr.TAB line < 4)%nat ->
          RestoreRequirements.parse_requirement groups line = groups)
    /\ (forall content : string,
          In line (ExecuteRestoration.requirement_lines content) ->
          PyStr.nonempty (PyStr.strip line) = true)
    /\ (forall content k : string,
          In k
            (PyDict.keys
               (ExecuteRestoration.extract_requirements_from_backup content))
          <-> exists row : string,
                In row (ExecuteRestoration.requirement_lines content)
                /\ (4 <= PyStr.count_char PyStr.TAB row)%nat
                /\ LightRows.row_id row = k).
Proof.
  intros line.
  pose proof (length_split PyStr.TAB line) as Hlen.
  split; [| split; [| split; [| split; [| split]]]].
  5:{ intros content Hin.
      unfold ExecuteRestoration.requirement_lines in Hin.
      apply filter_In in Hin. exact (proj2 Hin). }
  5:{ intros content k.
      unfold ExecuteRestoration.extract_requirements_from_backup.
      rewrite fold_parse_key_order, first_occurrences_in, in_map_iff.
      split.
      - intros (row & Hid & Hin). apply filter_In in Hin.
        destruct Hin as [Hin Hwf]. exists row.
        split; [exact Hin |]. split; [| exact Hid].
        unfold LightRows.well_formed in Hwf.
        rewrite length_split in Hwf. apply Nat.leb_le in Hwf. lia.
      - intros (row & Hin & Htabs & Hid). exists row.
        split; [exact Hid |]. apply filter_In. split; [exact Hin |].
        unfold LightRows.well_formed. rewrite length_split.
        apply Nat.leb_le. lia. }
  - intros d. rewrite parse_line_unfold. unfold LightRows.well_formed.
    rewrite Hlen. reflexivity.
  - intros acc Hlt. unfold CreateInsertStatements.parse_line.
    rewrite Hlen.
    destruct (Nat.leb_spec 18 (S (PyStr.count_char PyStr.TAB line)));
      [lia | reflexivity].
  - intros m Hlt. unfold RestoreRequirements.parse_standard.
    destruct (PyStr.nonempty (PyStr.strip line)); [| reflexivity].
    rewrite Hlen.
    destruct (Nat.leb_spec 3 (S (PyStr.count_char PyStr.TAB line)));
      [lia | reflexivity].
  - intros groups Hlt. unfold RestoreRequirements.parse_requirement.
    rewrite Hlen.
    destruct (Nat.leb_spec 5 (S (PyStr.count_char PyStr.TAB line)));
      [lia | reflexivity].
Qed.

(** X5 on a line of three fields, and on the backup whose second line holds
    four tabs and nothing else: the line is not stored, the ids of the two
    other rows are. *)
Lemma row_filters_count_tabs_witness :
  (PyStr.count_char PyStr.TAB (PyStr.join PyStr.tab ["a"; "b"; "c"]) < 4)%nat
  /\ ExecuteRestoration.parse_line [] (PyStr.join PyStr.tab ["a"; "b"; "c"])
     = []
  /\ CreateInsertStatements.parse_line ([], [])
       (PyStr.join PyStr.tab ["a"; "b"; "c"]) = ([], [])
  /\ RestoreRequirements.parse_standard [] "a" = []
  /\ RestoreRequirements.parse_requirement []
       (PyStr.join PyStr.tab ["a"; "b"; "c"]) = []
  /\ PyStr.count_char PyStr.TAB (PyStr.join PyStr.tab [""; ""; ""; ""; ""])
     = 4%nat
  /\ PyDict.keys
       (ExecuteRestoration.extract_requirements_from_backup
          LightRows.blank_row_backup)
     = ["r1"; "r2"]
  /\ In "r2"
       (PyDict.keys
          (ExecuteRestoration.extract_requirements_from_backup
             LightRows.blank_row_backup))
  /\ PyStr.nonempty
       (PyStr.strip
          (PyStr.join PyStr.tab ["r2"; "s1"; "4.2"; "Title 2"; "Text 2"]))
     = true
  /\ ~ In ""
        (PyDict.keys
           (ExecuteRestoration.extract_requirements_from_backup
              LightRows.blank_row_backup)).
Proof.
  assert (H : (PyStr.count_char PyStr.TAB
                 (PyStr.join PyStr.tab ["a"; "b"; "c"]) < 4)%nat)
    by (vm_compute; lia).
  destruct (row_filters_count_tabs (PyStr.join PyStr.tab ["a"; "b"; "c"]))
    as (H1 & H2 & _ & H4 & _).
  split; [exact H |]. split; [rewrite H1; reflexivity |].
  split; [apply H2; vm_compute; lia |].
  split.
  { apply (proj1 (proj2 (proj2 (row_filters_count_tabs "a")))).
    vm_compute. lia. }
  split; [apply H4; exact H |].
  split; [vm_compute; reflexivity |].
  split; [vm_compute; reflexivity |].
  split; [| split].
  - destruct (row_filters_count_tabs "r2") as (_ & _ & _ & _ & _ & Hkeys).
    apply (Hkeys LightRows.blank_row_backup "r2").
    exists (PyStr.join PyStr.tab ["r2"; "s1"; "4.2"; "Title 2"; "Text 2"]).
    split; [vm_compute; tauto |].
    split; [vm_compute; lia | vm_compute; reflexivity].
  - destruct (row_filters_count_tabs
                (PyStr.join PyStr.tab ["r2"; "s1"; "4.2"; "Title 2"; "Text 2"]))
      as (_ & _ & _ & _ & Hnonblank & _).
    apply (Hnonblank LightRows.blank_row_backup).
    vm_compute. tauto.
  - intros Hin.
    assert (E : PyDict.keys
                  (ExecuteRestoration.extract_requirements_from_backup
                     LightRows.blank_row_backup) = ["r1"; "r2"])
      by (vm_compute; reflexivity).
    rewrite E in Hin. destruct Hin as [Hin | [Hin | []]]; discriminate.
Defined.

(** ** Restoration generator: one statement per target requirement *)
Section GeneratorFacts.
Import PyStr ExecuteRestoration Words.

Lemma update_count_app (a b : list string) :
  update_count (a ++ b) = (update_count a + update_count b)%nat.
Proof. unfold update_count. now rewrite filter_app, length_app. Qed.

Lemma update_last_app (f : string -> string) (a b : list string) :
  b <> [] -> update_last f (a ++ b) = (a ++ update_last f b)%list.
Proof.
  intros Hb. induction a as [| x a IH]; [reflexivity |].
  cbn [app update_last]. rewrite IH.
  destruct (a ++ b)%list eqn:E; [| reflexivity].
  destruct a, b; simpl in E; congruence.
Qed.

Lemma update_count_update_lines (item : string * req_data) :
  update_count (update_lines item) = 1%nat.
Proof.
  destruct item as [req_id d]. unfold update_lines.
  generalize (escape_quotes (title d)) (escape_quotes (description d)).
  intros t ds. generalize (take 60 t). intros preview.
  reflexivity.
Qed.

Lemma update_count_statements (rs : list (string * req_data)) :
  update_count (flat_map update_lines rs) = List.length rs.
Proof.
  induction rs as [| r rs IH]; [reflexivity |].
  cbn [flat_map List.length].
  now rewrite update_count_app, update_count_update_lines, IH.
Qed.

Lemma update_count_standard_lines (targets : PyDict.dict req_data)
    (std : string * string) :
  update_count (standard_lines targets std)
  = List.length
      (filter (fun item => String.eqb (standard_id (snd item)) (snd std))
         targets).
Proof.
  destruct std as [std_name std_id]. unfold standard_lines. cbn [snd].
  destruct (filter _ targets) as [| r rs] eqn:E; [reflexivity |].
  change (update_count
            (("-- " ++ upper std_name ++ " Requirements ("
              ++ str_of_nat (List.length (r :: rs)) ++ " total)")
             :: "" :: flat_map update_lines (r :: rs))
          = List.length (r :: rs)).
  rewrite <- (update_count_statements (r :: rs)).
  reflexivity.
Qed.

Lemma five_way_partition (targets : PyDict.dict req_data) :
  Forall
    (fun item =>
       existsb (String.eqb (standard_id (snd item)))
         (PyDict.values target_standards) = true) targets ->
  update_count (flat_map (standard_lines targets) target_standards)
  = List.length targets.
Proof.
  intros Hall. unfold target_standards. cbn [flat_map].
  rewrite !update_count_app, !update_count_standard_lines. cbn [snd].
  change (update_count []) with O.
  induction Hall as [| item targets Hitem Hall IH]; [reflexivity |].
  cbn [filter List.length].
  unfold target_standards, PyDict.values in Hitem. cbn [map snd existsb] in Hitem.
  destruct (String.eqb_spec (standard_id (snd item))
              "55742f4e-769b-4efe-912c-1371de5e1cd6");
    destruct (String.eqb_spec (standard_id (snd item))
                "8508cfb0-3457-4226-b39a-851be52ef7ea");
    destruct (String.eqb_spec (standard_id (snd item))
                "afe9728d-2084-4b6b-8653-b04e1e92cdff");
    destruct (String.eqb_spec (standard_id (snd item))
                "05501cbc-c463-4668-ae84-9acb1a4d5332");
    destruct (String.eqb_spec (standard_id (snd item))
                "b1d9e82f-b0c3-40e2-89d7-4c51e216214e");
    try congruence; cbn [List.length]; lia.
Qed.

Lemma target_requirements_in_targets (d : PyDict.dict req_data) :
  Forall
    (fun item =>
       existsb (String.eqb (standard_id (snd item)))
         (PyDict.values target_standards) = true)
    (target_requirements d).
Proof.
  apply Forall_forall. intros item Hin.
  unfold target_requirements in Hin. apply filter_In in Hin. tauto.
Qed.

Lemma sql_statements_shape (content : string) :
  sql_statements content
  = (header_lines
     ++ flat_map
          (standard_lines
             (target_requirements (extract_requirements_from_backup content)))
          target_standards
     ++ skipn 4 (sql_statements ""))%list.
Proof.
  unfold sql_statements at 1. cbv zeta.
  set (ids := map _ (PyDict.values target_standards)).
  rewrite !app_assoc.
  rewrite update_last_app
    by (intros H; subst ids; vm_compute in H; discriminate).
  rewrite <- !app_assoc.
  do 2 (apply (f_equal2 (@app string)); [reflexivity |]).
  subst ids. vm_compute. reflexivity.
Qed.

Lemma in_standard_lines (targets : PyDict.dict req_data)
    (item : string * req_data) (line : string) :
  In item targets ->
  existsb (String.eqb (standard_id (snd item)))
    (PyDict.values target_standards) = true ->
  In line (update_lines item) ->
  In line (flat_map (standard_lines targets) target_standards).
Proof.
  intros Hin Hex Hline.
  apply existsb_exists in Hex. destruct Hex as (std_id & Hid & Heq).
  apply String.eqb_eq in Heq.
  unfold PyDict.values in Hid. apply in_map_iff in Hid.
  destruct Hid as ([std_name std_id'] & Hsnd & Hstd). simpl in Hsnd. subst std_id'.
  apply in_flat_map. exists (std_name, std_id). split; [exact Hstd |].
  unfold standard_lines.
  assert (Hf : In item
                 (filter (fun it => String.eqb (standard_id (snd it)) std_id)
                    targets)).
  { apply filter_In. split; [exact Hin |]. now apply String.eqb_eq. }
  destruct (filter _ targets) as [| r rs]; [contradiction |].
  right. right. apply in_flat_map. now exists item.
Qed.
End GeneratorFacts.

(** X6: the restoration generator emits exactly one UPDATE statement per
    backup requirement whose standard is one of the five targets, and none
    for any other requirement: the script holds as many UPDATE lines as
    there are target requirements, the WHERE line of every target
    requirement is among its lines, and around the statements it is the
    fixed text generated for an empty backup. *)
Theorem generator_one_update_per_target :
  forall content : string,
    let targets :=
      ExecuteRestoration.target_requirements
        (ExecuteRestoration.extract_requirements_from_backup content) in
    Words.update_count (ExecuteRestoration.sql_statements content)
    = List.length targets
    /\ (forall (req_id : string) (d : ExecuteRestoration.req_data),
          In (req_id, d) targets ->
          In ("WHERE id = '" ++ req_id ++ "';")
            (ExecuteRestoration.sql_statements content))
    /\ (targets = [] ->
        ExecuteRestoration.sql_statements content
        = ExecuteRestoration.sql_statements "").
Proof.
  intros content targets.
  pose proof (target_requirements_in_targets
                (ExecuteRestoration.extract_requirements_from_backup content))
    as Hall.
  fold targets in Hall.
  rewrite sql_statements_shape. fold targets.
  split; [| split].
  - rewrite !update_count_app, (five_way_partition targets Hall).
    assert (H0 : Words.update_count ExecuteRestoration.header_lines = O)
      by reflexivity.
    assert (H1 : Words.update_count
                   (skipn 4 (ExecuteRestoration.sql_statements "")) = O)
      by (vm_compute; reflexivity).
    rewrite H0, H1. lia.
  - intros req_id d Hin.
    apply in_or_app. right. apply in_or_app. left.
    rewrite Forall_forall in Hall.
    apply (in_standard_lines targets (req_id, d)); [exact Hin | now apply Hall |].
    unfold ExecuteRestoration.update_lines. simpl. tauto.
  - intros Hnil. rewrite Hnil. vm_compute. reflexivity.
Qed.

(** X6 on a backup with one target row, and on one with none. *)
Lemma generator_one_update_per_target_witness :
  Words.update_count (ExecuteRestoration.sql_statements Fixtures.one_row_backup)
  = 1%nat
  /\ In "WHERE id = 'r1';"
       (ExecuteRestoration.sql_statements Fixtures.one_row_backup)
  /\ ExecuteRestoration.sql_statements LightRows.duplicate_id_backup
     = ExecuteRestoration.sql_statements "".
Proof.
  destruct (generator_one_update_per_target Fixtures.one_row_backup)
    as (Hcount & Hwhere & _).
  destruct (generator_one_update_per_target LightRows.duplicate_id_backup)
    as (_ & _ & Hnone).
  split; [rewrite Hcount; vm_compute; reflexivity |].
  split.
  - apply (Hwhere "r1"
             (ExecuteRestoration.mk_req_data
                "55742f4e-769b-4efe-912c-1371de5e1cd6" "4.1" "Title"
                "Description")).
    vm_compute. now left.
  - apply Hnone. vm_compute. reflexivity.
Defined.

(** ** INSERT generator: one entry per qualifying line *)
Section InsertRowsFacts.
Import PyStr CreateInsertStatements Words.

Lemma parse_line_insert (acc : inserts) (line : string) :
  parse_line acc line
  = ((fst acc
      ++ map insert_entry
           (filter
              (fun l => (18 <=? List.length (split TAB l))%nat
                        && String.eqb (nth 1 (split TAB l) "") iso27001_id)
              [line]))%list,
     (snd acc
      ++ map insert_entry
           (filter
              (fun l => (18 <=? List.length (split TAB l))%nat
                        && String.eqb (nth 1 (split TAB l) "") iso27002_id)
              [line]))%list).
Proof.
  unfold parse_line. cbn [filter].
  destruct (18 <=? List.length (split TAB line))%nat; cbn [andb].
  - destruct (String.eqb_spec (nth 1 (split TAB line) "") iso27001_id) as [E | E].
    + rewrite E. change (String.eqb iso27001_id iso27002_id) with false.
      cbn [map]. rewrite app_nil_r. reflexivity.
    + destruct (String.eqb (nth 1 (split TAB line) "") iso27002_id);
        cbn [map]; rewrite ?app_nil_r; [reflexivity | now destruct acc].
  - cbn [map]. rewrite !app_nil_r. now destruct acc.
Qed.

Lemma fold_parse_line_insert (lines : list string) (acc : inserts) :
  fold_left parse_line lines acc
  = ((fst acc
      ++ map insert_entry
           (filter
              (fun l => (18 <=? List.length (split TAB l))%nat
                        && String.eqb (nth 1 (split TAB l) "") iso27001_id)
              lines))%list,
     (snd acc
      ++ map insert_entry
           (filter
              (fun l => (18 <=? List.length (split TAB l))%nat
                        && String.eqb (nth 1 (split TAB l) "") iso27002_id)
              lines))%list).
Proof.
  revert acc. induction lines as [| line lines IH]; intros acc.
  - cbn [fold_left filter map]. rewrite !app_nil_r. now destruct acc.
  - cbn [fold_left]. rewrite IH, parse_line_insert. cbn [fst snd].
    rewrite <- !app_assoc, <- !map_app.
    change (line :: lines) with ([line] ++ lines)%list.
    now rewrite !filter_app.
Qed.
End InsertRowsFacts.

(** X7: the INSERT generator appends one entry per non-blank line of the
    stripped requirements section that has at least 18 fields and the
    standard's id, in the order of the lines and without merging rows that
    share an id.  The file [iso27001_inserts.sql] is its header followed by
    the entries of all these lines for ISO 27001, sorted by control id; it
    holds the 9 newline characters of a statement template once per such
    line.  The sample file is its header followed by the first 20 sorted
    entries for ISO 27002, or all of them when there are fewer, with 9
    newline characters for each; when at most 20 lines match, the sample is
    the whole sorted list. *)
Theorem insert_generator_one_entry_per_line :
  forall content : string,
    let rows27001 :=
      Words.insert_rows CreateInsertStatements.iso27001_id content in
    let rows27002 :=
      Words.insert_rows CreateInsertStatements.iso27002_id content in
    let full_text :=
      CreateInsertStatements.iso27001_header
      ++ String.concat ""
           (map (fun e => "-- Insert " ++ fst e ++ "\n" ++ snd e ++ "\n\n")
              (PyStr.sorted_by_key (map Words.insert_entry rows27001))) in
    let sample_text :=
      CreateInsertStatements.iso27002_header
      ++ String.concat ""
           (map (fun e => "-- Insert " ++ fst e ++ "\n" ++ snd e ++ "\n\n")
              (firstn 20
                 (PyStr.sorted_by_key (map Words.insert_entry rows27002)))) in
    CreateInsertStatements.extract_requirements_for_insert content
    = (map Words.insert_entry rows27001, map Words.insert_entry rows27002)
    /\ List.length (CreateInsertStatements.iso27001_written content)
       = List.length rows27001
    /\ List.length (CreateInsertStatements.iso27002_written content)
       = Nat.min 20 (List.length rows27002)
    /\ ((List.length rows27002 <= 20)%nat ->
        CreateInsertStatements.iso27002_written content
        = PyStr.sorted_by_key
            (snd (CreateInsertStatements.extract_requirements_for_insert
                    content)))
    /\ CreateInsertStatements.main content
       = [ ("iso27001_inserts.sql", full_text);
           ("iso27002_inserts_sample.sql", sample_text) ]
    /\ PyStr.count_char PyStr.LF full_text
       = (9 * List.length rows27001)%nat
    /\ PyStr.count_char PyStr.LF sample_text
       = (9 * Nat.min 20 (List.length rows27002))%nat.
Proof.
  intros content rows27001 rows27002 full_text sample_text.
  assert (He : CreateInsertStatements.extract_requirements_for_insert content
    = (map Words.insert_entry rows27001, map Words.insert_entry rows27002)).
  { unfold CreateInsertStatements.extract_requirements_for_insert.
    rewrite fold_parse_line_insert. reflexivity. }
  assert (Hw1 : CreateInsertStatements.iso27001_written content
                = PyStr.sorted_by_key (map Words.insert_entry rows27001)).
  { unfold CreateInsertStatements.iso27001_written. now rewrite He. }
  assert (Hw2 : CreateInsertStatements.iso27002_written content
                = firstn 20
                    (PyStr.sorted_by_key (map Words.insert_entry rows27002))).
  { unfold CreateInsertStatements.iso27002_written. now rewrite He. }
  assert (Hl1 : List.length (CreateInsertStatements.iso27001_written content)
                = List.length rows27001)
    by now rewrite Hw1, sorted_by_key_length, length_map.
  assert (Hl2 : List.length (CreateInsertStatements.iso27002_written content)
                = Nat.min 20 (List.length rows27002))
    by now rewrite Hw2, length_firstn, sorted_by_key_length, length_map.
  destruct (written_template content) as [Ht1 Ht2].
  split; [exact He |]. split; [exact Hl1 |]. split; [exact Hl2 |].
  split.
  { intros Hle. rewrite Hw2, He. cbn [snd]. apply firstn_all2.
    now rewrite sorted_by_key_length, length_map. }
  split.
  { unfold CreateInsertStatements.main. rewrite Hw1, Hw2. reflexivity. }
  split.
  - rewrite <- Hl1.
    rewrite <- (file_text_newlines CreateInsertStatements.iso27001_header
                  (CreateInsertStatements.iso27001_written content)
                  eq_refl Ht1).
    rewrite Hw1. reflexivity.
  - rewrite <- Hl2.
    rewrite <- (file_text_newlines CreateInsertStatements.iso27002_header
                  (CreateInsertStatements.iso27002_written content)
                  eq_refl Ht2).
    rewrite Hw2. reflexivity.
Qed.

(** X7 on the backup with three rows per standard: each file holds three
    statements, 27 newline characters. *)
Lemma insert_generator_one_entry_per_line_witness :
  (List.length
     (Words.insert_rows CreateInsertStatements.iso27002_id
        InsertFixtures.three_rows_backup) <= 20)%nat
  /\ CreateInsertStatements.iso27002_written InsertFixtures.three_rows_backup
     = PyStr.sorted_by_key
         (snd (CreateInsertStatements.extract_requirements_for_insert
                 InsertFixtures.three_rows_backup))
  /\ map (fun file => PyStr.count_char PyStr.LF (snd file))
       (CreateInsertStatements.main InsertFixtures.three_rows_backup)
     = [27%nat; 27%nat].
Proof.
  assert (H : (List.length
     (Words.insert_rows CreateInsertStatements.iso27002_id
        InsertFixtures.three_rows_backup) <= 20)%nat) by (vm_compute; lia).
  destruct (insert_generator_one_entry_per_line
              InsertFixtures.three_rows_backup)
    as (_ & _ & _ & Hall & Hmain & Hc1 & Hc2).
  split; [exact H |]. split; [exact (Hall H) |].
  rewrite Hmain. cbn [map snd]. rewrite Hc1, Hc2.
  vm_compute. reflexivity.
Defined.

(** ** Batcher: what an extracted statement is *)
Section MatchFacts.
Import PyStr ExecuteSqlChunks Words.

Lemma drop_nil (n : nat) : drop n "" = "".
Proof. now destruct n. Qed.

Lemma take_drop (n : nat) (s : string) : take n s ++ drop n s = s.
Proof.
  revert s. induction n as [| n IH]; intros [| c s]; simpl; try reflexivity.
  now rewrite IH.
Qed.

Lemma drop_drop (a b : nat) (s : string) :
  drop a (drop b s) = drop (b + a) s.
Proof.
  revert s. induction b as [| b IH]; intros s; [reflexivity |].
  destruct s as [| c s]; cbn [drop Nat.add].
  - now rewrite drop_nil.
  - apply IH.
Qed.

Lemma length_take (n : nat) (s : string) :
  String.length (take n s) = Nat.min n (String.length s).
Proof.
  revert s. induction n as [| n IH]; intros [| c s]; simpl; auto.
Qed.

Lemma drop_take (i n : nat) (s : string) :
  drop i (take (i + n) s) = take n (drop i s).
Proof.
  revert s. induction i as [| i IH]; intros s; [reflexivity |].
  destruct s as [| c s]; cbn [Nat.add take drop].
  - now destruct n.
  - apply IH.
Qed.

Lemma prefix_take_same (a s : string) :
  String.prefix a s = true -> take (String.length a) s = a.
Proof.
  revert s. induction a as [| x a IH]; intros [| y s]; simpl;
    try reflexivity; try discriminate.
  destruct (ascii_dec x y) as [-> |]; [| discriminate].
  intros H. now rewrite IH.
Qed.

Lemma prefix_take (a s : string) (m : nat) :
  String.prefix a s = true -> (String.length a <= m)%nat ->
  String.prefix a (take m s) = true.
Proof.
  revert s m. induction a as [| x a IH]; intros s m.
  - intros _ _. now destruct (take m s).
  - destruct s as [| y s]; [discriminate |].
    destruct m as [| m]; [simpl; lia |].
    cbn [String.prefix take String.length].
    destruct (ascii_dec x y); [| discriminate].
    intros H Hl. apply IH; [exact H | lia].
Qed.

Lemma find_nat_prefix (sub s : string) (p : nat) :
  find_nat sub s = Some p -> String.prefix sub (drop p s) = true.
Proof.
  revert p. induction s as [| c s IH]; intros p; cbn [find_nat].
  - destruct (String.prefix sub "") eqn:E; [| discriminate].
    now intros [= <-].
  - destruct (String.prefix sub (String c s)) eqn:E.
    + now intros [= <-].
    + destruct (find_nat sub s) as [k |]; [| discriminate].
      cbn [option_map]. intros [= <-]. cbn [drop]. now apply IH.
Qed.

Lemma find_where_match (s : string) (j n : nat) :
  find_where s = Some (j, n) -> match_where (drop j s) = Some n.
Proof.
  revert j. induction s as [| c s IH]; intros j; cbn [find_where].
  - destruct (match_where "") eqn:E; [| discriminate].
    now intros [= <- <-].
  - destruct (match_where (String c s)) eqn:E.
    + now intros [= <- <-].
    + destruct (find_where s) as [[j' n'] |]; [| discriminate].
      intros [= <- <-]. cbn [drop]. now apply IH.
Qed.

Lemma match_where_end (s : string) (n : nat) :
  match_where s = Some n ->
  exists k, n = (12 + k + 2)%nat
            /\ String.prefix "';" (drop (12 + k) s) = true.
Proof.
  unfold match_where.
  destruct (String.prefix "WHERE id = '" s); [| discriminate].
  destruct (1 <=? span_nonquote (drop 12 s))%nat; [| discriminate].
  destruct (String.prefix "';" (drop (span_nonquote (drop 12 s)) (drop 12 s)))
    eqn:E; [| discriminate].
  cbn [andb]. intros [= <-]. exists (span_nonquote (drop 12 s)).
  split; [reflexivity |]. now rewrite drop_drop in E.
Qed.

Lemma endswith_take (a t : string) (i : nat) :
  a <> "" -> String.prefix a (drop i t) = true ->
  endswith a (take (i + String.length a) t) = true.
Proof.
  intros Ha Hp. unfold endswith.
  pose proof (prefix_length _ _ Hp) as Hl. rewrite length_drop in Hl.
  assert (Hpos : (1 <= String.length a)%nat)
    by (destruct a; [congruence | simpl; lia]).
  rewrite length_take.
  replace (Nat.min (i + String.length a) (String.length t))
    with (i + String.length a)%nat by lia.
  replace (i + String.length a - String.length a)%nat with i by lia.
  rewrite drop_take, (prefix_take_same _ _ Hp), String.eqb_refl.
  destruct (Nat.leb_spec (String.length a) (i + String.length a)); [reflexivity | lia].
Qed.

Lemma first_match_shape (s : string) (p m : nat) :
  first_match s = Some (p, m) ->
  startswith "-- Update" (take m (drop p s)) = true
  /\ endswith "';" (take m (drop p s)) = true
  /\ (23 <= String.length (take m (drop p s)))%nat.
Proof.
  intros H. pose proof (first_match_bounds s p m H) as [_ Hb].
  unfold first_match in H.
  destruct (find_nat "-- Update" s) as [p' |] eqn:Ef; [| discriminate].
  destruct (find_where (drop (p' + 9) s)) as [[j n] |] eqn:Ew; [| discriminate].
  injection H as -> <-.
  pose proof (find_where_bounds _ _ _ Ew) as [Hn _].
  apply find_where_match in Ew. apply match_where_end in Ew.
  destruct Ew as (k & -> & Hend). rewrite !drop_drop in Hend.
  split; [| split].
  - apply prefix_take; [now apply find_nat_prefix | simpl; lia].
  - match goal with
    | |- endswith _ (take ?n _) = true =>
        replace n with ((9 + j + 12 + k) + String.length "';")%nat
          by (simpl; lia)
    end.
    apply endswith_take; [discriminate |].
    rewrite drop_drop.
    match goal with
    | H : String.prefix _ (drop ?a s) = true |- String.prefix _ (drop ?b s) = true =>
        replace b with a by lia; exact H
    end.
  - rewrite length_take, length_drop. lia.
Qed.

Lemma findall_fuel_weave (fuel : nat) (s : string) :
  exists gaps rest,
    List.length gaps = List.length (findall_fuel fuel s)
    /\ s = weave gaps (findall_fuel fuel s) rest
    /\ Forall
         (fun m => startswith "-- Update" m = true
                   /\ endswith "';" m = true
                   /\ (23 <= String.length m)%nat)
         (findall_fuel fuel s).
Proof.
  revert s. induction fuel as [| fuel IH]; intros s.
  - exists [], s. repeat split. constructor.
  - cbn [findall_fuel].
    destruct (first_match s) as [[p m] |] eqn:E.
    + destruct (IH (drop (p + m) s)) as (gaps & rest & Hlen & Hs & Hall).
      exists (take p s :: gaps), rest. split; [simpl; now rewrite Hlen |].
      split.
      * cbn [weave]. rewrite <- Hs, <- drop_drop.
        now rewrite take_drop, take_drop.
      * constructor; [now apply first_match_shape | exact Hall].
    + exists [], s. repeat split. constructor.
Qed.
End MatchFacts.

(** X8: the statements the Batcher extracts are pieces of the script, taken
    left to right without overlap: the script is the extracted statements
    woven with the texts between them.  Each statement begins with the
    marker [-- Update], ends with a quote and a semicolon, and is at least
    23 characters long. *)
Theorem batcher_statements_are_script_pieces :
  forall sql_content : string,
    exists (gaps : list string) (rest : string),
      List.length gaps
      = List.length (ExecuteSqlChunks.findall_updates sql_content)
      /\ sql_content
         = Words.weave gaps (ExecuteSqlChunks.findall_updates sql_content)
             rest
      /\ Forall
           (fun m => PyStr.startswith "-- Update" m = true
                     /\ PyStr.endswith "';" m = true
                     /\ (23 <= String.length m)%nat)
           (ExecuteSqlChunks.findall_updates sql_content).
Proof.
  intros sql_content. apply findall_fuel_weave.
Qed.


(** X9: the Batcher's file names are pairwise distinct for any number of
    chunks, so no chunk overwrites another in one run, and the name the
    chunk runner computes for number [k+1] is the name of the chunk written
    at position [k]: looking it up in the directory written by the Batcher
    returns that chunk. *)
Theorem chunk_names_distinct_and_shared :
  forall chunks : list string,
    NoDup (PyDict.keys (ExecuteSqlChunks.write_chunks chunks))
    /\ List.length (ExecuteSqlChunks.write_chunks chunks)
       = List.length chunks
    /\ (forall i j : nat,
          CompleteRestoration.chunk_file i = CompleteRestoration.chunk_file j
          -> i = j)
    /\ (forall (k : nat) (chunk : string),
          nth_error chunks k = Some chunk ->
          PyDict.get (CompleteRestoration.chunk_file (k + 1))
            (Words.chunk_directory chunks)
          = Some chunk).
Proof.
  intros chunks. split; [apply write_chunks_nodup |].
  split.
  - rewrite <- (length_map fst).
    change (map fst (ExecuteSqlChunks.write_chunks chunks))
      with (PyDict.keys (ExecuteSqlChunks.write_chunks chunks)).
    now rewrite write_chunks_keys, length_map, length_seq.
  - split.
    + intros i j H. unfold CompleteRestoration.chunk_file in H.
      simpl in H. injection H as H. apply append_inv_tail in H.
      now apply format_02d_injective.
    + intros k chunk Hk. unfold Words.chunk_directory.
      apply dict_get_in; [apply write_chunks_nodup |].
      apply (nth_error_In _ k).
      unfold ExecuteSqlChunks.write_chunks, ExecuteSqlChunks.enumerate.
      now rewrite (write_chunks_from 0 chunks k chunk Hk).
Qed.

(** X9 on two chunks. *)
Lemma chunk_names_distinct_and_shared_witness :
  nth_error ["first"; "second"] 1 = Some "second"
  /\ PyDict.get (CompleteRestoration.chunk_file 2)
       (Words.chunk_directory ["first"; "second"])
     = Some "second".
Proof.
  assert (H : nth_error ["first"; "second"] 1 = Some "second") by reflexivity.
  split; [exact H |].
  exact (proj2 (proj2 (proj2
    (chunk_names_distinct_and_shared ["first"; "second"]))) 1%nat "second" H).
Defined.

(** ** Aggregator: the order in which chunk files are read *)
Section ChunkOrderFacts.
Import PyStr Words InsertFixtures.

Lemma ascending_sound (l : list string) :
  ascending l = true -> StronglySorted lex_le l.
Proof.
  intros H. apply Sorted_StronglySorted.
  - intros a b c. apply lex_le_trans.
  - induction l as [| a l IH]; [constructor |].
    destruct l as [| b l]; [repeat constructor |].
    cbn [ascending] in H. apply andb_prop in H. destruct H as [Hab Hl].
    constructor; [now apply IH | now constructor].
Qed.

Lemma strongly_sorted_prefix {A : Type} (R : A -> A -> Prop) (a b : list A) :
  StronglySorted R (a ++ b) -> StronglySorted R a.
Proof.
  induction a as [| x a IH]; [constructor |].
  cbn [app]. intros H. apply StronglySorted_inv in H. destruct H as [Hs Hall].
  constructor; [now apply IH |].
  apply Forall_app in Hall. tauto.
Qed.

Lemma sorted_by_key_of_sorted {V : Type} (l : list (string * V)) :
  StronglySorted lex_le (map fst l) -> sorted_by_key l = l.
Proof.
  induction l as [| x l IH]; [reflexivity |].
  cbn [map]. intros H. apply StronglySorted_inv in H. destruct H as [Hs Hall].
  cbn [sorted_by_key fold_right]. fold (sorted_by_key l). rewrite (IH Hs).
  destruct l as [| y l]; [reflexivity |].
  cbn [insert_by_key]. inversion Hall as [| ? ? Hxy _]; subst.
  unfold lex_le in Hxy. now rewrite Hxy.
Qed.

Lemma chunk_names_ascend (n : nat) :
  (n <= 99)%nat ->
  StronglySorted lex_le (map ExecuteSqlChunks.chunk_file (seq 0 n)).
Proof.
  intros Hn.
  assert (H99 : StronglySorted lex_le
                  (map ExecuteSqlChunks.chunk_file (seq 0 99)))
    by (apply ascending_sound; vm_compute; reflexivity).
  replace 99%nat with (n + (99 - n))%nat in H99 by lia.
  rewrite seq_app, map_app in H99.
  now apply strongly_sorted_prefix in H99.
Qed.

Lemma chunk_names_match_glob (n : nat) :
  (n <= 99)%nat ->
  forallb BulkRestoreAll.glob_match
    (map ExecuteSqlChunks.chunk_file (seq 0 n)) = true.
Proof.
  intros Hn.
  assert (H99 : forallb BulkRestoreAll.glob_match
                  (map ExecuteSqlChunks.chunk_file (seq 0 99)) = true)
    by (vm_compute; reflexivity).
  replace 99%nat with (n + (99 - n))%nat in H99 by lia.
  rewrite seq_app, map_app, forallb_app in H99.
  apply andb_prop in H99. tauto.
Qed.

Lemma write_chunks_contents (chunks : list string) :
  map snd (ExecuteSqlChunks.write_chunks chunks) = chunks.
Proof.
  unfold ExecuteSqlChunks.write_chunks, ExecuteSqlChunks.enumerate.
  rewrite map_map. cbn [snd].
  generalize 0%nat. induction chunks as [| c chunks IH]; intros start;
    [reflexivity |].
  cbn [List.length seq combine map snd]. now rewrite IH.
Qed.
End ChunkOrderFacts.

(** X10: run over a directory that holds the Batcher's chunk files, at most
    99 of them, the Aggregator reads them in the order written, so it
    processes the chunk contents in their original order.  With 100 chunks
    the file [sql_chunk_100.sql] is read right after [sql_chunk_10.sql],
    before [sql_chunk_11.sql]. *)
Theorem aggregator_reads_chunks_in_written_order :
  (forall chunks : list string,
     (List.length chunks <= 99)%nat ->
     BulkRestoreAll.chunk_files (Words.chunk_directory chunks)
     = ExecuteSqlChunks.write_chunks chunks
     /\ BulkRestoreAll.all_sql (Words.chunk_directory chunks)
        = fold_left BulkRestoreAll.process_file chunks BulkRestoreAll.header)
  /\ firstn 3
       (skipn 9
          (BulkRestoreAll.chunk_files
             (Words.chunk_directory Words.hundred_chunks)))
     = [ ("sql_chunk_10.sql", "10"); ("sql_chunk_100.sql", "100");
         ("sql_chunk_11.sql", "11") ].
Proof.
  split; [| vm_compute; reflexivity].
  intros chunks Hlen.
  assert (Hfiles : BulkRestoreAll.chunk_files (Words.chunk_directory chunks)
                   = ExecuteSqlChunks.write_chunks chunks).
  { unfold BulkRestoreAll.chunk_files, Words.chunk_directory.
    rewrite forallb_filter_id.
    - apply sorted_by_key_of_sorted.
      change (map fst (ExecuteSqlChunks.write_chunks chunks))
        with (PyDict.keys (ExecuteSqlChunks.write_chunks chunks)).
      rewrite write_chunks_keys. now apply chunk_names_ascend.
    - pose proof (chunk_names_match_glob (List.length chunks) Hlen) as Hg.
      rewrite <- write_chunks_keys in Hg. unfold PyDict.keys in Hg.
      rewrite forallb_forall in *. intros f Hf.
      apply Hg. now apply in_map. }
  split; [exact Hfiles |].
  unfold BulkRestoreAll.all_sql. now rewrite Hfiles, write_chunks_contents.
Qed.

(** X10 on two chunks. *)
Lemma aggregator_reads_chunks_in_written_order_witness :
  (List.length ["first"; "second"] <= 99)%nat
  /\ BulkRestoreAll.chunk_files (Words.chunk_directory ["first"; "second"])
     = ExecuteSqlChunks.write_chunks ["first"; "second"].
Proof.
  assert (H : (List.length ["first"; "second"] <= 99)%nat) by (simpl; lia).
  split; [exact H |].
  exact (proj1 (proj1 aggregator_reads_chunks_in_written_order
                  ["first"; "second"] H)).
Defined.

(** ** Aggregator: which lines it emits *)
Section AggregatorFacts.
Import PyStr Words Newlines BulkRestoreAll.

Lemma last_char_app (a b : string) :
  b <> "" -> last_char (a ++ b) = last_char b.
Proof.
  intros Hb. induction a as [| x a IH]; [reflexivity |].
  cbn [append last_char]. rewrite IH.
  destruct (a ++ b) eqn:E; [| reflexivity].
  destruct a, b; simpl in E; congruence.
Qed.

Lemma last_char_lstrip (p : ascii -> bool) (s : string) (c : ascii) :
  last_char s = Some c -> p c = false ->
  last_char (lstrip_with p s) = Some c.
Proof.
  intros Hl Hc. induction s as [| a s IH]; [discriminate |].
  cbn [lstrip_with]. destruct (p a) eqn:Ea; [| exact Hl].
  destruct s as [| b s]; [simpl in Hl; congruence |].
  apply IH. exact Hl.
Qed.

Lemma rstrip_keeps (p : ascii -> bool) (s : string) (c : ascii) :
  last_char s = Some c -> p c = false -> rstrip_with p s = s.
Proof.
  intros Hl Hc. induction s as [| a s IH]; [reflexivity |].
  cbn [rstrip_with]. destruct s as [| b s].
  - simpl in Hl. injection Hl as ->. cbn. now rewrite Hc.
  - rewrite IH by exact Hl. cbn [nonempty negb]. now rewrite andb_false_r.
Qed.

Lemma last_char_strip (s : string) (c : ascii) :
  last_char s = Some c -> isspace c = false -> last_char (strip s) = Some c.
Proof.
  intros Hl Hc. unfold strip.
  pose proof (last_char_lstrip isspace s c Hl Hc) as H.
  now rewrite (rstrip_keeps isspace _ c H Hc).
Qed.

Lemma drop_to_last (s : string) :
  drop (String.length s - 1) s
  = match last_char s with Some c => String c "" | None => "" end.
Proof.
  induction s as [| a s IH]; [reflexivity |].
  destruct s as [| b s]; [reflexivity |].
  cbn [String.length Nat.sub drop last_char] in *.
  now rewrite Nat.sub_0_r in *.
Qed.

Lemma last_char_cons (a : ascii) (s : string) :
  exists c, last_char (String a s) = Some c.
Proof.
  revert a. induction s as [| b s IH]; intros a; [now exists a |].
  destruct (IH b) as [c Hc]. exists c. exact Hc.
Qed.

Lemma endswith_last_char (c : ascii) (s : string) :
  endswith (String c "") s
  = match last_char s with Some c' => Ascii.eqb c' c | None => false end.
Proof.
  unfold endswith. cbn [String.length]. rewrite drop_to_last.
  destruct s as [| a s]; [reflexivity |].
  cbn [String.length Nat.leb andb].
  destruct (last_char_cons a s) as [c' E]. rewrite E.
  cbn [String.eqb]. now destruct (Ascii.eqb c' c).
Qed.

Lemma strip_head (c : ascii) (r : string) :
  isspace c = false -> strip (String c r) = String c (rstrip_with isspace r).
Proof.
  intros Hc. unfold strip. cbn [lstrip_with]. rewrite Hc.
  cbn [rstrip_with]. rewrite Hc. reflexivity.
Qed.

Lemma strip_space (c : ascii) (r : string) :
  isspace c = true -> strip (String c r) = strip r.
Proof. intros Hc. unfold strip. cbn [lstrip_with]. now rewrite Hc. Qed.

Lemma step_skip (a : list string) (cur : list string) (l : string) :
  startswith "UPDATE requirements_library SET" (strip l) = false ->
  step (a, false, cur) l = (a, false, cur).
Proof. intros H. unfold step. now rewrite H. Qed.

Lemma step_open (a : list string) (b : bool) (cur : list string) (l : string) :
  startswith "UPDATE requirements_library SET" (strip l) = true ->
  step (a, b, cur) l = (a, true, [l]).
Proof. intros H. unfold step. now rewrite H. Qed.

Lemma step_body (a : list string) (cur : list string) (l : string) :
  startswith "UPDATE requirements_library SET" (strip l) = false ->
  endswith ";" (strip l) = false ->
  step (a, true, cur) l = (a, true, (cur ++ [l])%list).
Proof. intros H1 H2. unfold step. now rewrite H1, H2. Qed.

Lemma step_close (a : list string) (cur : list string) (l : string) :
  startswith "UPDATE requirements_library SET" (strip l) = false ->
  endswith ";" (strip l) = true ->
  step (a, true, cur) l = ((a ++ (cur ++ [l]) ++ [""])%list, false, []).
Proof. intros H1 H2. unfold step. now rewrite H1, H2. Qed.

Lemma ends_with_comma (a : string) :
  endswith ";" (strip (a ++ "',")) = false.
Proof.
  rewrite endswith_last_char.
  rewrite (last_char_strip (a ++ "',") ","%char);
    [reflexivity | now rewrite last_char_app | reflexivity].
Qed.

Lemma ends_with_semicolon (a : string) :
  endswith ";" (strip (a ++ "';")) = true.
Proof.
  rewrite endswith_last_char.
  rewrite (last_char_strip (a ++ "';") ";"%char);
    [reflexivity | now rewrite last_char_app | reflexivity].
Qed.

Lemma step_update_lines (a : list string)
    (item : string * ExecuteRestoration.req_data) :
  fold_left step (ExecuteRestoration.update_lines item) (a, false, [])
  = ((a ++ statement_block item)%list, false, []).
Proof.
  destruct item as [req_id d].
  unfold statement_block, ExecuteRestoration.update_lines.
  set (t := escape_quotes (ExecuteRestoration.title d)).
  set (ds := escape_quotes (ExecuteRestoration.description d)).
  set (preview := take 60 t).
  cbn [fold_left firstn skipn].
  rewrite step_skip by (cbn [append]; now rewrite strip_head).
  rewrite step_open by reflexivity.
  rewrite step_body;
    [| cbn [append]; rewrite !strip_space, strip_head by reflexivity;
       reflexivity
     | change ("  title = '" ++ t ++ "',")
         with ("  title = '" ++ (t ++ "',"));
       rewrite <- append_assoc; apply ends_with_comma ].
  rewrite step_body;
    [| cbn [append]; rewrite !strip_space, strip_head by reflexivity;
       reflexivity
     | rewrite <- append_assoc; apply ends_with_comma ].
  rewrite step_body by reflexivity.
  rewrite step_close;
    [| cbn [append]; rewrite strip_head by reflexivity; reflexivity
     | rewrite <- append_assoc; apply ends_with_semicolon ].
  rewrite step_skip by reflexivity.
  reflexivity.
Qed.

Lemma fold_step_statements (a : list string)
    (items : list (string * ExecuteRestoration.req_data)) :
  fold_left step (flat_map ExecuteRestoration.update_lines items)
    (a, false, [])
  = ((a ++ flat_map statement_block items)%list, false, []).
Proof.
  revert a. induction items as [| item items IH]; intros a.
  - cbn. now rewrite app_nil_r.
  - cbn [flat_map]. rewrite fold_left_app, step_update_lines, IH.
    now rewrite <- app_assoc.
Qed.

Lemma split_no_sep (sep : ascii) (s : string) :
  count_char sep s = O -> split sep s = [s].
Proof.
  induction s as [| c s IH]; [reflexivity |].
  cbn [count_char split]. destruct (Ascii.eqb c sep); [discriminate |].
  intros H. now rewrite IH.
Qed.

Lemma split_app_sep (sep : ascii) (a b : string) :
  count_char sep a = O ->
  split sep (a ++ String sep b) = a :: split sep b.
Proof.
  induction a as [| c a IH]; cbn [count_char append split].
  - intros _. now rewrite Ascii.eqb_refl.
  - destruct (Ascii.eqb c sep); [discriminate |].
    intros H. now rewrite IH.
Qed.

Lemma split_join_lines (lines : list string) :
  Forall lf_free lines -> lines <> [] ->
  split LF (join nl lines) = lines.
Proof.
  intros Hall Hne. induction Hall as [| l lines Hl Hall IH]; [congruence |].
  unfold join in *. cbn [String.concat].
  destruct lines as [| l' lines].
  - now apply split_no_sep.
  - change (l ++ nl ++ String.concat nl (l' :: lines))
      with (l ++ String LF (String.concat nl (l' :: lines))).
    rewrite split_app_sep by exact Hl. f_equal. apply IH. discriminate.
Qed.

Lemma process_statements (a : list string)
    (items : list (string * ExecuteRestoration.req_data)) :
  Forall clean items ->
  process_file a (join nl (flat_map ExecuteRestoration.update_lines items))
  = (a ++ flat_map statement_block items)%list.
Proof.
  intros Hclean. unfold process_file.
  destruct items as [| item items].
  - cbn. now rewrite app_nil_r.
  - rewrite split_join_lines.
    + now rewrite fold_step_statements.
    + apply Forall_flat_map. eapply Forall_impl; [| exact Hclean].
      intros it. apply update_lines_lf_free.
    + destruct item. discriminate.
Qed.

(** The Aggregator's state keeps to lines it has read. *)
Lemma fold_step_lines (seen : string -> Prop) (lines : list string)
    (a extra cur : list string) (b : bool) :
  Forall seen lines -> Forall (fun l => l = "" \/ seen l) extra ->
  Forall seen cur ->
  exists extra' cur' b',
    fold_left step lines ((a ++ extra)%list, b, cur)
    = ((a ++ extra')%list, b', cur')
    /\ Forall (fun l => l = "" \/ seen l) extra'.
Proof.
  intros Hlines. revert extra cur b.
  induction Hlines as [| l lines Hl Hlines IH]; intros extra cur b He Hc.
  - exists extra, cur, b. now split.
  - cbn [fold_left]. unfold step at 2.
    destruct (startswith "UPDATE requirements_library SET" (strip l)).
    + apply IH; [exact He | now constructor].
    + destruct b; [| now apply IH].
      destruct (endswith ";" (strip l)).
      * rewrite <- app_assoc. apply IH; [| constructor].
        apply Forall_app. split; [exact He |].
        apply Forall_app. split.
        -- apply Forall_app. split.
           ++ eapply Forall_impl; [| exact Hc]. intros; now right.
           ++ constructor; [now right | constructor].
        -- constructor; [now left | constructor].
      * apply IH; [exact He |].
        apply Forall_app. split; [exact Hc | now constructor].
Qed.
End AggregatorFacts.

Section AggregatorScriptFacts.
Import PyStr Words Newlines BulkRestoreAll ExecuteRestoration.

Lemma fold_step_standard_lines (a : list string)
    (targets : PyDict.dict req_data) (std : string * string) :
  fold_left step (standard_lines targets std) (a, false, [])
  = ((a ++ flat_map statement_block
             (filter
                (fun item => String.eqb (standard_id (snd item)) (snd std))
                targets))%list, false, []).
Proof.
  destruct std as [std_name std_id]. unfold standard_lines. cbn [snd].
  destruct (filter _ targets) as [| r rs].
  - cbn. now rewrite app_nil_r.
  - cbv zeta. cbn [fold_left].
    rewrite step_skip by (cbn [append]; now rewrite strip_head).
    rewrite step_skip by reflexivity.
    apply fold_step_statements.
Qed.

Lemma fold_step_standards (a : list string) (targets : PyDict.dict req_data)
    (stds : list (string * string)) :
  fold_left step (flat_map (standard_lines targets) stds) (a, false, [])
  = ((a ++ flat_map statement_block
             (flat_map
                (fun std : string * string =>
                   filter
                     (fun item =>
                        String.eqb (standard_id (snd item)) (snd std))
                     targets) stds))%list, false, []).
Proof.
  revert a. induction stds as [| std stds IH]; intros a.
  - cbn. now rewrite app_nil_r.
  - cbn [flat_map]. rewrite fold_left_app, fold_step_standard_lines, IH.
    now rewrite flat_map_app, app_assoc.
Qed.

Lemma process_file_lines (seen : string -> Prop) (a extra : list string)
    (content : string) :
  (forall l, In l (split LF content) -> seen l) ->
  Forall (fun l => l = "" \/ seen l) extra ->
  exists extra',
    process_file (a ++ extra) content = (a ++ extra')%list
    /\ Forall (fun l => l = "" \/ seen l) extra'.
Proof.
  intros Hseen He. unfold process_file.
  destruct (fold_step_lines seen (split LF content) a extra [] false)
    as (extra' & cur' & b' & Hfold & Hall);
    [now apply Forall_forall | exact He | constructor |].
  exists extra'. now rewrite Hfold.
Qed.

Lemma fold_process_lines (seen : string -> Prop) (a : list string)
    (contents : list string) (extra : list string) :
  (forall c l, In c contents -> In l (split LF c) -> seen l) ->
  Forall (fun l => l = "" \/ seen l) extra ->
  exists extra',
    fold_left process_file contents (a ++ extra)%list = (a ++ extra')%list
    /\ Forall (fun l => l = "" \/ seen l) extra'.
Proof.
  revert extra. induction contents as [| c contents IH]; intros extra Hs He.
  - exists extra. now split.
  - cbn [fold_left].
    destruct (process_file_lines seen a extra c) as (e1 & -> & H1);
      [intros l Hl; apply (Hs c); [now left | exact Hl] | exact He |].
    apply IH; [| exact H1].
    intros c' l Hc Hl. apply (Hs c'); [now right | exact Hl].
Qed.
End AggregatorScriptFacts.

(** X11: were the generator's lines separated by newline characters, the
    Aggregator would return exactly the UPDATE statements: processing the
    generator's lines joined by newlines appends, for every target
    requirement in the generator's order, its five lines from [UPDATE] to
    the [WHERE] line and one empty line, and nothing else; headers,
    comment lines and the verification query are dropped. *)
Theorem aggregator_recovers_generated_statements :
  forall (content : string) (acc : list string),
    BulkRestoreAll.process_file acc
      (PyStr.join PyStr.nl (ExecuteRestoration.sql_statements content))
    = (acc ++ flat_map Words.statement_block
                (Words.targets_by_standard content))%list.
Proof.
  intros content acc. unfold BulkRestoreAll.process_file.
  rewrite split_join_lines;
    [| apply sql_statements_lf_free
     | rewrite sql_statements_shape; discriminate ].
  rewrite sql_statements_shape, !fold_left_app.
  change (fold_left BulkRestoreAll.step ExecuteRestoration.header_lines
            (acc, false, []))
    with (acc, false, @nil string).
  rewrite fold_step_standards.
  unfold Words.targets_by_standard.
  set (blocks := (acc ++ _)%list).
  vm_compute (skipn 4 (ExecuteRestoration.sql_statements "")).
  reflexivity.
Qed.

(** X12: the Aggregator never emits a line it has not read: its output is
    its three header lines followed only by empty lines and lines of files
    whose names match [sql_chunk_*.sql]; in a directory where no name
    matches, the output is the header alone. *)
Theorem aggregator_emits_only_chunk_lines :
  forall dir : list (string * string),
    (exists extra : list string,
       BulkRestoreAll.all_sql dir = (BulkRestoreAll.header ++ extra)%list
       /\ Forall
            (fun l =>
               l = ""
               \/ exists f, In f dir
                            /\ BulkRestoreAll.glob_match (fst f) = true
                            /\ In l (PyStr.split PyStr.LF (snd f)))
            extra)
    /\ ((forall f, In f dir -> BulkRestoreAll.glob_match (fst f) = false) ->
        BulkRestoreAll.all_sql dir = BulkRestoreAll.header).
Proof.
  intros dir. split.
  - unfold BulkRestoreAll.all_sql.
    destruct (fold_process_lines
                (fun l => exists f, In f dir
                            /\ BulkRestoreAll.glob_match (fst f) = true
                            /\ In l (PyStr.split PyStr.LF (snd f)))
                BulkRestoreAll.header
                (map snd (BulkRestoreAll.chunk_files dir)) [])
      as (extra & Hfold & Hall); [| constructor |].
    + intros c l Hc Hl. apply in_map_iff in Hc.
      destruct Hc as (f & <- & Hf). exists f.
      unfold BulkRestoreAll.chunk_files in Hf.
      apply (Permutation_in _ (sorted_by_key_perm _)) in Hf.
      apply filter_In in Hf. tauto.
    + rewrite app_nil_r in Hfold. exists extra. now split.
  - intros Hnone. unfold BulkRestoreAll.all_sql, BulkRestoreAll.chunk_files.
    replace (filter (fun f => BulkRestoreAll.glob_match (fst f)) dir)
      with (@nil (string * string)); [reflexivity |].
    symmetry. induction dir as [| f dir IH]; [reflexivity |].
    cbn [filter]. rewrite (Hnone f (or_introl eq_refl)).
    apply IH. intros g Hg. apply Hnone. now right.
Qed.

(** X12 on a directory without chunk files. *)
Lemma aggregator_emits_only_chunk_lines_witness :
  (forall f, In f Words.other_files ->
             BulkRestoreAll.glob_match (fst f) = false)
  /\ BulkRestoreAll.all_sql Words.other_files = BulkRestoreAll.header.
Proof.
  assert (H : forall f, In f Words.other_files ->
                        BulkRestoreAll.glob_match (fst f) = false).
  { intros f [<- | [<- | []]]; reflexivity. }
  split; [exact H |].
  exact (proj2 (aggregator_emits_only_chunk_lines Words.other_files) H).
Defined.

(** ** Chunk runner *)
Section RunnerFacts.
Import PyStr Words CompleteRestoration.

Lemma rstrip_nonempty (s : string) :
  nonempty (rstrip_with isspace s) = has_nonspace s.
Proof.
  induction s as [| c s IH]; [reflexivity |].
  cbn [rstrip_with has_nonspace]. rewrite <- IH.
  destruct (isspace c), (nonempty (rstrip_with isspace s)); reflexivity.
Qed.

Lemma lstrip_has_nonspace (s : string) :
  has_nonspace (lstrip_with isspace s) = has_nonspace s.
Proof.
  induction s as [| c s IH]; [reflexivity |].
  cbn [lstrip_with]. destruct (isspace c) eqn:E; [| reflexivity].
  cbn [has_nonspace]. now rewrite E, IH.
Qed.

Lemma strip_nonempty (s : string) : nonempty (strip s) = has_nonspace s.
Proof. unfold strip. now rewrite rstrip_nonempty, lstrip_has_nonspace. Qed.

Lemma has_nonspace_app (a b : string) :
  has_nonspace (a ++ b) = has_nonspace a || has_nonspace b.
Proof.
  induction a as [| c a IH]; [reflexivity |].
  cbn [append has_nonspace]. rewrite IH. apply orb_assoc.
Qed.

Lemma join_has_nonspace (lines : list string) :
  has_nonspace (join nl lines) = existsb has_nonspace lines.
Proof.
  unfold join. induction lines as [| l lines IH]; [reflexivity |].
  cbn [String.concat existsb]. destruct lines as [| l' lines].
  - cbn [existsb]. now rewrite orb_false_r.
  - rewrite !has_nonspace_app, IH. reflexivity.
Qed.

Lemma cleaned_sql_nonempty (sql_content : string) :
  nonempty (strip (join nl (sql_lines sql_content)))
  = existsb
      (fun line =>
         nonempty (strip line) && negb (startswith "--" (strip line)))
      (split LF sql_content).
Proof.
  rewrite strip_nonempty, join_has_nonspace. unfold sql_lines.
  induction (split LF sql_content) as [| l lines IH]; [reflexivity |].
  cbn [filter existsb].
  destruct (nonempty (strip l) && negb (startswith "--" (strip l))) eqn:E.
  - cbn [existsb]. apply andb_prop in E. destruct E as [E _].
    rewrite strip_nonempty in E. now rewrite E.
  - exact IH.
Qed.

Lemma count_from_spec (dir : directory) (fuel i c : nat) :
  i = S c ->
  (c <= count_from dir i fuel c <= c + fuel)%nat
  /\ (forall j, (i <= j <= count_from dir i fuel c)%nat ->
                exists_file dir (chunk_file j) = true)
  /\ ((count_from dir i fuel c < c + fuel)%nat ->
      exists_file dir (chunk_file (S (count_from dir i fuel c))) = false).
Proof.
  revert i c. induction fuel as [| fuel IH]; intros i c Hi; cbn [count_from].
  - split; [lia |]. split; [intros j Hj; lia | lia].
  - destruct (exists_file dir (chunk_file i)) eqn:E.
    + destruct (IH (S i) i eq_refl) as (Hb & Hall & Hnext).
      split; [lia |]. split.
      * intros j Hj. destruct (Nat.eq_dec j i) as [-> | Hne]; [exact E |].
        apply Hall. lia.
      * intros Hlt. apply Hnext. lia.
    + split; [lia |]. split; [intros j Hj; lia |].
      intros _. now rewrite <- Hi.
Qed.

Lemma exists_written (chunks : list string) (i : nat) :
  exists_file (chunk_directory chunks) (chunk_file (S i))
  = (i <? List.length chunks)%nat.
Proof.
  unfold exists_file, chunk_directory.
  change (chunk_file (S i)) with ("sql_chunk_" ++ format_02d (S i) ++ ".sql").
  replace (S i) with (i + 1)%nat by lia.
  change ("sql_chunk_" ++ format_02d (i + 1) ++ ".sql")
    with (ExecuteSqlChunks.chunk_file i).
  destruct (Nat.ltb_spec i (List.length chunks)) as [Hlt | Hge].
  - destruct (nth_error chunks i) as [chunk |] eqn:E.
    + rewrite (dict_get_in _ (ExecuteSqlChunks.chunk_file i) chunk);
        [reflexivity | apply write_chunks_nodup |].
      apply (nth_error_In _ i).
      unfold ExecuteSqlChunks.write_chunks, ExecuteSqlChunks.enumerate.
      now rewrite (write_chunks_from 0 chunks i chunk E).
    + apply nth_error_None in E. lia.
  - assert (Hnone : PyDict.get (ExecuteSqlChunks.chunk_file i)
                      (ExecuteSqlChunks.write_chunks chunks) = None).
    { apply dict_get_none. rewrite write_chunks_keys. intros Hin.
      apply in_map_iff in Hin. destruct Hin as (j & Hj & Hin).
      apply batcher_chunk_file_injective in Hj. subst j.
      apply in_seq in Hin. lia. }
    now rewrite Hnone.
Qed.
End RunnerFacts.

(** X13: the chunk runner counts the chunk files numbered consecutively
    from 1 and never more than 99: every number up to its count has a file,
    and below 99 the next number has none.  A chunk counts as executed
    exactly when its file exists and holds a line that is neither blank
    (empty once white space, the no-break space and the next-line character
    included, is stripped) nor a comment, so the executed count never
    exceeds the chunk count.  On the
    directory written by the Batcher the count is the number of chunks, or
    99 when there are more. *)
Theorem runner_counts_consecutive_chunks :
  forall dir : CompleteRestoration.directory,
    (CompleteRestoration.chunk_count dir <= 99)%nat
    /\ (forall j : nat,
          (1 <= j <= CompleteRestoration.chunk_count dir)%nat ->
          CompleteRestoration.exists_file dir
            (CompleteRestoration.chunk_file j) = true)
    /\ ((CompleteRestoration.chunk_count dir < 99)%nat ->
        CompleteRestoration.exists_file dir
          (CompleteRestoration.chunk_file
             (S (CompleteRestoration.chunk_count dir))) = false)
    /\ (CompleteRestoration.executed dir
        <= CompleteRestoration.chunk_count dir)%nat
    /\ (forall (i : nat) (project_id : string),
          CompleteRestoration.run_sql_chunk dir i project_id
          = match PyDict.get (CompleteRestoration.chunk_file i) dir with
            | Some sql_content =>
                existsb
                  (fun line =>
                     PyStr.nonempty (PyStr.strip line)
                     && negb (PyStr.startswith "--" (PyStr.strip line)))
                  (PyStr.split PyStr.LF sql_content)
            | None => false
            end)
    /\ (forall chunks : list string,
          CompleteRestoration.chunk_count (Words.chunk_directory chunks)
          = Nat.min 99 (List.length chunks)).
Proof.
  intros dir.
  destruct (count_from_spec dir 99 1 0 eq_refl) as (Hb & Hall & Hnext).
  fold (CompleteRestoration.chunk_count dir) in Hb, Hall, Hnext.
  split; [lia |]. split; [exact Hall |]. split; [exact Hnext |].
  split; [| split].
  - unfold CompleteRestoration.executed.
    pose proof (filter_length_le
                  (fun i => CompleteRestoration.run_sql_chunk dir i
                              CompleteRestoration.project_id)
                  (seq 1 (CompleteRestoration.chunk_count dir))) as H.
    now rewrite length_seq in H.
  - intros i pid. unfold CompleteRestoration.run_sql_chunk.
    destruct (PyDict.get (CompleteRestoration.chunk_file i) dir);
      [apply cleaned_sql_nonempty | reflexivity].
  - intros chunks.
    destruct (count_from_spec (Words.chunk_directory chunks) 99 1 0 eq_refl)
      as (Hb' & Hall' & Hnext').
    fold (CompleteRestoration.chunk_count (Words.chunk_directory chunks))
      in Hb', Hall', Hnext'.
    set (r := CompleteRestoration.chunk_count (Words.chunk_directory chunks))
      in *.
    assert (Hle : (r <= List.length chunks)%nat).
    { destruct r as [| r']; [lia |].
      specialize (Hall' (S r') ltac:(lia)).
      rewrite exists_written in Hall'. apply Nat.ltb_lt in Hall'. lia. }
    destruct (Nat.lt_ge_cases r 99) as [Hlt | Hge]; [| lia].
    specialize (Hnext' ltac:(lia)). rewrite exists_written in Hnext'.
    apply Nat.ltb_ge in Hnext'. lia.
Qed.

(** X13 on the directory of two chunks, the second of which holds only a
    comment; a chunk that holds only a no-break space is blank and does not
    count as executed. *)
Lemma runner_counts_consecutive_chunks_witness :
  (1 <= 2 <= CompleteRestoration.chunk_count
              (Words.chunk_directory ["UPDATE t SET x;"; "-- note"]))%nat
  /\ CompleteRestoration.exists_file
       (Words.chunk_directory ["UPDATE t SET x;"; "-- note"])
       (CompleteRestoration.chunk_file 2) = true
  /\ (CompleteRestoration.chunk_count
        (Words.chunk_directory ["UPDATE t SET x;"; "-- note"]) < 99)%nat
  /\ CompleteRestoration.exists_file
       (Words.chunk_directory ["UPDATE t SET x;"; "-- note"])
       (CompleteRestoration.chunk_file 3) = false
  /\ CompleteRestoration.main
       (Words.chunk_directory ["UPDATE t SET x;"; "-- note"]) = (2, 1)%nat
  /\ CompleteRestoration.run_sql_chunk
       (Words.chunk_directory [String (ascii_of_nat 160) EmptyString]) 1
       CompleteRestoration.project_id = false.
Proof.
  destruct (runner_counts_consecutive_chunks
              (Words.chunk_directory ["UPDATE t SET x;"; "-- note"]))
    as (_ & Hall & Hnext & _ & _ & Hcount).
  assert (Hc : CompleteRestoration.chunk_count
                 (Words.chunk_directory ["UPDATE t SET x;"; "-- note"])
               = 2%nat) by (rewrite Hcount; reflexivity).
  assert (H1 : (1 <= 2 <= CompleteRestoration.chunk_count
              (Words.chunk_directory ["UPDATE t SET x;"; "-- note"]))%nat)
    by (rewrite Hc; lia).
  assert (H2 : (CompleteRestoration.chunk_count
        (Words.chunk_directory ["UPDATE t SET x;"; "-- note"]) < 99)%nat)
    by (rewrite Hc; lia).
  split; [exact H1 |]. split; [exact (Hall 2%nat H1) |].
  split; [exact H2 |].
  split; [rewrite <- Hc at 1; exact (Hnext H2) |].
  split; vm_compute; reflexivity.
Defined.

(** ** The analysis run *)
Section FoldEmptyFacts.
Context {V : Type}.
Variable f : PyDict.dict V -> string -> PyDict.dict V.
Variable accepted : string -> bool.
Hypothesis f_skip : forall d l, accepted l = false -> f d l = d.
Hypothesis f_keep : forall d l, accepted l = true -> f d l <> [].
Hypothesis f_grow : forall d l, d <> [] -> f d l <> [].

Lemma fold_stays_nonempty (lines : list string) (d : PyDict.dict V) :
  d <> [] -> fold_left f lines d <> [].
Proof.
  revert d. induction lines as [| l lines IH]; intros d Hd; [exact Hd |].
  cbn [fold_left]. apply IH. now apply f_grow.
Qed.

Lemma fold_empty_iff (lines : list string) :
  fold_left f lines [] = [] <-> forall l, In l lines -> accepted l = false.
Proof.
  induction lines as [| l lines IH]; [cbn; tauto |].
  cbn [fold_left]. destruct (accepted l) eqn:E.
  - split.
    + intros H. exfalso.
      apply (fold_stays_nonempty lines (f [] l)); [now apply f_keep | exact H].
    + intros H. rewrite (H l (or_introl eq_refl)) in E. discriminate.
  - rewrite (f_skip [] l E), IH. split.
    + intros H l' [<- | Hin]; [exact E | now apply H].
    + intros H l' Hin. apply H. now right.
Qed.
End FoldEmptyFacts.

Section AnalysisFacts.
Import PyStr RestoreRequirements RestoreRequirementsMain Words.

Lemma dict_set_nonempty {V : Type} (k : string) (v : V) (d : PyDict.dict V) :
  PyDict.set k v d <> [].
Proof.
  destruct d as [| [k' v'] d]; cbn [PyDict.set]; [discriminate |].
  destruct (String.eqb k' k); discriminate.
Qed.

Lemma standards_empty_iff (lines : list string) :
  fold_left parse_standard lines [] = []
  <-> forall l, In l lines -> accepted_standard l = false.
Proof.
  apply fold_empty_iff; unfold parse_standard, accepted_standard.
  - intros d l H. destruct (nonempty (strip l)); [| reflexivity].
    cbn [andb] in H. now rewrite H.
  - intros d l H. apply andb_prop in H. destruct H as [-> ->].
    apply dict_set_nonempty.
  - intros d l Hd. destruct (nonempty (strip l)); [| exact Hd].
    destruct (3 <=? List.length (split TAB l))%nat; [| exact Hd].
    apply dict_set_nonempty.
Qed.

Lemma requirements_empty_iff (lines : list string) :
  fold_left parse_requirement lines [] = []
  <-> forall l, In l lines -> LightRows.well_formed l = false.
Proof.
  apply fold_empty_iff; intros d l; rewrite parse_requirement_unfold.
  - now intros ->.
  - intros ->. apply dict_set_nonempty.
  - intros Hd. destruct (LightRows.well_formed l); [| exact Hd].
    apply dict_set_nonempty.
Qed.

Lemma extract_backup_data_both (content : string) :
  contains "COPY public.standards_library" content = true ->
  contains "COPY public.requirements_library" content = true ->
  extract_backup_data content
  = Some (fold_left parse_standard (standards_lines content) [],
          fold_left parse_requirement (guarded_lines content) []).
Proof.
  intros Hs Hr. apply find_present in Hs, Hr.
  unfold extract_backup_data. cbv zeta.
  destruct (Z.eqb_spec (find content "COPY public.standards_library" 0) (-1));
    [contradiction |].
  destruct (Z.eqb_spec (find content "COPY public.requirements_library" 0) (-1));
    [contradiction |].
  reflexivity.
Qed.

Lemma list_sum_lengths {A : Type} (ls : list (list A)) :
  list_sum (map (@List.length A) ls) = List.length (concat ls).
Proof.
  induction ls as [| l ls IH]; [reflexivity |].
  cbn [map concat]. rewrite length_app, <- IH. reflexivity.
Qed.

Lemma dict_get_in_values {V : Type} (d : PyDict.dict V) (k : string) (v : V) :
  PyDict.get k d = Some v -> In v (PyDict.values d).
Proof.
  unfold PyDict.values.
  induction d as [| [k' v'] d IH]; [discriminate |].
  cbn [PyDict.get map snd]. destruct (String.eqb k' k).
  - intros [= ->]. now left.
  - intros H. right. now apply IH.
Qed.

Lemma in_list_sum (n : nat) (l : list nat) : In n l -> (n <= list_sum l)%nat.
Proof.
  induction l as [| m l IH]; [easy |].
  change (list_sum (m :: l)) with (m + list_sum l)%nat.
  intros [-> | Hin]; [lia |]. specialize (IH Hin). lia.
Qed.

Lemma requirements_of_bound (target : option string)
    (groups : PyDict.dict (list requirement)) :
  (List.length (requirements_of target groups)
   <= list_sum (map (@List.length requirement) (PyDict.values groups)))%nat.
Proof.
  unfold requirements_of. destruct target as [k |]; [| simpl; lia].
  destruct (PyDict.get k groups) as [reqs |] eqn:E; [| simpl; lia].
  apply in_list_sum, in_map, (dict_get_in_values _ k), E.
Qed.

Lemma is_empty_true {A : Type} (l : list A) : is_empty l = true <-> l = [].
Proof. destruct l; simpl; split; congruence. Qed.

Lemma digits_to_end_no_dot (s : string) :
  digits_to_end s = true -> count_char "." s = O.
Proof.
  induction s as [| c s IH]; [reflexivity |].
  cbn [digits_to_end count_char].
  destruct (is_digit c) eqn:Ed.
  - intros H. rewrite (IH H).
    destruct (Ascii.eqb_spec c "."); [subst c; discriminate | reflexivity].
  - intros H. apply andb_prop in H. destruct H as [Hc Hs].
    apply Ascii.eqb_eq in Hc. subst c. destruct s; [reflexivity | discriminate].
Qed.
End AnalysisFacts.

(** X14: the analysis run aborts exactly when a block marker is absent, or
    no line of the stripped standards section is stored (not blank, at
    least three fields), or no non-blank line of the stripped requirements
    section has at least five fields.  When it reports, the total it prints
    is the number of non-blank lines of the stripped requirements section
    with at least five fields, at least one standard and one requirement
    were parsed, and the ISO counts are bounded by the total, the format
    count by the ISO 27001 count.  The sections are stripped before they
    are split into lines, so trailing empty fields of a last row are not
    counted as fields. *)
Theorem analysis_aborts_or_reports_totals :
  forall content : string,
    (RestoreRequirementsMain.main content = None
     <-> (PyStr.contains "COPY public.standards_library" content = false
          \/ PyStr.contains "COPY public.requirements_library" content = false
          \/ (forall l, In l (Words.standards_lines content) ->
                        Words.accepted_standard l = false)
          \/ (forall l, In l (Words.guarded_lines content) ->
                        LightRows.well_formed l = false)))
    /\ (forall s : RestoreRequirementsMain.summary,
          RestoreRequirementsMain.main content = Some s ->
          RestoreRequirementsMain.total_requirements s
          = List.length
              (filter LightRows.well_formed (Words.guarded_lines content))
          /\ (1 <= RestoreRequirementsMain.total_standards s)%nat
          /\ (1 <= RestoreRequirementsMain.total_requirements s)%nat
          /\ (RestoreRequirementsMain.iso27001_format_count s
              <= RestoreRequirementsMain.iso27001_count s
              <= RestoreRequirementsMain.total_requirements s)%nat
          /\ (RestoreRequirementsMain.iso27002_count s
              <= RestoreRequirementsMain.total_requirements s)%nat).
Proof.
  intros content. unfold RestoreRequirementsMain.main.
  destruct (PyStr.contains "COPY public.standards_library" content) eqn:Hs.
  2:{ rewrite guarded_parser_reports_missing_marker by now left.
      split; [split; [intros _; now left | reflexivity] | discriminate]. }
  destruct (PyStr.contains "COPY public.requirements_library" content) eqn:Hr.
  2:{ rewrite guarded_parser_reports_missing_marker by now right.
      split; [split; [intros _; right; now left | reflexivity] | discriminate]. }
  rewrite (extract_backup_data_both content Hs Hr).
  set (sm := fold_left RestoreRequirements.parse_standard
               (Words.standards_lines content) []).
  set (groups := fold_left RestoreRequirements.parse_requirement
                   (Words.guarded_lines content) []).
  pose proof (standards_empty_iff (Words.standards_lines content)) as Hse.
  pose proof (requirements_empty_iff (Words.guarded_lines content)) as Hre.
  fold sm in Hse. fold groups in Hre.
  destruct (RestoreRequirementsMain.is_empty sm) eqn:Es.
  { apply is_empty_true in Es. cbn [orb].
    split; [split; [intros _; right; right; left; now apply Hse | reflexivity]
           | discriminate]. }
  destruct (RestoreRequirementsMain.is_empty groups) eqn:Eg.
  { apply is_empty_true in Eg. cbn [orb].
    split; [split; [intros _; right; right; right; now apply Hre | reflexivity]
           | discriminate]. }
  cbn [orb]. split.
  - split; [discriminate |].
    intros [H | [H | [H | H]]]; try discriminate.
    + apply Hse in H. apply is_empty_true in H. congruence.
    + apply Hre in H. apply is_empty_true in H. congruence.
  - intros s [= <-]. cbn.
    assert (Htotal :
      list_sum (map (@List.length RestoreRequirements.requirement)
                  (PyDict.values groups))
      = List.length
          (filter LightRows.well_formed (Words.guarded_lines content))).
    { rewrite list_sum_lengths. apply fold_requirement_total. }
    pose proof (requirements_of_bound
                  (RestoreRequirements.iso27001_id
                     (RestoreRequirements.find_target_standards sm groups))
                  groups) as H1.
    pose proof (requirements_of_bound
                  (RestoreRequirements.iso27002_id
                     (RestoreRequirements.find_target_standards sm groups))
                  groups) as H2.
    pose proof (filter_length_le
                  (fun req => RestoreRequirementsMain.format_match
                                (RestoreRequirements.control_id req))
                  (RestoreRequirementsMain.requirements_of
                     (RestoreRequirements.iso27001_id
                        (RestoreRequirements.find_target_standards sm groups))
                     groups)) as H3.
    assert (Hsm : (1 <= List.length sm)%nat)
      by (destruct sm; [discriminate | simpl; lia]).
    assert (Hg : (1 <= List.length
                    (filter LightRows.well_formed
                       (Words.guarded_lines content)))%nat).
    { destruct (filter LightRows.well_formed (Words.guarded_lines content))
        as [| x xs] eqn:Ef; [| simpl; lia].
      exfalso. assert (Hnil : groups = []).
      { apply Hre. intros l Hl.
        destruct (LightRows.well_formed l) eqn:El; [| reflexivity].
        assert (Hin : In l (filter LightRows.well_formed
                              (Words.guarded_lines content)))
          by (apply filter_In; now split).
        rewrite Ef in Hin. contradiction. }
      rewrite Hnil in Eg. discriminate. }
    rewrite Htotal in *. repeat split; try lia; assumption.
Qed.

(** X14 on the backup with two standards and three requirements, and on a
    backup without markers. *)
Lemma analysis_aborts_or_reports_totals_witness :
  RestoreRequirementsMain.main Words.two_block_backup
  = Some (RestoreRequirementsMain.mk_summary 2 3 1 2 2)
  /\ RestoreRequirementsMain.total_requirements
       (RestoreRequirementsMain.mk_summary 2 3 1 2 2)
     = List.length
         (filter LightRows.well_formed
            (Words.guarded_lines Words.two_block_backup))
  /\ RestoreRequirementsMain.main "" = None.
Proof.
  assert (H : RestoreRequirementsMain.main Words.two_block_backup
              = Some (RestoreRequirementsMain.mk_summary 2 3 1 2 2))
    by (vm_compute; reflexivity).
  split; [exact H |]. split.
  - exact (proj1 (proj2 (analysis_aborts_or_reports_totals
                           Words.two_block_backup) _ H)).
  - apply (proj1 (analysis_aborts_or_reports_totals "")).
    left. reflexivity.
Defined.

(** X15: the ISO 27001 format check accepts a control id only if it is one
    digit from 4 to 9, a dot and at least one more character with no
    further dot; so ids of clause 10 such as 10.1 and 10.2, ids of clauses
    1 to 3 and three-level ids such as 6.1.2 are never counted. *)
Theorem format_check_accepts_single_digit_clause :
  (forall control_id : string,
     RestoreRequirementsMain.format_match control_id = true ->
     exists (c : ascii) (rest : string),
       control_id = String c (String "." rest)
       /\ (52 <= N_of_ascii c <= 57)%N
       /\ rest <> ""
       /\ PyStr.count_char "." rest = O)
  /\ (forall rest : string,
        RestoreRequirementsMain.format_match ("10." ++ rest) = false)
  /\ RestoreRequirementsMain.format_match "6.1.2" = false
  /\ RestoreRequirementsMain.format_match "3.1" = false
  /\ RestoreRequirementsMain.format_match "9.12" = true.
Proof.
  split; [| repeat split; try reflexivity; intros rest; reflexivity].
  intros control_id H. unfold RestoreRequirementsMain.format_match in H.
  destruct control_id as [| c [| dot [| d rest]]]; try discriminate.
  apply andb_prop in H. destruct H as [H Hrest].
  apply andb_prop in H. destruct H as [H Hd].
  apply andb_prop in H. destruct H as [Hc Hdot].
  apply Ascii.eqb_eq in Hdot. subst dot.
  apply andb_prop in Hc. destruct Hc as [Hc1 Hc2].
  apply N.leb_le in Hc1, Hc2.
  exists c, (String d rest). split; [reflexivity |].
  split; [lia |]. split; [discriminate |].
  cbn [PyStr.count_char].
  rewrite (digits_to_end_no_dot rest Hrest).
  destruct (Ascii.eqb_spec d "."); [subst d; discriminate | reflexivity].
Qed.

(** X15 on the control id 4.1. *)
Lemma format_check_accepts_single_digit_clause_witness :
  RestoreRequirementsMain.format_match "4.1" = true
  /\ exists (c : ascii) (rest : string),
       "4.1" = String c (String "." rest)
       /\ (52 <= N_of_ascii c <= 57)%N
       /\ rest <> ""
       /\ PyStr.count_char "." rest = O.
Proof.
  assert (H : RestoreRequirementsMain.format_match "4.1" = true)
    by reflexivity.
  split; [exact H |].
  exact (proj1 format_check_accepts_single_digit_clause "4.1" H).
Defined.
